(** * The adapter packing command ([scripts/cli/pack.py])

    A shallow embedding of [AdapterPackCommand]: the Python values the command
    handles, the insertion-ordered dictionaries it mutates, the path and string
    helpers it calls, the file tree it reads and writes, and the command's
    methods as computations over an explicit world state.  [run] takes the
    extraction of adapters from full models, which the transformers library
    does, as a parameter; [register_subcommand], which declares the command
    line, is not part of it. *)

From Stdlib Require Import String Ascii List ZArith QArith Lia Bool Arith.
From Stdlib Require Import DecimalString.
Import ListNotations.
Open Scope string_scope.
Open Scope list_scope.
Open Scope Z_scope.

Set Warnings "-register-all".

(** ** Insertion-ordered association lists

    A Python [dict] keeps its keys in insertion order, and assigning to an
    existing key keeps that key's position.  The same structure serves for the
    entries of a directory, whose listing order is whatever the directory
    holds. *)

Module AList.
Section Ops.
Context {V : Type}.

(** [d.get(k)] / [d[k]]: the binding of the first occurrence of [k]. *)
Fixpoint get (k : string) (l : list (string * V)) : option V :=
  match l with
  | [] => None
  | (k', v) :: l' => if String.eqb k k' then Some v else get k l'
  end.

(** [k in d] *)
Definition has (k : string) (l : list (string * V)) : bool :=
  match get k l with Some _ => true | None => false end.

(** [d[k] = v]: overwrite in place, or append a new key at the end. *)
Fixpoint set (k : string) (v : V) (l : list (string * V)) : list (string * V) :=
  match l with
  | [] => [(k, v)]
  | (k', v') :: l' =>
      if String.eqb k k' then (k, v) :: l' else (k', v') :: set k v l'
  end.

(** [for k, v in src.items(): d[k] = v] *)
Definition update (d src : list (string * V)) : list (string * V) :=
  fold_left (fun acc kv => set (fst kv) (snd kv) acc) src d.

(** [d.pop(k)] on a key that is present: the dictionary without it. *)
Fixpoint remove (k : string) (l : list (string * V)) : list (string * V) :=
  match l with
  | [] => []
  | (k', v') :: l' =>
      if String.eqb k k' then l' else (k', v') :: remove k l'
  end.

Definition keys (l : list (string * V)) : list string := map fst l.

(** A well-formed dictionary binds each key once. *)
Definition wf (l : list (string * V)) : Prop := NoDup (keys l).
End Ops.
End AList.

(** ** Python values

    What [json.load] and [yaml.load] return, and what the prompts answer. *)

Inductive value : Type :=
| VNone
| VBool (b : bool)
| VInt (n : Z)
| VFloat (q : Q)
| VStr (s : string)
| VList (xs : list value)
| VDict (kv : list (string * value)).

Definition dict : Type := list (string * value).

(** Truth value testing, as [if x:] / [not x] / [x or y] apply it. *)
Definition truthy (v : value) : bool :=
  match v with
  | VNone => false
  | VBool b => b
  | VInt n => negb (n =? 0)
  | VFloat q => negb (Qeq_bool q 0)
  | VStr s => negb (String.eqb s "")
  | VList xs => match xs with [] => false | _ => true end
  | VDict kv => match kv with [] => false | _ => true end
  end.

(** Lists and dictionaries are unhashable; everything else can key a dict. *)
Definition hashable (v : value) : bool :=
  match v with
  | VList _ | VDict _ => false
  | _ => true
  end.

(** ** Lines 205-210 and 252-254 of [pack_adapter], the two dictionary merges *)

(** [adapter_data = adapter_data or {}] *)
Definition or_empty (adapter_data : option dict) : dict :=
  match adapter_data with
  | Some d => if truthy (VDict d) then d else []
  | None => []
  end.

(** [for k, v in config.items(): adapter_data[k] = v] on the caller's data. *)
Definition add_config (adapter_data : option dict) (config : dict) : dict :=
  AList.update (or_empty adapter_data) config.

(** One turn of the loop of line 252:
    [if key in template and key != "config": template[key] = adapter_data[key]] *)
Definition fill_key (adapter_data : dict) (template : dict) (key : string) : dict :=
  if AList.has key template && negb (String.eqb key "config") then
    match AList.get key adapter_data with
    | Some v => AList.set key v template
    | None => template
    end
  else template.

(** [for key in adapter_data: ...] *)
Definition fill_template (adapter_data template : dict) : dict :=
  fold_left (fill_key adapter_data) (AList.keys adapter_data) template.

(** ** Strings and paths *)

Module Str.
(** [sep.join(parts)] *)
Definition join (sep : string) (parts : list string) : string :=
  String.concat sep parts.

(** [s.replace(old, new)] for one-character [old] and [new]. *)
Fixpoint replace (old new : ascii) (s : string) : string :=
  match s with
  | EmptyString => EmptyString
  | String c s' =>
      String (if Ascii.eqb c old then new else c) (replace old new s')
  end.

(** [c in s] for a character. *)
Fixpoint mem (c : ascii) (s : string) : bool :=
  match s with
  | EmptyString => false
  | String c' s' => Ascii.eqb c c' || mem c s'
  end.

(** [s.endswith(c)] *)
Fixpoint ends_with (c : ascii) (s : string) : bool :=
  match s with
  | EmptyString => false
  | String c' EmptyString => Ascii.eqb c c'
  | String _ s' => ends_with c s'
  end.

(** [s.startswith(c)] *)
Definition starts_with (c : ascii) (s : string) : bool :=
  match s with
  | String c' _ => Ascii.eqb c c'
  | EmptyString => false
  end.

(** [str(n)] for a natural number, as an f-string prints it. *)
Definition of_nat (n : nat) : string := NilEmpty.string_of_uint (Nat.to_uint n).

(** [s.split("/")] *)
Fixpoint split_slash (s : string) : list string :=
  match s with
  | EmptyString => [EmptyString]
  | String c s' =>
      if Ascii.eqb c "/" then EmptyString :: split_slash s'
      else match split_slash s' with
           | h :: t => String c h :: t
           | [] => [String c EmptyString]
           end
  end.

(** [s.rstrip("/")] *)
Fixpoint rstrip_slash (s : string) : string :=
  match s with
  | EmptyString => EmptyString
  | String c s' =>
      match rstrip_slash s' with
      | EmptyString => if Ascii.eqb c "/" then EmptyString else String c EmptyString
      | r => String c r
      end
  end.
End Str.

(** [os.path] on POSIX. *)
Module Path.
(** [os.path.join(a, b)] *)
Definition join (a b : string) : string :=
  if Str.starts_with "/" b then b
  else if String.eqb a "" || Str.ends_with "/" a then a ++ b
  else a ++ "/" ++ b.

(** [os.path.join(a, b, c)] *)
Definition join3 (a b c : string) : string := join (join a b) c.

(** [os.path.basename(p)]: what follows the last slash. *)
Definition basename (p : string) : string :=
  List.last (Str.split_slash p) EmptyString.

(** [p[:p.rfind("/") + 1]]: the path up to and including its last slash. *)
Fixpoint head (p : string) : string :=
  match p with
  | EmptyString => EmptyString
  | String c p' => if Str.mem "/" p then String c (head p') else EmptyString
  end.

(** [os.path.dirname(p)]: what precedes the last slash, with trailing
    slashes removed unless it consists of slashes only. *)
Definition dirname (p : string) : string :=
  match Str.rstrip_slash (head p) with
  | EmptyString => head p
  | r => r
  end.

(** The components a path names from the working directory: empty and
    [.] components are skipped and [..] steps back.  This reads the path
    alone.  For a path that is written plainly, entry names separated by
    single slashes, it is how the operating system resolves the path; the
    operating system also looks at what it passes, and refuses a slash after
    a regular file ([out/]) or a step back from a directory that is not there
    ([missing/../out]), which this does not. *)
Fixpoint normalize (parts : list string) (stack : list string) : list string :=
  match parts with
  | [] => List.rev stack
  | c :: parts' =>
      if String.eqb c "" || String.eqb c "." then normalize parts' stack
      else if String.eqb c ".." then normalize parts' (List.tl stack)
      else normalize parts' (c :: stack)
  end.

Definition components (p : string) : list string :=
  normalize (Str.split_slash p) [].

(** A name as a directory entry has it: not empty, no slash, neither [.]
    nor [..]. *)
Definition plain (name : string) : bool :=
  negb (String.eqb name "") && negb (Str.mem "/" name)
  && negb (String.eqb name ".") && negb (String.eqb name "..").
End Path.

(** ** Digests

    [hashlib.sha1(b).hexdigest()] and [hashlib.sha256(b).hexdigest()].  The
    library is not part of the repository; the two functions are written out
    as FIPS 180-4 defines them, on 32-bit words kept in [Z] with the
    wrap-around made explicit. *)

Module Hash.
Definition w32 (x : Z) : Z := Z.land x 0xffffffff.
Definition add32 (x y : Z) : Z := w32 (x + y).
Definition rotl (n x : Z) : Z := w32 (Z.lor (Z.shiftl x n) (Z.shiftr x (32 - n))).
Definition rotr (n x : Z) : Z := w32 (Z.lor (Z.shiftr x n) (Z.shiftl x (32 - n))).
Definition not32 (x : Z) : Z := Z.lxor x 0xffffffff.

(** The [k] low bytes of [x], most significant first. *)
Definition be_bytes (k : nat) (x : Z) : list Z :=
  map (fun i => Z.land (Z.shiftr x (8 * Z.of_nat i)) 255) (List.rev (seq 0 k)).

(** Padding: a one bit, zeros up to 56 modulo 64, the bit length on 8 bytes. *)
Definition pad (msg : list Z) : list Z :=
  let len := Z.of_nat (List.length msg) in
  msg ++ [128] ++ repeat 0 (Z.to_nat ((55 - len) mod 64)) ++ be_bytes 8 (8 * len).

Fixpoint words (bs : list Z) : list Z :=
  match bs with
  | a :: b :: c :: d :: r =>
      Z.lor (Z.shiftl a 24) (Z.lor (Z.shiftl b 16) (Z.lor (Z.shiftl c 8) d)) :: words r
  | _ => []
  end.

(** The message as blocks of sixteen words. *)
Fixpoint blocks (n : nat) (ws : list Z) : list (list Z) :=
  match n with
  | O => []
  | S n' =>
      match ws with
      | [] => []
      | _ => firstn 16 ws :: blocks n' (skipn 16 ws)
      end
  end.

Definition message_blocks (msg : list Byte.byte) : list (list Z) :=
  let ws := words (pad (map (fun b => Z.of_N (Byte.to_N b)) msg)) in
  blocks (List.length ws) ws.

(** The schedule is grown newest word first: [nth i wrev] is [W(t-1-i)]. *)
Fixpoint extend (next : list Z -> Z) (k : nat) (wrev : list Z) : list Z :=
  match k with
  | O => wrev
  | S k' => extend next k' (next wrev :: wrev)
  end.

Definition schedule (next : list Z -> Z) (total : nat) (block : list Z) : list Z :=
  List.rev (extend next (total - 16) (List.rev block)).

Definition at_ (i : nat) (wrev : list Z) : Z := nth i wrev 0.

(** *** SHA-1 *)

Definition sha1_next (wrev : list Z) : Z :=
  rotl 1 (Z.lxor (at_ 2 wrev) (Z.lxor (at_ 7 wrev) (Z.lxor (at_ 13 wrev) (at_ 15 wrev)))).

Definition state1 : Type := Z * Z * Z * Z * Z.

Definition sha1_f (t : nat) (b c d : Z) : Z :=
  if (t <? 20)%nat then Z.lor (Z.land b c) (Z.land (not32 b) d)
  else if (t <? 40)%nat then Z.lxor b (Z.lxor c d)
  else if (t <? 60)%nat then Z.lor (Z.land b c) (Z.lor (Z.land b d) (Z.land c d))
  else Z.lxor b (Z.lxor c d).

Definition sha1_k (t : nat) : Z :=
  if (t <? 20)%nat then 0x5a827999
  else if (t <? 40)%nat then 0x6ed9eba1
  else if (t <? 60)%nat then 0x8f1bbcdc
  else 0xca62c1d6.

Definition sha1_round (st : state1) (tw : nat * Z) : state1 :=
  let '(a, b, c, d, e) := st in
  let '(t, w) := tw in
  let temp := add32 (add32 (add32 (add32 (rotl 5 a) (sha1_f t b c d)) e) (sha1_k t)) w in
  (temp, a, rotl 30 b, c, d).

Definition sha1_block (h : state1) (block : list Z) : state1 :=
  let w := schedule sha1_next 80 block in
  let '(a, b, c, d, e) := fold_left sha1_round (combine (seq 0 80) w) h in
  let '(h0, h1, h2, h3, h4) := h in
  (add32 h0 a, add32 h1 b, add32 h2 c, add32 h3 d, add32 h4 e).

Definition sha1_init : state1 :=
  (0x67452301, 0xefcdab89, 0x98badcfe, 0x10325476, 0xc3d2e1f0).

Definition sha1 (msg : list Byte.byte) : state1 :=
  fold_left sha1_block (message_blocks msg) sha1_init.

(** *** SHA-256 *)

(** The first sixty-four primes. *)
Definition primes64 : list Z :=
  [2; 3; 5; 7; 11; 13; 17; 19; 23; 29; 31; 37; 41; 43; 47; 53;
   59; 61; 67; 71; 73; 79; 83; 89; 97; 101; 103; 107; 109; 113; 127; 131;
   137; 139; 149; 151; 157; 163; 167; 173; 179; 181; 191; 193; 197; 199; 211; 223;
   227; 229; 233; 239; 241; 251; 257; 263; 269; 271; 277; 281; 283; 293; 307; 311].

(** The integer cube root, one bit at a time from the top. *)
Definition icbrt (n : Z) : Z :=
  fold_left (fun x k => let y := x + 2 ^ k in if y * y * y <=? n then y else x)
            (map Z.of_nat (List.rev (seq 0 40))) 0.

(** The round constants: the first thirty-two bits of the fractional part of
    the cube root of each prime. *)
Definition sha256_k : list Z :=
  Eval vm_compute in map (fun p => w32 (icbrt (p * 2 ^ 96))) primes64.

Definition ssig0 (x : Z) : Z := Z.lxor (rotr 7 x) (Z.lxor (rotr 18 x) (Z.shiftr x 3)).
Definition ssig1 (x : Z) : Z := Z.lxor (rotr 17 x) (Z.lxor (rotr 19 x) (Z.shiftr x 10)).
Definition bsig0 (x : Z) : Z := Z.lxor (rotr 2 x) (Z.lxor (rotr 13 x) (rotr 22 x)).
Definition bsig1 (x : Z) : Z := Z.lxor (rotr 6 x) (Z.lxor (rotr 11 x) (rotr 25 x)).
Definition ch (x y z : Z) : Z := Z.lxor (Z.land x y) (Z.land (not32 x) z).
Definition maj (x y z : Z) : Z := Z.lxor (Z.land x y) (Z.lxor (Z.land x z) (Z.land y z)).

Definition sha256_next (wrev : list Z) : Z :=
  add32 (add32 (add32 (ssig1 (at_ 1 wrev)) (at_ 6 wrev)) (ssig0 (at_ 14 wrev))) (at_ 15 wrev).

Definition state256 : Type := Z * Z * Z * Z * Z * Z * Z * Z.

Definition sha256_round (st : state256) (kw : Z * Z) : state256 :=
  let '(a, b, c, d, e, f, g, h) := st in
  let '(k, w) := kw in
  let t1 := add32 (add32 (add32 (add32 h (bsig1 e)) (ch e f g)) k) w in
  let t2 := add32 (bsig0 a) (maj a b c) in
  (add32 t1 t2, a, b, c, add32 d t1, e, f, g).

Definition sha256_block (hs : state256) (block : list Z) : state256 :=
  let w := schedule sha256_next 64 block in
  let '(a, b, c, d, e, f, g, h) := fold_left sha256_round (combine sha256_k w) hs in
  let '(h0, h1, h2, h3, h4, h5, h6, h7) := hs in
  (add32 h0 a, add32 h1 b, add32 h2 c, add32 h3 d,
   add32 h4 e, add32 h5 f, add32 h6 g, add32 h7 h).

Definition sha256_init : state256 :=
  (0x6a09e667, 0xbb67ae85, 0x3c6ef372, 0xa54ff53a,
   0x510e527f, 0x9b05688c, 0x1f83d9ab, 0x5be0cd19).

Definition sha256 (msg : list Byte.byte) : state256 :=
  fold_left sha256_block (message_blocks msg) sha256_init.

(** *** [hexdigest()] *)

Definition hex_chars : list ascii :=
  list_ascii_of_string "0123456789abcdef".

Definition hex_digit (d : Z) : ascii := nth (Z.to_nat d) hex_chars "f"%char.

(** The eight hexadecimal digits of a 32-bit word. *)
Definition hex_word (w : Z) : string :=
  string_of_list_ascii
    (map (fun sh => hex_digit (Z.land (Z.shiftr w sh) 15)) [28; 24; 20; 16; 12; 8; 4; 0]).

Definition sha1_hex (msg : list Byte.byte) : string :=
  let '(h0, h1, h2, h3, h4) := sha1 msg in
  hex_word h0 ++ hex_word h1 ++ hex_word h2 ++ hex_word h3 ++ hex_word h4.

Definition sha256_hex (msg : list Byte.byte) : string :=
  let '(h0, h1, h2, h3, h4, h5, h6, h7) := sha256 msg in
  hex_word h0 ++ hex_word h1 ++ hex_word h2 ++ hex_word h3 ++
  hex_word h4 ++ hex_word h5 ++ hex_word h6 ++ hex_word h7.

(** The characters [hexdigest()] may produce. *)
Definition is_lower_hex (c : ascii) : bool :=
  existsb (Ascii.eqb c) hex_chars.

Fixpoint all_chars (f : ascii -> bool) (s : string) : bool :=
  match s with
  | EmptyString => true
  | String c s' => f c && all_chars f s'
  end.

(** A lowercase hexadecimal string of [n] characters. *)
Definition is_hexdigest (n : nat) (s : string) : bool :=
  (String.length s =? n)%nat && all_chars is_lower_hex s.

Definition bytes_of_string (s : string) : list Byte.byte :=
  map byte_of_ascii (list_ascii_of_string s).
End Hash.

(** ** The file tree

    A file holds raw bytes, a JSON document, a YAML document or a zip archive.
    An archive is kept as the sequence of its members, in the order
    [ZipFile.write] added them, which is the order the zip format stores.  A
    directory lists its entries in its own order, the one [os.listdir]
    returns, and may be unreadable.  File times and modes are not modelled.
    Paths are resolved from the root of the tree, which stands for both the
    working directory and [/]; there are no symbolic links. *)

Inductive fdata : Type :=
| FRaw (bytes : list Byte.byte)
| FJson (doc : value)
| FYaml (doc : value)
| FZip (members : list (string * fdata)).

Inductive node : Type :=
| File (d : fdata)
| Dir (readable : bool) (entries : list (string * node)).

Inductive errno : Type := ENOENT | ENOTDIR | EISDIR | EACCES | EEXIST.

Module Tree.
(** The node a list of components leads to. *)
Fixpoint lookup (p : list string) (n : node) : errno + node :=
  match p with
  | [] => inr n
  | c :: p' =>
      match n with
      | File _ => inl ENOTDIR
      | Dir _ es =>
          match AList.get c es with
          | Some n' => lookup p' n'
          | None => inl ENOENT
          end
      end
  end.

(** Create or truncate the file at [p] and give it the content [d]. *)
Fixpoint store (p : list string) (d : fdata) (n : node) : errno + node :=
  match p with
  | [] => match n with File _ => inr (File d) | Dir _ _ => inl EISDIR end
  | c :: p' =>
      match n with
      | File _ => inl ENOTDIR
      | Dir r es =>
          match AList.get c es with
          | Some n' =>
              match store p' d n' with
              | inr n'' => inr (Dir r (AList.set c n'' es))
              | inl e => inl e
              end
          | None =>
              match p' with
              | [] => inr (Dir r (AList.set c (File d) es))
              | _ => inl ENOENT
              end
          end
      end
  end.

(** [os.makedirs(p)]: create the directory and the missing ones above it;
    the last component must not exist yet. *)
Fixpoint makedirs (p : list string) (n : node) : errno + node :=
  match p with
  | [] => inl EEXIST
  | c :: p' =>
      match n with
      | File _ => inl ENOTDIR
      | Dir r es =>
          match AList.get c es with
          | Some n' =>
              match makedirs p' n' with
              | inr n'' => inr (Dir r (AList.set c n'' es))
              | inl e => inl e
              end
          | None =>
              match p' with
              | [] => inr (Dir r (AList.set c (Dir true []) es))
              | _ =>
                  match makedirs p' (Dir true []) with
                  | inr n'' => inr (Dir r (AList.set c n'' es))
                  | inl e => inl e
                  end
              end
          end
      end
  end.

(** Names starting with a dot are hidden from a recursive glob. *)
Definition hidden (name : string) : bool := Str.starts_with "." name.

(** [glob._rlistdir(dirname, dironly=True)]: the directories below a node,
    as relative paths, each before the ones it contains. *)
Fixpoint rlistdir (n : node) : list string :=
  match n with
  | File _ => []
  | Dir r es =>
      if r then
        (fix each (l : list (string * node)) : list string :=
           match l with
           | [] => []
           | (x, child) :: l' =>
               match child with
               | Dir _ _ =>
                   if hidden x then each l'
                   else x :: map (Path.join x) (rlistdir child) ++ each l'
               | File _ => each l'
               end
           end) es
      else []
  end.
End Tree.

(** ** Exceptions, the world, and computations *)

Inductive exc : Type :=
| OSError (e : errno) (path : string)
| JSONDecodeError
| YAMLError
| KeyError (key : string)
| TypeError
| ValueError
| IndexError
| AttributeError
| EOFError
| SystemExit (code : Z).

(** [isinstance(e, Exception)]: what [except Exception] catches.
    [SystemExit] derives from [BaseException] only. *)
Definition is_Exception (e : exc) : bool :=
  match e with
  | SystemExit _ => false
  | _ => true
  end.

Inductive color : Type := Plain | Red | Green | Cyan | Magenta.

(** What the command does to the outside, in order. *)
Inductive event : Type :=
| Print (c : color) (text : string)
| PrintExc (c : color) (e : exc)      (* [print(color + str(ex))] *)
| Asked (names : list string)         (* [prompt(inputs)], by question name *)
| Read (path : string)                (* [f.read()] / a load from [f] *)
| Wrote (path : string).              (* a file opened for writing *)

(** The state the command runs in: the file tree, the answers the user is
    going to give to the coming prompts, [self._input_cache], and the events
    so far. *)
Record world : Type := World {
  fs : node;
  answers : list dict;
  input_cache : dict;
  log : list event
}.

Inductive outcome (A : Type) : Type :=
| Ok (a : A)
| Raise (e : exc).
Arguments Ok {A} a.
Arguments Raise {A} e.

(** A computation either returns or raises; the world it leaves behind is
    kept in both cases, as a raised exception does not undo what was done. *)
Definition Py (A : Type) : Type := world -> outcome A * world.

Definition ret {A} (a : A) : Py A := fun w => (Ok a, w).
Definition raise {A} (e : exc) : Py A := fun w => (Raise e, w).
Definition bind {A B} (m : Py A) (f : A -> Py B) : Py B :=
  fun w => match m w with
           | (Ok a, w') => f a w'
           | (Raise e, w') => (Raise e, w')
           end.
Definition lift {A} (o : outcome A) : Py A := fun w => (o, w).

Declare Scope py_scope.
Delimit Scope py_scope with py.
Notation "x <- m ;; k" := (bind m (fun x => k))
  (at level 61, m at next level, right associativity) : py_scope.
Notation "m ;; k" := (bind m (fun _ => k))
  (at level 61, right associativity) : py_scope.
Open Scope py_scope.

Definition emit (e : event) : Py unit :=
  fun w => (Ok tt, World (fs w) (answers w) (input_cache w) (log w ++ [e])).

Definition print (c : color) (text : string) : Py unit := emit (Print c text).

Definition set_fs (t : node) : Py unit :=
  fun w => (Ok tt, World t (answers w) (input_cache w) (log w)).

(** [for x in xs: body(x)] *)
Fixpoint for_each {A} (xs : list A) (body : A -> Py unit) : Py unit :=
  match xs with
  | [] => ret tt
  | x :: xs' => body x ;; for_each xs' body
  end.

(** ** Operating-system calls *)

Module OS.
Definition lookup (path : string) (w : world) : errno + node :=
  Tree.lookup (Path.components path) (fs w).

(** [os.path.exists(path)] *)
Definition path_exists (path : string) (w : world) : bool :=
  match lookup path w with inr _ => true | inl _ => false end.

(** [os.path.isfile(path)] *)
Definition isfile (path : string) (w : world) : bool :=
  match lookup path w with inr (File _) => true | _ => false end.

(** [with open(path, "r") as f:] followed by one read of [f]. *)
Definition read_file (path : string) : Py fdata :=
  fun w => match lookup path w with
           | inr (File d) => (emit (Read path) ;; ret d) w
           | inr (Dir _ _) => (Raise (OSError EISDIR path), w)
           | inl e => (Raise (OSError e path), w)
           end.

(** Put content into the file at [path], creating it if need be. *)
Definition store_file (path : string) (d : fdata) : Py unit :=
  fun w => match Tree.store (Path.components path) d (fs w) with
           | inr t => set_fs t w
           | inl e => (Raise (OSError e path), w)
           end.

(** [open(path, "w")], leaving [d] in the file. *)
Definition write_file (path : string) (d : fdata) : Py unit :=
  store_file path d ;; emit (Wrote path).

(** [os.listdir(path)] *)
Definition listdir (path : string) : Py (list string) :=
  fun w => match lookup path w with
           | inr (Dir true es) => (Ok (AList.keys es), w)
           | inr (Dir false _) => (Raise (OSError EACCES path), w)
           | inr (File _) => (Raise (OSError ENOTDIR path), w)
           | inl e => (Raise (OSError e path), w)
           end.

(** [os.makedirs(path)] *)
Definition makedirs (path : string) : Py unit :=
  fun w => match Tree.makedirs (Path.components path) (fs w) with
           | inr t => set_fs t w
           | inl e => (Raise (OSError e path), w)
           end.
End OS.

(** [json.load(f)]: the document of a JSON file. *)
Definition json_load (d : fdata) : outcome value :=
  match d with
  | FJson v => Ok v
  | _ => Raise JSONDecodeError
  end.

(** [yaml.load(f)]: the document of a YAML file; JSON text is YAML too. *)
Definition yaml_load (d : fdata) : outcome value :=
  match d with
  | FYaml v | FJson v => Ok v
  | _ => Raise YAMLError
  end.

(** [d[k]] *)
Definition getitem (d : dict) (k : string) : outcome value :=
  match AList.get k d with
  | Some v => Ok v
  | None => Raise (KeyError k)
  end.

(** [v[k]] for a string key [k] and any value [v]: only a dict takes one. *)
Definition subscript (v : value) (k : string) : outcome value :=
  match v with
  | VDict d => getitem d k
  | _ => Raise TypeError
  end.

(** [v.items()] *)
Definition items (v : value) : outcome dict :=
  match v with
  | VDict d => Ok d
  | _ => Raise AttributeError
  end.

(** ** [zipfile.ZipFile]

    The object is its path and the members written so far; the file on disk
    follows every write.  (On disk the directory of the archive is written
    by [close()], which the finaliser of an abandoned object calls too.) *)

Module Zip.
(** [ZipFile(zip_name, "w")] *)
Definition open_w (zip_name : string) : Py (list (string * fdata)) :=
  OS.write_file zip_name (FZip []) ;; ret [].

(** [zipf.write(filename, arcname=arcname)]: a directory becomes an empty
    member whose name ends in a slash. *)
Definition write (zip_name : string) (members : list (string * fdata))
    (filename arcname : string) : Py (list (string * fdata)) :=
  member <- (fun w => match OS.lookup filename w with
                      | inr (File d) => (emit (Read filename) ;; ret (arcname, d)) w
                      | inr (Dir _ _) => (Ok ((arcname ++ "/")%string, FRaw []), w)
                      | inl e => (Raise (OSError e filename), w)
                      end) ;;
  let members' := members ++ [member] in
  OS.store_file zip_name (FZip members') ;;
  ret members'.

(** [for file in names: zipf.write(join(folder, file), arcname=file)] *)
Fixpoint write_all (zip_name folder : string) (members : list (string * fdata))
    (names : list string) : Py (list (string * fdata)) :=
  match names with
  | [] => ret members
  | file :: names' =>
      members' <- write zip_name members (Path.join folder file) file ;;
      write_all zip_name folder members' names'
  end.
End Zip.

(** ** [str.format]

    The format string is cut into literal characters and replacement fields
    the way the interpreter reads it, left to right: doubled braces are
    literal braces, a field runs from a brace to its matching brace, its name
    ends at [!] or [:] outside square brackets, and a conversion and a format
    specification (which may nest braces) follow.  [Bad] marks the place where
    the interpreter raises [ValueError] for a malformed string. *)

Module Fmt.
Inductive piece : Type :=
| Lit (c : ascii)
| Field (name suffix : string)
| Bad.

Inductive mode : Type :=
| Text
| Open                                        (* after a left brace *)
| Close                                       (* after a right brace *)
| Name (name : string) (bracket : bool)       (* in a field name *)
| Conv (name : string)                        (* after [!] *)
| Conv2 (name suffix : string)                (* after the conversion *)
| Spec (name suffix : string) (depth : nat).  (* in the format spec *)

Definition snoc (s : string) (c : ascii) : string := (s ++ String c EmptyString)%string.

Definition step_name (name : string) (bracket : bool) (c : ascii)
  : list piece * option mode :=
  if bracket then ([], Some (Name (snoc name c) (negb (Ascii.eqb c "]"))))
  else if Ascii.eqb c "{" then ([Bad], None)
  else if Ascii.eqb c "[" then ([], Some (Name (snoc name c) true))
  else if Ascii.eqb c "}" then ([Field name ""], Some Text)
  else if Ascii.eqb c ":" then ([], Some (Spec name ":" 1))
  else if Ascii.eqb c "!" then ([], Some (Conv name))
  else ([], Some (Name (snoc name c) false)).

Definition step (m : mode) (c : ascii) : list piece * option mode :=
  match m with
  | Text =>
      if Ascii.eqb c "{" then ([], Some Open)
      else if Ascii.eqb c "}" then ([], Some Close)
      else ([Lit c], Some Text)
  | Open =>
      if Ascii.eqb c "{" then ([Lit "{"], Some Text) else step_name "" false c
  | Close =>
      if Ascii.eqb c "}" then ([Lit "}"], Some Text) else ([Bad], None)
  | Name name bracket => step_name name bracket c
  | Conv name => ([], Some (Conv2 name (String "!" (String c EmptyString))))
  | Conv2 name suffix =>
      if Ascii.eqb c "}" then ([Field name suffix], Some Text)
      else if Ascii.eqb c ":" then ([], Some (Spec name (snoc suffix c) 1))
      else ([Bad], None)
  | Spec name suffix depth =>
      if Ascii.eqb c "{" then ([], Some (Spec name (snoc suffix c) (S depth)))
      else if Ascii.eqb c "}" then
        match depth with
        | 1%nat => ([Field name suffix], Some Text)
        | _ => ([], Some (Spec name (snoc suffix c) (Nat.pred depth)))
        end
      else ([], Some (Spec name (snoc suffix c) depth))
  end.

Fixpoint scan (s : string) (m : mode) : list piece :=
  match s with
  | EmptyString => match m with Text => [] | _ => [Bad] end
  | String c s' =>
      match step m c with
      | (ps, Some m') => ps ++ scan s' m'
      | (ps, None) => ps
      end
  end.

Definition pieces (format_string : string) : list piece := scan format_string Text.

(** The argument a field name starts with, before any [.attr] or [[key]]. *)
Fixpoint arg_name (name : string) : string :=
  match name with
  | EmptyString => EmptyString
  | String c name' =>
      if Ascii.eqb c "." || Ascii.eqb c "[" then EmptyString
      else String c (arg_name name')
  end.

Fixpoint accessors (name : string) : string :=
  match name with
  | EmptyString => EmptyString
  | String c name' =>
      if Ascii.eqb c "." || Ascii.eqb c "[" then name else accessors name'
  end.

(** The code points of a string, which holds the bytes of its UTF-8
    encoding; [-1] stands for bytes that encode none. *)
Fixpoint code_points_from (bytes : list ascii) (more : nat) (acc : Z) : list Z :=
  match bytes with
  | [] => match more with O => [] | S _ => [-1] end
  | c :: bytes' =>
      let b := Z.of_nat (nat_of_ascii c) in
      match more with
      | O =>
          if b <? 128 then b :: code_points_from bytes' 0 0
          else if (192 <=? b) && (b <? 224) then code_points_from bytes' 1 (b - 192)
          else if (224 <=? b) && (b <? 240) then code_points_from bytes' 2 (b - 224)
          else if (240 <=? b) && (b <? 248) then code_points_from bytes' 3 (b - 240)
          else -1 :: code_points_from bytes' 0 0
      | S more' =>
          if (128 <=? b) && (b <? 192) then
            match more' with
            | O => (acc * 64 + (b - 128)) :: code_points_from bytes' 0 0
            | S _ => code_points_from bytes' more' (acc * 64 + (b - 128))
            end
          else -1 :: code_points_from bytes' 0 0
      end
  end.

Definition code_points (s : string) : list Z :=
  code_points_from (list_ascii_of_string s) 0 0.

(** The digits zero of the scripts that have decimal digits, as the
    interpreter's character table has them (Unicode 14.0 in CPython 3.11);
    the digits one to nine follow each. *)
Definition digit_zeros : list Z :=
  [48; 1632; 1776; 1984; 2406; 2534; 2662; 2790; 2918; 3046; 3174; 3302; 3430; 3558;
   3664; 3792; 3872; 4160; 4240; 6112; 6160; 6470; 6608; 6784; 6800; 6992; 7088; 7232;
   7248; 42528; 43216; 43264; 43472; 43504; 43600; 44016; 65296; 66720; 68912; 69734;
   69872; 69942; 70096; 70384; 70736; 70864; 71248; 71360; 71472; 71904; 72016; 72784;
   73040; 73120; 92768; 92864; 93008; 120782; 120792; 120802; 120812; 120822; 123200;
   123632; 125264; 130032].

(** [Py_UNICODE_TODECIMAL]: the value of a decimal digit. *)
Definition decimal (cp : Z) : option Z :=
  match find (fun zero => (zero <=? cp) && (cp <? zero + 10)) digit_zeros with
  | Some zero => Some (cp - zero)
  | None => None
  end.

(** An empty or numeric argument name designates a positional argument.
    Numeric is: written in decimal digits, of any script. *)
Definition positional (arg : string) : bool :=
  forallb (fun cp => match decimal cp with Some _ => true | None => false end)
          (code_points arg).

(** The number a numeric argument name stands for. *)
Definition index_of (arg : string) : Z :=
  fold_left (fun n cp => match decimal cp with Some d => n * 10 + d | None => n end)
            (code_points arg) 0.

(** The largest index of a 64-bit interpreter, [sys.maxsize]. *)
Definition PY_SSIZE_T_MAX : Z := 9223372036854775807.

(** What formatting one value can raise. *)
Inductive error : Type :=
| EKey (key : string) | EIndex | EValue | EType | EAttribute.

Definition to_exc (e : error) : exc :=
  match e with
  | EKey k => KeyError k
  | EIndex => IndexError
  | EValue => ValueError
  | EType => TypeError
  | EAttribute => AttributeError
  end.

Section Render.
(** How the interpreter renders a found argument through the rest of its
    field (attribute and index lookups, conversion, format specification,
    [str()] of a value that is not a string): not part of the repository.
    It receives the keyword arguments for fields nested in the
    specification. *)
Variable format_field : dict -> value -> string -> error + string.

Definition render_field (kwargs : dict) (name suffix : string) : outcome string :=
  let arg := arg_name name in
  if positional arg then
    (* no positional argument is passed; a number too large is rejected
       while it is read *)
    if PY_SSIZE_T_MAX <? index_of arg then Raise ValueError else Raise IndexError
  else
    match AList.get arg kwargs with
    | None => Raise (KeyError arg)
    | Some v =>
        match v, (accessors name ++ suffix)%string with
        | VStr s, EmptyString => Ok s
        | _, rest =>
            match format_field kwargs v rest with
            | inr s => Ok s
            | inl e => Raise (to_exc e)
            end
        end
    end.

Fixpoint render (kwargs : dict) (ps : list piece) : outcome string :=
  match ps with
  | [] => Ok EmptyString
  | Lit c :: ps' =>
      match render kwargs ps' with
      | Ok s => Ok (String c s)
      | Raise e => Raise e
      end
  | Field name suffix :: ps' =>
      match render_field kwargs name suffix with
      | Ok s1 =>
          match render kwargs ps' with
          | Ok s2 => Ok (s1 ++ s2)%string
          | Raise e => Raise e
          end
      | Raise e => Raise e
      end
  | Bad :: _ => Raise ValueError
  end.

(** [format_string.format(file=file, **data)]: a [file] key in [data]
    collides with the explicit keyword. *)
Definition format_file (format_string file : string) (data : dict) : outcome string :=
  if AList.has "file" data then Raise TypeError
  else render (("file", VStr file) :: data) (pieces format_string).
End Render.
End Fmt.

(** ** [AdapterPackCommand] *)

Definition ADAPTER_TEMPLATE_YAML : string :=
  "https://raw.githubusercontent.com/Adapter-Hub/Hub/master/TEMPLATES/adapter.template.yaml".

Definition DEFAULT_OUTPUT_PATH : string := ".PACK_OUTPUT".

(** The fields [__init__] sets from the command line; [_input_cache] is in
    the world.  [_config_id_lookup] only supplies the default a prompt
    shows. *)
Record command : Type := Command {
  input_paths : list string;
  output_path : string;
  template : option string;
  extract_from_models : bool
}.

(** [AdapterPackCommand(input_paths, output_path, template, extract_from_models)] *)
Definition init (input_paths : list string) (output_path : option string)
    (template : option string) (extract_from_models : bool) : command :=
  Command input_paths
    (match output_path with
     | Some o => if String.eqb o "" then DEFAULT_OUTPUT_PATH else o
     | None => DEFAULT_OUTPUT_PATH
     end)
    template extract_from_models.

(** [prompt(inputs)]: the user's next answers, keyed by question name (an
    interrupted prompt answers the empty dictionary); with the input at its
    end the prompt raises [EOFError]. *)
Definition prompt (names : list string) : Py dict :=
  fun w => match answers w with
           | a :: rest =>
               (Ok a, World (fs w) rest (input_cache w) (log w ++ [Asked names]))
           | [] => (Raise EOFError, w)
           end.

Definition set_input_cache (k : string) (v : value) : Py unit :=
  fun w => (Ok tt, World (fs w) (answers w) (AList.set k v (input_cache w)) (log w)).

Definition ask_for_adapter_type : Py dict := prompt ["type"].

Definition ask_for_adapter_data : Py dict := prompt ["task"; "subtask"].

(** The default shown is [self._config_id_lookup.get(config_id, "")], which
    needs [config_id] to be hashable. *)
Definition ask_for_adapter_config (config_id : value) : Py dict :=
  if hashable config_id then prompt ["config_name"] else raise TypeError.

Definition ask_for_model_name : Py dict :=
  print Plain "[i] We couldn't find a model name in this adapter's config. Please specify one." ;;
  answers <- prompt ["model_name"] ;;
  model_name <- lift (getitem answers "model_name") ;;
  set_input_cache "model_name" model_name ;;
  ret answers.

(** [not adapter_data.get(key, None)] *)
Definition missing (adapter_data : dict) (key : string) : bool :=
  match AList.get key adapter_data with
  | Some v => negb (truthy v)
  | None => true
  end.

(** Lines 205-224: the artifact's data, from the caller, the artifact's
    configuration file and the prompts. *)
Definition collect_adapter_data (folder : string) (adapter_data : option dict) : Py dict :=
  f <- OS.read_file (Path.join folder "adapter_config.json") ;;
  config <- lift (json_load f) ;;
  config_items <- lift (items config) ;;
  let adapter_data := add_config adapter_data config_items in
  adapter_data <-
    (if missing adapter_data "type"
     then a <- ask_for_adapter_type ;; ret (AList.update adapter_data a)
     else ret adapter_data) ;;
  a <- ask_for_adapter_data ;;
  let adapter_data := AList.update adapter_data a in
  config_id <- lift (getitem adapter_data "config_id") ;;
  a <- ask_for_adapter_config config_id ;;
  let adapter_data := AList.update adapter_data a in
  if missing adapter_data "model_name"
  then a <- ask_for_model_name ;; ret (AList.update adapter_data a)
  else ret adapter_data.

(** An item of the list given to ["_".join] must be a string. *)
Definition as_str (v : value) : outcome string :=
  match v with
  | VStr s => Ok s
  | _ => Raise TypeError
  end.

Definition obind {A B} (o : outcome A) (f : A -> outcome B) : outcome B :=
  match o with
  | Ok a => f a
  | Raise e => Raise e
  end.

(** Lines 226-229: [folder_name], the base name of both output files. *)
Definition folder_name (adapter_data : dict) : outcome string :=
  obind (getitem adapter_data "model_name") (fun model_name =>
  obind (getitem adapter_data "task") (fun task =>
  obind (getitem adapter_data "subtask") (fun subtask =>
  obind (getitem adapter_data "config_name") (fun config_name =>
  obind (as_str model_name) (fun s1 =>
  obind (as_str task) (fun s2 =>
  obind (as_str subtask) (fun s3 =>
  obind (as_str config_name) (fun s4 =>
  Ok (Str.replace "/" "-" (Str.join "_" [s1; s2; s3; s4])))))))))).

(** Line 230 and line 268: the two output paths. *)
Definition zip_path (save_root folder_name : string) : string :=
  Path.join save_root (folder_name ++ ".zip").

Definition yaml_path (save_root folder_name : string) : string :=
  Path.join save_root (folder_name ++ ".yaml").

(** Lines 231-235: zip the folder to its destination. *)
Definition zip_folder (folder zip_name : string) : Py unit :=
  print Plain ("Zipping " ++ folder ++ " to " ++ zip_name ++ "...") ;;
  zipf <- Zip.open_w zip_name ;;
  names <- OS.listdir folder ;;
  Zip.write_all zip_name folder zipf names ;;
  ret tt.

(** [if metadata: for k, v in metadata.items(): template[k] = v] *)
Definition add_metadata (template : dict) (metadata : option dict) : dict :=
  match metadata with
  | Some m => if truthy (VDict m) then AList.update template m else template
  | None => template
  end.

(** Lines 252-266: the info card, from the loaded template. *)
Definition fill_card (adapter_data template file_info : dict) (version : value)
    (prediction_head : bool) (metadata : option dict) : outcome dict :=
  let template := fill_template adapter_data template in
  let template := AList.set "files" (VList [VDict file_info]) template in
  let template := AList.set "default_version" version template in
  obind (getitem adapter_data "config_name") (fun config_name =>
  obind (getitem adapter_data "config") (fun config =>
  obind (subscript config "non_linearity") (fun non_linearity =>
  obind (subscript config "reduction_factor") (fun reduction_factor =>
  let template :=
    AList.set "config"
      (VDict [("using", config_name); ("non_linearity", non_linearity);
              ("reduction_factor", reduction_factor)]) template in
  let template := AList.set "prediction_head" (VBool prediction_head) template in
  Ok (add_metadata template metadata))))).

(** Lines 249-251: the template, which the loop of line 252 and the
    assignments after it need to be a mapping. *)
Definition load_template (template_file : string) : Py dict :=
  f <- OS.read_file template_file ;;
  template <- lift (yaml_load f) ;;
  match template with
  | VDict d => ret d
  | _ => raise TypeError
  end.

(** [try: body except Exception as ex: handler(ex)] *)
Definition try_except (body : Py unit) (handler : exc -> Py unit) : Py unit :=
  fun w => match body w with
           | (Ok tt, w') => (Ok tt, w')
           | (Raise ex, w') =>
               if is_Exception ex then handler ex w' else (Raise ex, w')
           end.

Definition print_finalization_text : Py unit :=
  print Cyan "========== Step 3: Finalization & Upload ==========" ;;
  print Plain "Great! We have successfully packed all adapters." ;;
  print Plain "These are your next steps for publishing them on AdapterHub:" ;;
  print Magenta "-> Upload the created zip folders to your server." ;;
  print Magenta "-> Add the download links to your adapters to the respective yaml info cards." ;;
  print Magenta "-> Add additional information to your info cards. Description and citation are very useful!" ;;
  print Magenta "-> Open a pull request to https://github.com/adapter-hub/Hub to add your info cards." ;;
  print Plain "".

Section Command.
(** What the libraries the command imports supply. *)

(** The bytes [f.read()] returns for a file opened in binary mode. *)
Variable file_bytes : fdata -> list Byte.byte.

(** The rendering of one [str.format] field (see [Fmt]). *)
Variable format_field : dict -> value -> string -> Fmt.error + string.

(** [transformers.WEIGHTS_NAME] and [transformers.adapter_utils.WEIGHTS_NAME]. *)
Variables WEIGHTS_NAME ADAPTER_WEIGHTS_NAME : string.

(** [transformers.adapter_utils.ADAPTER_CACHE] and [download_cached]. *)
Variable ADAPTER_CACHE : string.
Variable download_cached : string -> Py string.

Definition ADAPTER_PACK_METADATA_FILE : string :=
  Path.join ADAPTER_CACHE "pack_metadata.json".

(** *** [find_models_and_adapters] *)

(** [glob.glob(join(input_path, "**", name), recursive=True)]: the root
    directory and every directory below it that is not hidden, in order,
    each giving a match if it holds an entry called [name].  Input paths
    are taken to hold no glob wildcard of their own. *)
Definition glob_weights (input_path name : string) (w : world) : list string :=
  let root := Path.dirname (Path.join3 input_path "**" name) in
  let root := Path.dirname root in
  let below := match OS.lookup root w with
               | inr n => Tree.rlistdir n
               | inl _ => []
               end in
  flat_map (fun d =>
              let found := Path.join (Path.join root d) name in
              if OS.path_exists found w then [found] else [])
           (EmptyString :: below).

(** [for input_path in self.input_paths: for weights_file in glob(...):
    result.append(dirname(weights_file))] *)
Definition weight_dirs (paths : list string) (name : string) (w : world) : list string :=
  flat_map (fun input_path => map Path.dirname (glob_weights input_path name w)) paths.

Definition find_models_and_adapters (self : command) (w : world)
  : list string * list string :=
  let models_list :=
    if extract_from_models self then weight_dirs (input_paths self) WEIGHTS_NAME w
    else [] in
  let adapters_list := weight_dirs (input_paths self) ADAPTER_WEIGHTS_NAME w in
  (models_list, adapters_list).

(** *** [pack_adapter] *)

(** Lines 238-241: both digests of the archive, from one read. *)
Definition file_hashes (zip_name : string) : Py (string * string) :=
  f <- OS.read_file zip_name ;;
  let bytes := file_bytes f in
  ret (Hash.sha1_hex bytes, Hash.sha256_hex bytes).

(** Lines 243-246: the download link. *)
Definition download_url (url_template : value) (zip_name : string)
    (adapter_data : dict) : outcome string :=
  if truthy url_template then
    match url_template with
    | VStr t => Fmt.format_file format_field t (Path.basename zip_name) adapter_data
    | _ => Raise AttributeError
    end
  else Ok "TODO".

Definition pack_adapter (folder save_root template_file : string)
    (adapter_data metadata : option dict) (version url_template : value) : Py unit :=
  adapter_data <- collect_adapter_data folder adapter_data ;;
  folder_name <- lift (folder_name adapter_data) ;;
  let zip_name := zip_path save_root folder_name in
  zip_folder folder zip_name ;;
  hashes <- file_hashes zip_name ;;
  download_url <- lift (download_url url_template zip_name adapter_data) ;;
  let file_info := [("version", version); ("url", VStr download_url);
                    ("sha1", VStr (fst hashes)); ("sha256", VStr (snd hashes))] in
  template <- load_template template_file ;;
  prediction_head <-
    (fun w => (Ok (OS.path_exists (Path.join folder "head_config.json") w), w)) ;;
  card <- lift (fill_card adapter_data template file_info version
                  prediction_head metadata) ;;
  OS.write_file (yaml_path save_root folder_name) (FYaml (VDict card)) ;;
  print Green ("✔ Created info card for " ++ folder_name).

(** *** [pack_adapters_interactive] *)

(** Lines 91-139.  The defaults of the questions are read with
    [metadata_config.get], which only a mapping has. *)
Definition ask_for_metadata : Py dict :=
  metadata_config <-
    (fun w => if OS.isfile ADAPTER_PACK_METADATA_FILE w
              then (f <- OS.read_file ADAPTER_PACK_METADATA_FILE ;; lift (json_load f)) w
              else (Ok (VDict []), w)) ;;
  lift (items metadata_config) ;;
  answers <- prompt ["author"; "email"; "url"; "twitter"; "github"; "adapter_url_template"] ;;
  OS.write_file ADAPTER_PACK_METADATA_FILE (FJson (VDict answers)) ;;
  ret answers.

(** Lines 305-313: the loop over the folders, [i] counting from [start]. *)
Fixpoint pack_each (start total : nat) (folders : list string)
    (save_root template_file : string) (metadata : dict)
    (version url_template : value) : Py unit :=
  match folders with
  | [] => ret tt
  | folder :: rest =>
      print Cyan ("[Adapter " ++ Str.of_nat (start + 1) ++ " of "
                  ++ Str.of_nat total ++ "] " ++ folder) ;;
      try_except
        (pack_adapter folder save_root template_file None (Some metadata)
           version url_template)
        (fun ex =>
           print Red "✘ Failed to pack adapter" ;;
           emit (PrintExc Red ex)) ;;
      pack_each (S start) total rest save_root template_file metadata
        version url_template
  end.

Definition pack_adapters_interactive (self : command) (folders : list string)
    (save_root : string) (version : value) : Py unit :=
  print Cyan ("========== Step 2: Packing " ++ Str.of_nat (List.length folders)
              ++ " adapters ==========") ;;
  template_file <-
    (match template self with
     | None => print Plain "Downloading template..." ;;
               download_cached ADAPTER_TEMPLATE_YAML
     | Some t =>
         if String.eqb t "" then
           print Plain "Downloading template..." ;;
           download_cached ADAPTER_TEMPLATE_YAML
         else
           fun w => if OS.isfile t w then (Ok t, w)
                    else (print Red "ERROR: Specified template file could not be found!" ;;
                          raise (SystemExit 1)) w
     end) ;;
  (fun w => if OS.path_exists save_root w then (Ok tt, w) else OS.makedirs save_root w) ;;
  print Plain "[i] Before we start packing your adapters, we first need some meta information." ;;
  print Plain "This information will be added to every adapter info card." ;;
  print Plain "Prompts starting with '[opt.]' are optional. Skip them if not applicable." ;;
  metadata <- ask_for_metadata ;;
  url_template <- lift (getitem metadata "adapter_url_template") ;;
  let metadata := AList.remove "adapter_url_template" metadata in
  print Plain "Thanks! Now let's start..." ;;
  pack_each 0 (List.length folders) folders save_root template_file metadata
    version url_template ;;
  print_finalization_text.
End Command.

(** ** Notions the statements use *)

(** The keys that lines 255-262 assign themselves. *)
Definition card_keys : list string :=
  ["files"; "default_version"; "config"; "prediction_head"].

Definition is_write (e : event) : bool :=
  match e with
  | Wrote _ => true
  | _ => false
  end.

(** The paths opened for writing, in order. *)
Fixpoint writes (l : list event) : list string :=
  match l with
  | [] => []
  | Wrote p :: l' => p :: writes l'
  | _ :: l' => writes l'
  end.

(** The line the loop prints before it packs a folder. *)
Definition header (i total : nat) (folder : string) : event :=
  Print Cyan ("[Adapter " ++ Str.of_nat (i + 1) ++ " of " ++ Str.of_nat total ++ "] " ++ folder).

Definition printed (e : event) (w : world) : world :=
  World (fs w) (answers w) (input_cache w) (log w ++ [e]).

(** What the handler of the loop adds to the world a failure left: its two
    lines, after everything that was logged while packing the folder. *)
Definition reported (ex : exc) (w : world) : world :=
  printed (PrintExc Red ex) (printed (Print Red "✘ Failed to pack adapter") w).

(** Relations between the world before and the world after. *)
Definition same_fs (w w' : world) : Prop := fs w' = fs w.
Definition same_writes (w w' : world) : Prop := writes (log w') = writes (log w).
Definition log_extends (w w' : world) : Prop := exists l, log w' = log w ++ l.

(** A computation obeys [P] when every run relates its two worlds by [P] and
    raises instances of [Exception] only. *)
Definition obeys {A} (P : world -> world -> Prop) (m : Py A) : Prop :=
  forall w r w', m w = (r, w') ->
    P w w' /\ (forall e, r = Raise e -> is_Exception e = true).

Definition osafe {A} (o : outcome A) : Prop :=
  forall e, o = Raise e -> is_Exception e = true.

(** Relations that hold across the steps that write no file. *)
Class Quiet (P : world -> world -> Prop) : Prop := {
  quiet_refl : forall w, P w w;
  quiet_trans : forall a b c, P a b -> P b c -> P a c;
  quiet_event : forall w e, is_write e = false -> P w (printed e w);
  quiet_answers : forall w a, P w (World (fs w) a (input_cache w) (log w));
  quiet_cache : forall w c, P w (World (fs w) (answers w) c (log w))
}.

(** Relations that also hold when the file tree changes. *)
Class Storing (P : world -> world -> Prop) : Prop := {
  storing_fs : forall w t, P w (World t (answers w) (input_cache w) (log w))
}.

(** What [os.listdir] succeeds on: a readable directory. *)
Definition listable (r : errno + node) : Prop := exists es, r = inr (Dir true es).

(** A directory with no regular file directly inside it. *)
Definition holds_no_file (folder : string) (w : world) : Prop :=
  exists r es, OS.lookup folder w = inr (Dir r es) /\
               forall name d, AList.get name es <> Some (File d).

(** The names of the members of the archive at [zip_name], if there is one. *)
Definition archive_names (zip_name : string) (w : world) : option (list string) :=
  match OS.lookup zip_name w with
  | inr (File (FZip members)) => Some (AList.keys members)
  | _ => None
  end.

(** Lexicographic order of file names. *)
Fixpoint sorted_names (names : list string) : bool :=
  match names with
  | a :: (b :: _) as rest => String.leb a b && sorted_names rest
  | _ => true
  end.

(** A member written for a listed name: the name itself, or the name with a
    slash for a directory. *)
Definition member_of (name : string) (member : string * fdata) : Prop :=
  fst member = name \/ fst member = (name ++ "/")%string.

(** A computation whose result and file tree depend on the file tree only. *)
Definition fs_determined {A} (m : Py A) : Prop :=
  forall w1 w2, fs w1 = fs w2 ->
    fst (m w1) = fst (m w2) /\ fs (snd (m w1)) = fs (snd (m w2)).

(** A string of ASCII characters only.  Which characters are decimal digits
    depends on the Unicode version of the interpreter; among the ASCII
    characters they are [0] to [9] in every version. *)
Definition is_ascii (s : string) : bool :=
  forallb (fun c => (nat_of_ascii c <? 128)%nat) (list_ascii_of_string s).

(** A piece of a format string that is a literal character or a field
    [{name}] with nothing but a keyword name in ASCII, bound to a string if
    bound. *)
Definition plain_piece (kwargs : dict) (p : Fmt.piece) : bool :=
  match p with
  | Fmt.Lit _ => true
  | Fmt.Bad => false
  | Fmt.Field name suffix =>
      String.eqb suffix "" && String.eqb (Fmt.accessors name) ""
      && negb (Fmt.positional (Fmt.arg_name name))
      && is_ascii (Fmt.arg_name name)
      && match AList.get (Fmt.arg_name name) kwargs with
         | Some (VStr _) | None => true
         | Some _ => false
         end
  end.


(** *** Paths and trees as a file system has them *)

(** A path written plainly: entry names separated by single slashes, from
    the working directory or from the root, with no empty, [.] or [..]
    component and no slash at its end.  These are the paths for which
    resolving by [Path.components] is what the operating system does. *)
Definition plain_path (p : string) : bool :=
  match p with
  | EmptyString => false
  | String c rest =>
      if Ascii.eqb c "/" then forallb Path.plain (Str.split_slash rest)
      else forallb Path.plain (Str.split_slash p)
  end.

(** No character that [glob] reads as a wildcard. *)
Definition no_wildcard (s : string) : bool :=
  negb (Str.mem "*" s) && negb (Str.mem "?" s) && negb (Str.mem "[" s).

(** A plain path that [glob] takes literally. *)
Definition literal_path (p : string) : bool := plain_path p && no_wildcard p.

Fixpoint distinct (names : list string) : bool :=
  match names with
  | [] => true
  | x :: names' => negb (existsb (String.eqb x) names') && distinct names'
  end.

(** A tree as a file system has it: a directory lists each name once, and
    the names are entry names. *)
Fixpoint tree_wf (n : node) : bool :=
  match n with
  | File _ => true
  | Dir _ es =>
      distinct (AList.keys es)
      && (fix all (l : list (string * node)) : bool :=
            match l with
            | [] => true
            | (x, child) :: l' => Path.plain x && tree_wf child && all l'
            end) es
  end.

(** *** The scan, in the words of its description

    The directories below a node, each as the names that lead to it from the
    node: those reached through directories that can be listed, none of them
    hidden; each before the ones it contains, siblings in listing order. *)
Fixpoint directories_below (n : node) : list (list string) :=
  match n with
  | Dir true es =>
      (fix each (l : list (string * node)) : list (list string) :=
         match l with
         | [] => []
         | (x, child) :: l' =>
             match child with
             | Dir _ _ =>
                 if Tree.hidden x then each l'
                 else ([x] :: map (cons x) (directories_below child)) ++ each l'
             | File _ => each l'
             end
         end) es
  | _ => []
  end.

(** The names [ds] lead from [n] down through directories that can be
    listed to a directory, and none of them is hidden. *)
Fixpoint descends (n : node) (ds : list string) : bool :=
  match ds with
  | [] => true
  | x :: ds' =>
      match n with
      | Dir true es =>
          negb (Tree.hidden x)
          && match AList.get x es with
             | Some (Dir r' es') => descends (Dir r' es') ds'
             | _ => false
             end
      | _ => false
      end
  end.

(** The directory [ds] below [n] has an entry called [name]. *)
Definition holds (n : node) (name : string) (ds : list string) : bool :=
  match Tree.lookup (ds ++ [name]) n with
  | inr _ => true
  | inl _ => false
  end.

(** The matches of a weights-file name at or below a root: the root itself
    and the directories below it that have an entry of that name. *)
Definition matches_below (root name : string) (w : world) : list (list string) :=
  match OS.lookup root w with
  | inr n => filter (holds n name) ([] :: directories_below n)
  | inl _ => []
  end.

(** What the scan is to report for a weights-file name: for each root in
    order, for each match at or below it, the directory of the match, written
    as the root followed by the names that lead to it. *)
Definition scan_result (roots : list string) (name : string) (w : world) : list string :=
  flat_map (fun root => map (fun ds => Str.join "/" (root :: ds)) (matches_below root name w))
           roots.

(** A tree in which one directory holds a full model and an adapter. *)
Definition zoo_tree : node :=
  Dir true [("zoo", Dir true [("bert", Dir true [("pytorch_model.bin", File (FRaw []));
                                                  ("pytorch_adapter.bin", File (FRaw []))])])].

(** ** Sample data

    An artifact directory as the command expects it, a template, an output
    directory, and the answers of a user; stand-ins for the library functions
    the command is parameterised by. *)

Definition sample_config : value :=
  VDict [("type", VStr "text_task"); ("model_name", VStr "bert-base");
         ("config_id", VStr "9076f36a74755ac4");
         ("config", VDict [("non_linearity", VStr "relu"); ("reduction_factor", VInt 16)]);
         ("hidden_size", VInt 768)].

Definition sample_template : value :=
  VDict [("type", VNone); ("task", VNone); ("subtask", VNone); ("model_type", VNone);
         ("model_name", VNone); ("author", VNone); ("config", VNone);
         ("files", VNone); ("description", VStr "TODO")].

Definition reordered_tree (listing_first : bool) : node :=
  let a := ("adapter_config.json", File (FJson sample_config)) in
  let b := ("pytorch_adapter.bin", File (FRaw [])) in
  Dir true [("adapters",
             Dir true [("bert-base", Dir true (if listing_first then [a; b] else [b; a]))]);
            ("tpl.yaml", File (FYaml sample_template));
            ("out", Dir true [])].

Definition sample_folder (readable : bool) : node :=
  Dir readable [("pytorch_adapter.bin", File (FRaw []));
                ("adapter_config.json", File (FJson sample_config))].

Definition sample_tree : node :=
  Dir true [("adapters", Dir true [("bert-base", sample_folder true);
                                    ("locked", sample_folder false);
                                    ("no-config",
                                     Dir true [("adapter_config.json",
                                                File (FJson (VDict [("model_name", VStr "bert-base");
                                                                    ("type", VStr "text_task");
                                                                    ("config_id", VStr "9076f36a74755ac4")])))]);
                                    ("empty", Dir true [])]);
            ("tpl.yaml", File (FYaml sample_template));
            ("out", Dir true [])].

Definition sample_answers : list dict :=
  [ [("task", VStr "sst/2"); ("subtask", VStr "glue")];
    [("config_name", VStr "pfeiffer")] ].

Definition sample_world : world := World sample_tree sample_answers [] [].

Definition sample_metadata : dict := [("author", VStr "A"); ("email", VStr "a@x.com")].

(** Stand-ins: every file reads as no bytes, and no field beyond a plain
    string field can be rendered. *)
Definition no_bytes (d : fdata) : list Byte.byte := [].
Definition no_format (kwargs : dict) (v : value) (rest : string) : Fmt.error + string :=
  inl Fmt.EValue.

(** Packing one folder into [out], with the stand-ins and the sample
    metadata. *)
Abbreviation pack_sample w folder :=
  (pack_adapter no_bytes no_format folder "out" "tpl.yaml" None (Some sample_metadata)
     (VStr "1") VNone w) (only parsing).

Definition sample_start : world := World sample_tree sample_answers [] [].

Definition sample_zip : string := "out/bert-base_sst-2_glue_pfeiffer.zip".
Definition sample_yaml : string := "out/bert-base_sst-2_glue_pfeiffer.yaml".

(** The worlds the sample runs end in. *)
Definition sample_done : world :=
  Eval vm_compute in snd (pack_sample sample_start "adapters/bert-base").

Definition locked_done : world :=
  Eval vm_compute in snd (pack_sample sample_start "adapters/locked").

Definition no_config_done : world :=
  Eval vm_compute in snd (pack_sample sample_start "adapters/no-config").

Definition listed_start (config_first : bool) : world :=
  World (reordered_tree config_first) sample_answers [] [].

Definition listed_done_weights_first : world :=
  Eval vm_compute in snd (pack_sample (listed_start false) "adapters/bert-base").

Definition listed_done_config_first : world :=
  Eval vm_compute in snd (pack_sample (listed_start true) "adapters/bert-base").

Definition zipped_done : world :=
  Eval vm_compute in snd (zip_folder "adapters/bert-base" "out/a.zip" sample_start).

Definition zoo_world : world := World zoo_tree [] [] [].

(** Relations that also hold when a file is opened for writing. *)
Class Writing (P : world -> world -> Prop) : Prop := {
  writing_event : forall w p, P w (printed (Wrote p) w)
}.

(** ** Notions of the further properties *)

(** The four fields the output name is made of, in the order line 227 reads
    them. *)
Definition name_keys : list string := ["model_name"; "task"; "subtask"; "config_name"].

(** A string without braces: literal text to [str.format]. *)
Definition no_braces (s : string) : bool :=
  negb (Str.mem "{" s) && negb (Str.mem "}" s).

(** The four lines [pack_adapters_interactive] has printed when it asks for
    the metadata. *)
Definition before_metadata (folders : list string) (w : world) : world :=
  printed (Print Plain "Prompts starting with '[opt.]' are optional. Skip them if not applicable.")
    (printed (Print Plain "This information will be added to every adapter info card.")
       (printed (Print Plain "[i] Before we start packing your adapters, we first need some meta information.")
          (printed (Print Cyan ("========== Step 2: Packing " ++ Str.of_nat (List.length folders)
                                ++ " adapters =========="))
             w))).

(** The events of [print_finalization_text]. *)
Definition finalization : list event :=
  [Print Cyan "========== Step 3: Finalization & Upload ==========";
   Print Plain "Great! We have successfully packed all adapters.";
   Print Plain "These are your next steps for publishing them on AdapterHub:";
   Print Magenta "-> Upload the created zip folders to your server.";
   Print Magenta "-> Add the download links to your adapters to the respective yaml info cards.";
   Print Magenta "-> Add additional information to your info cards. Description and citation are very useful!";
   Print Magenta "-> Open a pull request to https://github.com/adapter-hub/Hub to add your info cards.";
   Print Plain ""].

(** Apart from the files at [paths], the two worlds hold the same regular
    files with the same content. *)
Definition keeps_files_except (paths : list string) (w w' : world) : Prop :=
  forall q d, ~ In q (map Path.components paths) ->
    (Tree.lookup q (fs w) = inr (File d) <-> Tree.lookup q (fs w') = inr (File d)).

(** Relations that hold when the file at [path] is stored into. *)
Class StoringAt (P : world -> world -> Prop) (path : string) : Prop := {
  storing_at : forall w d t,
    Tree.store (Path.components path) d (fs w) = inr t ->
    P w (World t (answers w) (input_cache w) (log w))
}.

(** ** [run] (lines 316-349)

    [AutoModel.from_pretrained(model_dir).save_all_adapters(model_dir)], which
    loads the model in a directory, saves its adapters there and gives their
    paths, is the library's: a parameter. *)

(** [v == s] for a string [s]. *)
Definition equals_str (v : value) (s : string) : bool :=
  match v with
  | VStr s' => String.eqb s' s
  | _ => false
  end.

(** Lines 346-348: [for adapter_path in paths: if adapter_path not in
    adapters_list: adapters_list.append(adapter_path)] *)
Fixpoint add_new (adapters_list paths : list string) : list string :=
  match paths with
  | [] => adapters_list
  | adapter_path :: rest =>
      add_new (if existsb (String.eqb adapter_path) adapters_list then adapters_list
               else adapters_list ++ [adapter_path])
              rest
  end.

Section Run.
Variable file_bytes : fdata -> list Byte.byte.
Variable format_field : dict -> value -> string -> Fmt.error + string.
Variables WEIGHTS_NAME ADAPTER_WEIGHTS_NAME ADAPTER_CACHE : string.
Variable download_cached : string -> Py string.
Variable save_all_adapters : string -> Py (list string).

(** Lines 342-348: the loop over the models. *)
Fixpoint extract_all (models_list adapters_list : list string) : Py (list string) :=
  match models_list with
  | [] => ret adapters_list
  | model_dir :: rest =>
      print Plain ("Extracting adapters from model in " ++ model_dir ++ " ...") ;;
      paths <- save_all_adapters model_dir ;;
      extract_all rest (add_new adapters_list paths)
  end.

Definition run (self : command) : Py unit :=
  fun w =>
    let (models_list, adapters_list) :=
      find_models_and_adapters WEIGHTS_NAME ADAPTER_WEIGHTS_NAME self w in
    (print Cyan "========== Step 1: Found models and adapters ==========" ;;
     for_each models_list (fun model_dir => print Plain ("Model in " ++ model_dir)) ;;
     for_each adapters_list (fun adapter_dir => print Plain ("Adapter in " ++ adapter_dir)) ;;
     answers <- prompt ["mode"] ;;
     mode <- lift (getitem answers "mode") ;;
     if equals_str mode "exit" then ret tt
     else
       adapters_list <-
         (if equals_str mode "extract" then extract_all models_list adapters_list
          else ret adapters_list) ;;
       pack_adapters_interactive file_bytes format_field ADAPTER_CACHE download_cached
         self adapters_list (output_path self) (VStr "1")) w.
End Run.

(** What [run] has printed and asked when the user has chosen a mode. *)
Definition listing (models_list adapters_list : list string) : list event :=
  Print Cyan "========== Step 1: Found models and adapters =========="
  :: map (fun model_dir => Print Plain ("Model in " ++ model_dir)) models_list
  ++ map (fun adapter_dir => Print Plain ("Adapter in " ++ adapter_dir)) adapters_list
  ++ [Asked ["mode"]].

Definition listed (found : list string * list string) (rest : list dict) (w : world) : world :=
  World (fs w) rest (input_cache w) (log w ++ listing (fst found) (snd found)).

(** ** Sample data of the further properties

    A session of the batch command: the sample folder and an empty folder,
    the template, the output directory and the cache directory the metadata
    file is kept in. *)

Definition session_tree : node :=
  Dir true [("adapters", Dir true [("bert-base", sample_folder true);
                                    ("empty", Dir true [])]);
            ("tpl.yaml", File (FYaml sample_template));
            ("out", Dir true []);
            ("cache", Dir true [])].

Definition session_metadata : dict :=
  [("author", VStr "A"); ("email", VStr "a@x.com");
   ("adapter_url_template", VStr "https://hub/{file}")].

Definition session_folders : list string := ["adapters/empty"; "adapters/bert-base"].

Definition session_command (template : string) : command :=
  init [] (Some "out") (Some template) false.

(** The session's world, by what the user answers to the metadata prompt. *)
Definition session_world (first : dict) : world :=
  World session_tree (first :: sample_answers) [] [].

(** Stand-in: the template is found in the cache under [tpl.yaml]. *)
Definition cached_template (url : string) : Py string := ret "tpl.yaml".

Definition session_asked : world :=
  Eval vm_compute in
    snd (ask_for_metadata "cache"
           (before_metadata session_folders (session_world session_metadata))).

Definition session_asked_short : world :=
  Eval vm_compute in
    snd (ask_for_metadata "cache"
           (before_metadata session_folders (session_world [("author", VStr "A")]))).

(** A tree whose metadata file holds a JSON list. *)
Definition broken_world : world :=
  World (Dir true [("cache", Dir true [("pack_metadata.json", File (FJson (VList [])))])])
        [session_metadata] [] [].

(** The data collected from the sample folder, and the world after the
    prompts. *)
Definition sample_data : dict :=
  Eval vm_compute in
    match fst (collect_adapter_data "adapters/bert-base" None sample_start) with
    | Ok data => data
    | Raise _ => []
    end.

Definition sample_collected : world :=
  Eval vm_compute in snd (collect_adapter_data "adapters/bert-base" None sample_start).

Definition sample_file_info : dict := [("version", VStr "1"); ("url", VStr "TODO")].

Definition sample_card : dict :=
  Eval vm_compute in
    match sample_template with
    | VDict template =>
        match fill_card sample_data template sample_file_info (VStr "1") false
                (Some sample_metadata) with
        | Ok card => card
        | Raise _ => []
        end
    | _ => []
    end.

Definition sample_template_dict : dict :=
  match sample_template with VDict template => template | _ => [] end.

(** A run of the whole command on the session's tree, by the mode the user
    chooses. *)
Definition run_command : command := init ["adapters"] (Some "out") (Some "tpl.yaml") false.

Definition run_world (mode : string) : world :=
  World session_tree ([("mode", VStr mode)] :: session_metadata :: sample_answers) [] [].

(** Stand-in: saving the adapters of a model gives one path below the model,
    twice, and one that the scan lists already. *)
Definition saved_adapters (model_dir : string) : Py (list string) :=
  ret [(model_dir ++ "/a")%string; "zoo/bert"%string; (model_dir ++ "/a")%string].

Definition run_listed : world :=
  Eval vm_compute in
    listed (find_models_and_adapters "pytorch_model.bin" "pytorch_adapter.bin"
              run_command (run_world "no_extract"))
           (session_metadata :: sample_answers) (run_world "no_extract").

Definition run_asked : world :=
  Eval vm_compute in
    snd (ask_for_metadata "cache" (before_metadata ["adapters/bert-base"] run_listed)).

Definition zoo_extracted : world :=
  Eval vm_compute in snd (extract_all saved_adapters ["zoo/bert"] ["zoo/bert"] zoo_world).

(** Two artifacts whose model names differ in a slash. *)
Definition slash_data (model_name : string) : dict :=
  [("model_name", VStr model_name); ("task", VStr "sst"); ("subtask", VStr "glue");
   ("config_name", VStr "pfeiffer")].


(** * Properties *)

(** ** Association lists *)

Section AListFacts.
Context {V : Type}.
Implicit Types (l d src : list (string * V)) (k : string) (v : V).

Lemma get_set_same k v l : AList.get k (AList.set k v l) = Some v.
Proof.
  induction l as [|[k' v'] l IH]; simpl.
  - now rewrite String.eqb_refl.
  - destruct (String.eqb k k') eqn:E; simpl; rewrite ?String.eqb_refl, ?E; auto.
Qed.

Lemma get_set_other k k' v l :
  k <> k' -> AList.get k' (AList.set k v l) = AList.get k' l.
Proof.
  intros N. apply String.eqb_neq in N. rewrite String.eqb_sym in N.
  induction l as [|[k1 v1] l IH]; simpl.
  - now rewrite N.
  - destruct (String.eqb k k1) eqn:E; simpl.
    + apply String.eqb_eq in E; subst k1. now rewrite N.
    + now rewrite IH.
Qed.

Lemma keys_set_present k v l :
  AList.has k l = true -> AList.keys (AList.set k v l) = AList.keys l.
Proof.
  unfold AList.has.
  induction l as [|[k1 v1] l IH]; simpl; [discriminate|].
  destruct (String.eqb k k1) eqn:E; simpl; intros H.
  - apply String.eqb_eq in E. now subst.
  - now rewrite IH.
Qed.

Lemma get_none_iff k l : AList.get k l = None <-> ~ In k (AList.keys l).
Proof.
  induction l as [|[k1 v1] l IH]; simpl; [tauto|].
  destruct (String.eqb k k1) eqn:E.
  - apply String.eqb_eq in E. split; [discriminate | intros N; exfalso; apply N; auto].
  - apply String.eqb_neq in E. rewrite IH. split; [intros N [H|H]; congruence | tauto].
Qed.

Lemma get_some_in_keys k v l : AList.get k l = Some v -> In k (AList.keys l).
Proof.
  intros H. destruct (in_dec string_dec k (AList.keys l)) as [|N]; [assumption|].
  apply get_none_iff in N. congruence.
Qed.

Lemma has_by_keys k l l' :
  AList.keys l = AList.keys l' -> AList.has k l = AList.has k l'.
Proof.
  intros E. unfold AList.has.
  destruct (AList.get k l) eqn:G, (AList.get k l') eqn:G'; auto.
  - apply get_some_in_keys in G. apply get_none_iff in G'. now rewrite E in G.
  - apply get_some_in_keys in G'. apply get_none_iff in G. now rewrite E in G.
Qed.

Lemma get_update_other k d src :
  ~ In k (AList.keys src) -> AList.get k (AList.update d src) = AList.get k d.
Proof.
  unfold AList.update. revert d.
  induction src as [|[k1 v1] src IH]; simpl; intros d N; [reflexivity|].
  rewrite IH by tauto. apply get_set_other. intros ->. tauto.
Qed.

Lemma get_update_bound k v d src :
  AList.wf src -> AList.get k src = Some v ->
  AList.get k (AList.update d src) = Some v.
Proof.
  unfold AList.update, AList.wf. revert d.
  induction src as [|[k1 v1] src IH]; simpl; intros d W G; [discriminate|].
  inversion W as [|? ? Nin W']; subst.
  destruct (String.eqb k k1) eqn:E.
  - apply String.eqb_eq in E. subst k1. injection G as ->.
    change (AList.get k (AList.update (AList.set k v d) src) = Some v).
    rewrite get_update_other by assumption. apply get_set_same.
  - now apply IH.
Qed.
End AListFacts.

(** ** The template overlay (lines 252-254) *)

Lemma fill_key_keys adapter_data template k :
  AList.keys (fill_key adapter_data template k) = AList.keys template.
Proof.
  unfold fill_key.
  destruct (AList.has k template) eqn:H; simpl; [|reflexivity].
  destruct (negb (String.eqb k "config")); [|reflexivity].
  destruct (AList.get k adapter_data); [|reflexivity].
  now apply keys_set_present.
Qed.

Lemma fill_key_other adapter_data template k key :
  k <> key ->
  AList.get key (fill_key adapter_data template k) = AList.get key template.
Proof.
  intros N. unfold fill_key.
  destruct (AList.has k template && negb (String.eqb k "config")); [|reflexivity].
  destruct (AList.get k adapter_data); [|reflexivity].
  now apply get_set_other.
Qed.

Lemma fill_keys_keys adapter_data ks : forall template,
  AList.keys (fold_left (fill_key adapter_data) ks template) = AList.keys template.
Proof.
  induction ks as [|k ks IH]; simpl; intros; [reflexivity|].
  rewrite IH. apply fill_key_keys.
Qed.

Lemma fill_keys_untouched adapter_data key ks : forall template,
  ~ In key ks \/ key = "config" ->
  AList.get key (fold_left (fill_key adapter_data) ks template) = AList.get key template.
Proof.
  induction ks as [|k ks IH]; simpl; intros template H; [reflexivity|].
  rewrite IH by tauto.
  destruct (string_dec k key) as [->|N]; [|now apply fill_key_other].
  destruct H as [H| ->]; [tauto|].
  unfold fill_key. simpl. now rewrite andb_false_r.
Qed.

Lemma fill_keys_overwrites adapter_data key v ks : forall template,
  AList.get key adapter_data = Some v ->
  In key ks -> AList.has key template = true -> key <> "config" ->
  AList.get key (fold_left (fill_key adapter_data) ks template) = Some v.
Proof.
  induction ks as [|k ks IH]; simpl; intros template G I H N; [contradiction|].
  destruct (in_dec string_dec key ks) as [I'|I'].
  - apply IH; auto.
    rewrite <- H. apply has_by_keys, fill_key_keys.
  - destruct I as [->|]; [|contradiction].
    rewrite fill_keys_untouched by tauto.
    unfold fill_key. rewrite H, G.
    apply String.eqb_neq in N. rewrite N. simpl. apply get_set_same.
Qed.

Lemma fill_template_get adapter_data template key v :
  AList.get key adapter_data = Some v ->
  AList.get key (fill_template adapter_data template) =
    if AList.has key template
    then if String.eqb key "config" then AList.get key template else Some v
    else None.
Proof.
  intros G. unfold fill_template.
  destruct (AList.has key template) eqn:H.
  - destruct (String.eqb key "config") eqn:E.
    + apply String.eqb_eq in E. now apply fill_keys_untouched; right.
    + apply String.eqb_neq in E.
      apply fill_keys_overwrites; auto. eapply get_some_in_keys; eauto.
  - pose proof (has_by_keys key _ _ (fill_keys_keys adapter_data (AList.keys adapter_data) template)) as K.
    rewrite H in K. unfold AList.has in K.
    now destruct (AList.get key (fold_left (fill_key adapter_data) (AList.keys adapter_data) template)).
Qed.

Lemma add_metadata_other template metadata key :
  (forall m, metadata = Some m -> ~ In key (AList.keys m)) ->
  AList.get key (add_metadata template metadata) = AList.get key template.
Proof.
  intros H. unfold add_metadata.
  destruct metadata as [m|]; [|reflexivity].
  destruct (truthy (VDict m)); [|reflexivity].
  apply get_update_other. now apply H.
Qed.

Lemma fill_card_other adapter_data template file_info version head metadata card key :
  fill_card adapter_data template file_info version head metadata = Ok card ->
  ~ In key card_keys ->
  (forall m, metadata = Some m -> ~ In key (AList.keys m)) ->
  AList.get key card = AList.get key (fill_template adapter_data template).
Proof.
  unfold fill_card, card_keys. intros F N M. simpl in N.
  destruct (getitem adapter_data "config_name"); simpl in F; [|discriminate].
  destruct (getitem adapter_data "config") as [c|]; simpl in F; [|discriminate].
  destruct (subscript c "non_linearity"); simpl in F; [|discriminate].
  destruct (subscript c "reduction_factor"); simpl in F; [|discriminate].
  injection F as <-.
  rewrite add_metadata_other by assumption.
  repeat rewrite get_set_other by (intros E; apply N; rewrite E; tauto).
  reflexivity.
Qed.

(** C1. The loop of lines 252-254 keeps the template's keys as they are, and
    for a key [key] of the artifact's data with value [v]: if the template has
    [key] at its top level and [key] is not ["config"], the template's value
    becomes [v]; if the template has it and it is ["config"], the template's
    value stays; if the template does not have it, it is not added.  The info
    card that is saved binds [key] the same way, apart from the keys the
    later steps assign themselves ([files], [default_version], [config],
    [prediction_head]) and the keys of the session metadata. *)
Theorem fill_template_follows_template_schema
    (adapter_data template : dict) (key : string) (v : value) :
  AList.get key adapter_data = Some v ->
  AList.keys (fill_template adapter_data template) = AList.keys template /\
  AList.get key (fill_template adapter_data template) =
    (if AList.has key template
     then if String.eqb key "config" then AList.get key template else Some v
     else None) /\
  (forall file_info version head metadata card,
      fill_card adapter_data template file_info version head metadata = Ok card ->
      ~ In key card_keys ->
      (forall m, metadata = Some m -> ~ In key (AList.keys m)) ->
      AList.get key card = if AList.has key template then Some v else None).
Proof.
  intros G. split; [apply fill_keys_keys|]. split; [now apply fill_template_get|].
  intros file_info version head metadata card F N M.
  rewrite (fill_card_other _ _ _ _ _ _ _ _ F N M), (fill_template_get _ _ _ _ G).
  destruct (String.eqb key "config") eqn:E; [|reflexivity].
  apply String.eqb_eq in E. exfalso. apply N. subst. simpl. tauto.
Qed.

(** ** The configuration file over the caller's data (lines 205-210) *)

(** C10. Every field of the artifact's [adapter_config.json] is in the data
    after the file is loaded, with the file's value, whatever the caller
    supplied under the same name; the caller's other fields are kept. *)
Theorem config_file_overrides_caller_data
    (caller : option dict) (config : dict) (key : string) (v : value) :
  AList.wf config ->
  AList.get key config = Some v ->
  AList.get key (add_config caller config) = Some v /\
  (forall other, ~ In other (AList.keys config) ->
     AList.get other (add_config caller config) = AList.get other (or_empty caller)).
Proof.
  intros W G. unfold add_config. split.
  - now apply get_update_bound.
  - intros other N. now apply get_update_other.
Qed.

(** ** Digests (lines 238-241) *)

Lemma length_app (a b : string) :
  String.length (a ++ b) = (String.length a + String.length b)%nat.
Proof. induction a; simpl; auto. Qed.

Lemma all_chars_app f (a b : string) :
  Hash.all_chars f (a ++ b) = Hash.all_chars f a && Hash.all_chars f b.
Proof. induction a; simpl; auto. rewrite IHa. apply andb_assoc. Qed.

Lemma hex_digit_lower d : Hash.is_lower_hex (Hash.hex_digit d) = true.
Proof.
  unfold Hash.hex_digit, Hash.is_lower_hex.
  destruct (nth_in_or_default (Z.to_nat d) Hash.hex_chars "f"%char) as [I|E].
  - apply existsb_exists. eexists. split; [exact I|]. apply Ascii.eqb_refl.
  - rewrite E. reflexivity.
Qed.

Lemma hex_word_digest w : Hash.is_hexdigest 8 (Hash.hex_word w) = true.
Proof.
  unfold Hash.is_hexdigest, Hash.hex_word.
  cbn [map string_of_list_ascii String.length Nat.eqb Hash.all_chars andb].
  now rewrite !hex_digit_lower.
Qed.

Lemma hexdigest_app n m a b :
  Hash.is_hexdigest n a = true -> Hash.is_hexdigest m b = true ->
  Hash.is_hexdigest (n + m) (a ++ b) = true.
Proof.
  unfold Hash.is_hexdigest. rewrite !andb_true_iff, !Nat.eqb_eq.
  intros [La Ca] [Lb Cb]. rewrite length_app, all_chars_app, Ca, Cb. split; auto.
Qed.

Lemma sha1_hex_digest msg : Hash.is_hexdigest 40 (Hash.sha1_hex msg) = true.
Proof.
  unfold Hash.sha1_hex. destruct (Hash.sha1 msg) as [[[[h0 h1] h2] h3] h4].
  repeat apply (hexdigest_app 8); apply hex_word_digest.
Qed.

Lemma sha256_hex_digest msg : Hash.is_hexdigest 64 (Hash.sha256_hex msg) = true.
Proof.
  unfold Hash.sha256_hex.
  destruct (Hash.sha256 msg) as [[[[[[[h0 h1] h2] h3] h4] h5] h6] h7].
  repeat apply (hexdigest_app 8); apply hex_word_digest.
Qed.

Example sha256_round_constants :
  nth 0 Hash.sha256_k 0 = 0x428a2f98 /\ nth 1 Hash.sha256_k 0 = 0x71374491 /\
  nth 63 Hash.sha256_k 0 = 0xc67178f2.
Proof. repeat split. Qed.

Example sha1_abc :
  Hash.sha1_hex (Hash.bytes_of_string "abc") = "a9993e364706816aba3e25717850c26c9cd0d89d".
Proof. vm_compute. reflexivity. Qed.

Example sha256_abc :
  Hash.sha256_hex (Hash.bytes_of_string "abc")
  = "ba7816bf8f01cfea414140de5dae2223b00361a396177a9cb410ff61f20015ad".
Proof. vm_compute. reflexivity. Qed.

Example sha1_two_blocks :
  Hash.sha1_hex (Hash.bytes_of_string
    "abcdbcdecdefdefgefghfghighijhijkijkljklmklmnlmnomnopnopq_abcdbcdecdefdefgefghfghighijhijkijkljklmklmnlmnomnopnopq")
  = "84e99fa8500fd6ea11b119b3dd2bca7e8cb67a9d".
Proof. vm_compute. reflexivity. Qed.

Example sha256_two_blocks :
  Hash.sha256_hex (Hash.bytes_of_string
    "abcdbcdecdefdefgefghfghighijhijkijkljklmklmnlmnomnopnopq_abcdbcdecdefdefgefghfghighijhijkijkljklmklmnlmnomnopnopq")
  = "9c7319064c255f01b95f9b6bd95e5208d74b7d1f7ec064b72733bc52ed7b67fc".
Proof. vm_compute. reflexivity. Qed.

(** C7. For an archive at [zip_name] holding [d]: the digests are computed
    from one read of the file, both over the same bytes; the sha1 digest is a
    lowercase hexadecimal string of 40 characters and the sha256 digest one of
    64; the file tree is left as it was, so computing again on the same bytes
    gives the same pair. *)
Theorem file_hashes_reads_once_and_gives_hex_digests
    (file_bytes : fdata -> list Byte.byte) (zip_name : string) (w : world) (d : fdata) :
  OS.lookup zip_name w = inr (File d) ->
  let w' := World (fs w) (answers w) (input_cache w) (log w ++ [Read zip_name]) in
  let sha1 := Hash.sha1_hex (file_bytes d) in
  let sha256 := Hash.sha256_hex (file_bytes d) in
  file_hashes file_bytes zip_name w = (Ok (sha1, sha256), w') /\
  file_hashes file_bytes zip_name w' =
    (Ok (sha1, sha256),
     World (fs w) (answers w) (input_cache w) (log w ++ [Read zip_name; Read zip_name])) /\
  Hash.is_hexdigest 40 sha1 = true /\
  Hash.is_hexdigest 64 sha256 = true.
Proof.
  intros L w' sha1 sha256.
  assert (L' : OS.lookup zip_name w' = inr (File d)) by exact L.
  unfold file_hashes, OS.read_file. cbv beta delta [bind].
  rewrite L, L'. subst w' sha1 sha256.
  cbv beta iota delta [bind emit ret]. cbn [log fs answers input_cache].
  rewrite <- app_assoc.
  repeat split; auto using sha1_hex_digest, sha256_hex_digest.
Qed.

(** ** What the steps of the command may do *)

#[export] Instance same_fs_quiet : Quiet same_fs.
Proof. split; unfold same_fs; simpl; intros; congruence. Qed.

Lemma writes_app l l' : writes (l ++ l') = writes l ++ writes l'.
Proof.
  induction l as [|e l IH]; simpl; [reflexivity|].
  destruct e; simpl; now rewrite ?IH.
Qed.

#[export] Instance same_writes_quiet : Quiet same_writes.
Proof.
  split; unfold same_writes; simpl; intros; try congruence.
  rewrite writes_app. destruct e; try discriminate; simpl; now rewrite app_nil_r.
Qed.

#[export] Instance same_writes_storing : Storing same_writes.
Proof. split; unfold same_writes; reflexivity. Qed.

#[export] Instance log_extends_quiet : Quiet log_extends.
Proof.
  split; unfold log_extends; simpl; intros.
  - exists []. now rewrite app_nil_r.
  - destruct H as [l1 E1], H0 as [l2 E2]. exists (l1 ++ l2).
    now rewrite E2, E1, app_assoc.
  - now exists [e].
  - exists []. now rewrite app_nil_r.
  - exists []. now rewrite app_nil_r.
Qed.

#[export] Instance log_extends_storing : Storing log_extends.
Proof. split; unfold log_extends; simpl; intros. exists []. now rewrite app_nil_r. Qed.

Create HintDb py discriminated.

Section Obeys.
Context (P : world -> world -> Prop) `{Quiet P}.

Lemma obeys_ret {A} (a : A) : obeys P (ret a).
Proof.
  intros w r w' E. injection E as <- <-. split; [apply quiet_refl | discriminate].
Qed.

Lemma obeys_raise {A} e : is_Exception e = true -> obeys P (@raise A e).
Proof.
  intros X w r w' E. injection E as <- <-. split; [apply quiet_refl|].
  intros e' [= <-]. exact X.
Qed.

Lemma obeys_lift {A} (o : outcome A) : osafe o -> obeys P (lift o).
Proof.
  intros X w r w' E. injection E as <- <-. split; [apply quiet_refl | exact X].
Qed.

Lemma obeys_bind {A B} (m : Py A) (f : A -> Py B) :
  obeys P m -> (forall a, obeys P (f a)) -> obeys P (bind m f).
Proof.
  intros Hm Hf w r w' E. unfold bind in E.
  destruct (m w) as [[a|e] w1] eqn:M; destruct (Hm _ _ _ M) as [P1 S1].
  - destruct (Hf a _ _ _ E) as [P2 S2]. split; [eapply quiet_trans; eauto | exact S2].
  - injection E as <- <-. split; [exact P1|].
    intros e' [= <-]. now apply S1.
Qed.

Lemma obeys_emit e : is_write e = false -> obeys P (emit e).
Proof.
  intros X w r w' E. injection E as <- <-. split; [now apply quiet_event | discriminate].
Qed.

Lemma obeys_print c text : obeys P (print c text).
Proof. now apply obeys_emit. Qed.

Lemma obeys_prompt names : obeys P (prompt names).
Proof.
  intros w r w' E. unfold prompt in E. destruct (answers w) as [|a rest] eqn:A.
  - injection E as <- <-. split; [apply quiet_refl|]. now intros e [= <-].
  - injection E as <- <-. split; [|discriminate].
    eapply quiet_trans; [apply (quiet_answers w rest)|].
    apply (quiet_event (World (fs w) rest (input_cache w) (log w)) (Asked names)).
    reflexivity.
Qed.

Lemma obeys_set_input_cache k v : obeys P (set_input_cache k v).
Proof.
  intros w r w' E. injection E as <- <-. split; [apply quiet_cache | discriminate].
Qed.

Lemma obeys_read_file path : obeys P (OS.read_file path).
Proof.
  intros w r w' E. unfold OS.read_file in E.
  destruct (OS.lookup path w) as [e|[d|rd es]].
  - injection E as <- <-. split; [apply quiet_refl|]. now intros e' [= <-].
  - injection E as <- <-. split; [|discriminate]. now apply quiet_event.
  - injection E as <- <-. split; [apply quiet_refl|]. now intros e' [= <-].
Qed.

Lemma obeys_listdir path : obeys P (OS.listdir path).
Proof.
  intros w r w' E. unfold OS.listdir in E.
  destruct (OS.lookup path w) as [e|[d|[|] es]]; injection E as <- <-;
    (split; [apply quiet_refl|]); try discriminate; now intros e' [= <-].
Qed.

Lemma obeys_test {A} (b : world -> bool) (m1 m2 : Py A) :
  obeys P m1 -> obeys P m2 -> obeys P (fun w => if b w then m1 w else m2 w).
Proof. intros H1 H2 w r w' E. destruct (b w); eauto. Qed.

Lemma obeys_query (q : world -> bool) : obeys P (fun w => (Ok (q w), w)).
Proof.
  intros w r w' E. injection E as <- <-. split; [apply quiet_refl | discriminate].
Qed.
End Obeys.

#[export] Instance log_extends_writing : Writing log_extends.
Proof. split; unfold log_extends; simpl; intros. now exists [Wrote p]. Qed.

(** The pure steps raise instances of [Exception] only. *)

Ltac osafe_cases :=
  repeat match goal with
         | |- context [match ?x with _ => _ end] => destruct x
         end;
  intros ? [= <-]; reflexivity.

Lemma osafe_ok {A} (a : A) : osafe (Ok a).
Proof. intros e; discriminate. Qed.

Lemma osafe_getitem d k : osafe (getitem d k).
Proof. unfold osafe, getitem. osafe_cases. Qed.

Lemma osafe_subscript v k : osafe (subscript v k).
Proof. unfold osafe, subscript, getitem. osafe_cases. Qed.

Lemma osafe_items v : osafe (items v).
Proof. unfold osafe, items. osafe_cases. Qed.

Lemma osafe_json_load d : osafe (json_load d).
Proof. unfold osafe, json_load. osafe_cases. Qed.

Lemma osafe_yaml_load d : osafe (yaml_load d).
Proof. unfold osafe, yaml_load. osafe_cases. Qed.

Lemma osafe_as_str v : osafe (as_str v).
Proof. unfold osafe, as_str. osafe_cases. Qed.

Lemma osafe_obind {A B} (o : outcome A) (f : A -> outcome B) :
  osafe o -> (forall a, osafe (f a)) -> osafe (obind o f).
Proof.
  intros Ho Hf. destruct o as [a|e]; simpl; [apply Hf|].
  intros e' [= <-]. now apply Ho.
Qed.

#[export] Hint Resolve osafe_ok osafe_getitem osafe_subscript osafe_items
  osafe_json_load osafe_yaml_load osafe_as_str : py.

Lemma osafe_folder_name adapter_data : osafe (folder_name adapter_data).
Proof.
  unfold folder_name. repeat (apply osafe_obind; [auto with py | intros ?]).
  apply osafe_ok.
Qed.

Lemma osafe_fill_card adapter_data template file_info version head metadata :
  osafe (fill_card adapter_data template file_info version head metadata).
Proof.
  unfold fill_card. repeat (apply osafe_obind; [auto with py | intros ?]).
  apply osafe_ok.
Qed.

Lemma osafe_render_field format_field kwargs name suffix :
  osafe (Fmt.render_field format_field kwargs name suffix).
Proof.
  unfold osafe, Fmt.render_field.
  destruct (Fmt.positional _);
    [destruct (Fmt.PY_SSIZE_T_MAX <? _); now intros ? [= <-]|].
  destruct (AList.get _ kwargs) as [v|]; [|now intros ? [= <-]].
  assert (X : forall rest e,
             match format_field kwargs v rest with
             | inr s => Ok s
             | inl e0 => Raise (Fmt.to_exc e0)
             end = Raise e -> is_Exception e = true).
  { intros rest e. destruct (format_field kwargs v rest) as [[]|]; now intros [= <-]. }
  destruct v; try apply X.
  destruct (Fmt.accessors name ++ suffix)%string eqn:R; [discriminate|].
  apply X.
Qed.

Lemma osafe_render format_field kwargs ps : osafe (Fmt.render format_field kwargs ps).
Proof.
  induction ps as [|[c|name suffix|] ps IH]; simpl.
  - apply osafe_ok.
  - destruct (Fmt.render format_field kwargs ps); [apply osafe_ok|].
    intros e' [= <-]. now apply IH.
  - pose proof (osafe_render_field format_field kwargs name suffix) as F.
    destruct (Fmt.render_field format_field kwargs name suffix).
    + destruct (Fmt.render format_field kwargs ps); [apply osafe_ok|].
      intros e' [= <-]. now apply IH.
    + intros e' [= <-]. now apply F.
  - now intros e' [= <-].
Qed.

Lemma osafe_download_url format_field url_template zip_name adapter_data :
  osafe (download_url format_field url_template zip_name adapter_data).
Proof.
  unfold download_url. destruct (truthy url_template); [|apply osafe_ok].
  destruct url_template; try (now intros e' [= <-]).
  unfold Fmt.format_file. destruct (AList.has "file" adapter_data).
  - now intros e' [= <-].
  - apply osafe_render.
Qed.

#[export] Hint Resolve osafe_folder_name osafe_fill_card osafe_download_url : py.

#[export] Hint Resolve obeys_ret obeys_lift obeys_print obeys_prompt
  obeys_set_input_cache obeys_read_file obeys_listdir obeys_query : py.

#[export] Hint Extern 1 (Quiet _) => exact _ : py.
#[export] Hint Extern 1 (Storing _) => exact _ : py.
#[export] Hint Extern 1 (Writing _) => exact _ : py.

(** Apply a lemma of this family and let instance search find the classes. *)
Ltac use lem := apply lem; try exact _.

Ltac obeys_steps :=
  repeat first
    [ solve [auto with py]
    | use @obeys_raise; reflexivity
    | use @obeys_bind; [|intros ?]
    | use @obeys_test ].

Section ObeysSteps.
Context (P : world -> world -> Prop) `{Quiet P}.

Lemma obeys_ask_for_model_name : obeys P ask_for_model_name.
Proof. unfold ask_for_model_name. obeys_steps. Qed.

Lemma obeys_collect_adapter_data folder adapter_data :
  obeys P (collect_adapter_data folder adapter_data).
Proof.
  unfold collect_adapter_data, ask_for_adapter_type, ask_for_adapter_data,
    ask_for_adapter_config.
  use @obeys_bind; [auto with py | intros f].
  use @obeys_bind; [auto with py | intros config].
  use @obeys_bind; [auto with py | intros config_items].
  use @obeys_bind.
  { destruct (missing _ "type"); obeys_steps. }
  intros d1. use @obeys_bind; [auto with py | intros a1].
  use @obeys_bind; [auto with py | intros config_id].
  use @obeys_bind.
  { destruct (hashable config_id); obeys_steps. }
  intros a2. destruct (missing _ "model_name"); [|auto with py].
  use @obeys_bind; [use @obeys_ask_for_model_name | intros a3; auto with py].
Qed.

Lemma obeys_file_hashes file_bytes zip_name : obeys P (file_hashes file_bytes zip_name).
Proof. unfold file_hashes. obeys_steps. Qed.

Lemma obeys_load_template template_file : obeys P (load_template template_file).
Proof.
  unfold load_template. use @obeys_bind; [auto with py | intros f].
  use @obeys_bind; [auto with py | intros t].
  destruct t; obeys_steps.
Qed.

Context `{Storing P}.

Lemma obeys_store_file path d : obeys P (OS.store_file path d).
Proof.
  intros w r w' E. unfold OS.store_file in E.
  destruct (Tree.store _ d (fs w)) as [e|t]; injection E as <- <-.
  - split; [apply quiet_refl|]. now intros e' [= <-].
  - split; [apply storing_fs | discriminate].
Qed.

Lemma obeys_zip_write zip_name members filename arcname :
  obeys P (Zip.write zip_name members filename arcname).
Proof.
  unfold Zip.write. use @obeys_bind.
  - intros w r w' E. destruct (OS.lookup filename w) as [e|[d|rd es]].
    + injection E as <- <-. split; [apply quiet_refl|]. now intros e' [= <-].
    + injection E as <- <-. split; [|discriminate]. now apply quiet_event.
    + injection E as <- <-. split; [apply quiet_refl | discriminate].
  - intros member. use @obeys_bind; [use @obeys_store_file | intros; auto with py].
Qed.

Lemma obeys_zip_write_all zip_name folder names : forall members,
  obeys P (Zip.write_all zip_name folder members names).
Proof.
  induction names as [|file names IH]; simpl; intros members; [auto with py|].
  use @obeys_bind; [use @obeys_zip_write | intros; apply IH].
Qed.

Context `{Writing P}.

Lemma obeys_write_file path d : obeys P (OS.write_file path d).
Proof.
  unfold OS.write_file. use @obeys_bind; [use @obeys_store_file | intros _].
  intros w r w' E. injection E as <- <-. split; [apply writing_event | discriminate].
Qed.

Lemma obeys_zip_folder folder zip_name : obeys P (zip_folder folder zip_name).
Proof.
  unfold zip_folder, Zip.open_w.
  use @obeys_bind; [auto with py | intros _].
  use @obeys_bind.
  { use @obeys_bind; [use @obeys_write_file | intros; auto with py]. }
  intros zipf. use @obeys_bind; [auto with py | intros names].
  use @obeys_bind; [use @obeys_zip_write_all | intros; auto with py].
Qed.

Lemma obeys_pack_adapter file_bytes format_field folder save_root template_file
    adapter_data metadata version url_template :
  obeys P (pack_adapter file_bytes format_field folder save_root template_file
             adapter_data metadata version url_template).
Proof.
  unfold pack_adapter.
  use @obeys_bind; [use @obeys_collect_adapter_data | intros data].
  use @obeys_bind; [auto with py | intros base].
  use @obeys_bind; [use @obeys_zip_folder | intros _].
  use @obeys_bind; [use @obeys_file_hashes | intros hashes].
  use @obeys_bind; [auto with py | intros url].
  use @obeys_bind; [use @obeys_load_template | intros tpl].
  use @obeys_bind; [use @obeys_query | intros head].
  use @obeys_bind; [auto with py | intros card].
  use @obeys_bind; [use @obeys_write_file | intros _; auto with py].
Qed.
End ObeysSteps.

(** ** Failure isolation in the loop (lines 305-313) *)

Section Loop.
Variable file_bytes : fdata -> list Byte.byte.
Variable format_field : dict -> value -> string -> Fmt.error + string.
Variables (total : nat) (save_root template_file : string) (metadata : dict).
Variables (version url_template : value).

Let pack (folder : string) : Py unit :=
  pack_adapter file_bytes format_field folder save_root template_file None
    (Some metadata) version url_template.

Let each (start : nat) (folders : list string) : Py unit :=
  pack_each file_bytes format_field start total folders save_root template_file
    metadata version url_template.

(** One turn of the loop, by the outcome of [pack_adapter]. *)
Lemma pack_each_turn start folder rest w :
  each start (folder :: rest) w =
    match pack folder (printed (header start total folder) w) with
    | (Ok _, w2) => each (S start) rest w2
    | (Raise ex, w2) => each (S start) rest (reported ex w2)
    end.
Proof.
  unfold each, pack. simpl. unfold bind at 1. unfold print at 1, emit at 1.
  fold (printed (header start total folder) w).
  unfold bind at 1, try_except.
  pose proof (obeys_pack_adapter log_extends file_bytes format_field folder save_root
                template_file None (Some metadata) version url_template) as O.
  destruct (pack_adapter _ _ _ _ _ _ _ _ _ _) as [[[]|ex] w2] eqn:E.
  - reflexivity.
  - destruct (O _ _ _ E) as [_ X]. rewrite (X ex eq_refl). reflexivity.
Qed.

Lemma pack_each_completes folders : forall start w,
  exists w', each start folders w = (Ok tt, w') /\ log_extends w w' /\
    forall i folder, nth_error folders i = Some folder ->
      In (header (start + i) total folder) (log w').
Proof.
  induction folders as [|folder rest IH]; intros start w.
  - exists w. split; [reflexivity|]. split; [apply quiet_refl|].
    intros [|i] folder; discriminate.
  - rewrite pack_each_turn.
    pose proof (obeys_pack_adapter log_extends file_bytes format_field folder save_root
                  template_file None (Some metadata) version url_template) as O.
    fold (pack folder) in O.
    destruct (pack folder (printed (header start total folder) w)) as [r w2] eqn:E.
    destruct (O _ _ _ E) as [[l2 L2] _]. simpl in L2.
    assert (X : exists w3, log_extends w2 w3 /\
                (let (o, w2) := (r, w2) in
                 match o with
                 | Ok _ => each (S start) rest w2
                 | Raise ex => each (S start) rest (reported ex w2)
                 end) = each (S start) rest w3).
    { destruct r as [[]|ex].
      - exists w2. split; [apply quiet_refl | reflexivity].
      - exists (reported ex w2). split; [|reflexivity].
        eexists. simpl. now rewrite <- app_assoc. }
    destruct X as (w3 & [l3 L3] & ->).
    destruct (IH (S start) w3) as (w' & R & [l' L'] & Hd).
    exists w'. split; [exact R|]. split.
    + exists ([header start total folder] ++ l2 ++ l3 ++ l').
      rewrite L', L3, L2. now rewrite <- !app_assoc.
    + intros [|i] f N; simpl in N.
      * injection N as <-. rewrite Nat.add_0_r, L', L3, L2.
        rewrite !in_app_iff. simpl. tauto.
      * rewrite Nat.add_succ_r. now apply (Hd i f).
Qed.

(** C2. The loop over the folders always runs to its end and returns: every
    folder is announced, in whatever state the folders before it left the
    world.  When packing a folder raises, the exception is caught, the
    failure is printed right after that folder's events, and the loop goes
    on with the remaining folders from the world the failure left.  A folder
    without a readable [adapter_config.json] is such a failure: packing it
    raises the [OSError] of the missing file and changes nothing. *)
Theorem pack_each_isolates_failures (start : nat) (folders : list string) (w : world) :
  (exists w',
      each start folders w = (Ok tt, w') /\
      forall i folder, nth_error folders i = Some folder ->
        In (header (start + i) total folder) (log w')) /\
  (forall folder rest ex w2,
      folders = folder :: rest ->
      pack folder (printed (header start total folder) w) = (Raise ex, w2) ->
      each start folders w = each (S start) rest (reported ex w2)) /\
  (forall folder e w1,
      OS.lookup (Path.join folder "adapter_config.json") w1 = inl e ->
      pack folder w1 = (Raise (OSError e (Path.join folder "adapter_config.json")), w1)).
Proof.
  split; [|split].
  - destruct (pack_each_completes folders start w) as (w' & R & _ & Hd). eauto.
  - intros folder rest ex w2 -> E. rewrite pack_each_turn. now rewrite E.
  - intros folder e w1 L. unfold pack, pack_adapter, collect_adapter_data.
    unfold bind at 1. unfold bind at 1. unfold OS.read_file. now rewrite L.
Qed.
End Loop.

(** ** Paths and the file tree *)

Lemma split_slash_not_nil s : Str.split_slash s <> [].
Proof.
  destruct s as [|c s]; simpl; [discriminate|].
  destruct (Ascii.eqb c "/"); [discriminate|].
  destruct (Str.split_slash s); discriminate.
Qed.

Lemma mem_cons x c s : Str.mem x (String c s) = Ascii.eqb x c || Str.mem x s.
Proof. reflexivity. Qed.

Lemma split_slash_plain s : Str.mem "/" s = false -> Str.split_slash s = [s].
Proof.
  induction s as [|c s IH]; [reflexivity|].
  rewrite mem_cons, Ascii.eqb_sym. intros M. apply orb_false_iff in M as [E M].
  cbn [Str.split_slash]. now rewrite E, IH.
Qed.

Lemma split_slash_app a s :
  Str.split_slash (a ++ String "/" s) = Str.split_slash a ++ Str.split_slash s.
Proof.
  induction a as [|c a IH]; simpl; [reflexivity|].
  destruct (Ascii.eqb c "/"); simpl; [now rewrite IH|].
  rewrite IH. pose proof (split_slash_not_nil a) as N.
  destruct (Str.split_slash a); [contradiction | reflexivity].
Qed.

Lemma ends_with_slash a :
  Str.ends_with "/" a = true -> exists a0, a = (a0 ++ "/")%string.
Proof.
  induction a as [|c a IH]; [discriminate|].
  destruct a as [|c' a']; cbn [Str.ends_with].
  - intros E. apply Ascii.eqb_eq in E. subst. now exists EmptyString.
  - intros E. destruct (IH E) as [a0 ->]. now exists (String c a0).
Qed.

Lemma normalize_app l : forall l' stack,
  Path.normalize (l ++ l') stack = Path.normalize l' (List.rev (Path.normalize l stack)).
Proof.
  induction l as [|c l IH]; simpl; intros l' stack.
  - now rewrite rev_involutive.
  - destruct (String.eqb c "" || String.eqb c "."); [apply IH|].
    destruct (String.eqb c ".."); apply IH.
Qed.

Lemma normalize_plain name stack :
  Path.plain name = true -> Path.normalize [name] stack = List.rev stack ++ [name].
Proof.
  unfold Path.plain. rewrite !andb_true_iff, !negb_true_iff.
  intros [[[E1 _] E2] E3]. simpl. now rewrite E1, E2, E3.
Qed.

Lemma plain_no_slash name : Path.plain name = true -> Str.mem "/" name = false.
Proof.
  unfold Path.plain. rewrite !andb_true_iff, !negb_true_iff. tauto.
Qed.

Lemma components_slash a name :
  Path.plain name = true ->
  Path.components (a ++ String "/" name) = Path.components a ++ [name].
Proof.
  intros Pn. unfold Path.components.
  rewrite split_slash_app, (split_slash_plain name) by now apply plain_no_slash.
  rewrite normalize_app, normalize_plain by assumption.
  now rewrite rev_involutive.
Qed.

Lemma append_assoc (a b c : string) : ((a ++ b) ++ c = a ++ (b ++ c))%string.
Proof. induction a; simpl; congruence. Qed.

(** Joining a directory path and an entry name adds one component. *)
Lemma components_join a name :
  Path.plain name = true ->
  Path.components (Path.join a name) = Path.components a ++ [name].
Proof.
  intros Pn. pose proof (plain_no_slash _ Pn) as M. unfold Path.join.
  assert (S : Str.starts_with "/" name = false).
  { destruct name as [|c name]; [reflexivity|].
    rewrite mem_cons, Ascii.eqb_sym in M. now apply orb_false_iff in M. }
  rewrite S. destruct (String.eqb a "") eqn:E; simpl.
  - apply String.eqb_eq in E. subst a. simpl.
    unfold Path.components. rewrite split_slash_plain by assumption.
    now rewrite normalize_plain.
  - destruct (Str.ends_with "/" a) eqn:W.
    + destruct (ends_with_slash _ W) as [a0 ->].
      rewrite append_assoc. simpl. rewrite components_slash by assumption.
      f_equal. unfold Path.components. rewrite split_slash_app. simpl.
      rewrite normalize_app. simpl. now rewrite rev_involutive.
    + now apply components_slash.
Qed.

Lemma lookup_app p c : forall t,
  Tree.lookup (p ++ [c]) t =
    match Tree.lookup p t with
    | inr (Dir _ es) =>
        match AList.get c es with Some n => inr n | None => inl ENOENT end
    | inr (File _) => inl ENOTDIR
    | inl e => inl e
    end.
Proof.
  induction p as [|c0 p IH]; simpl; intros t.
  - destruct t as [d|r es]; [reflexivity|]. now destruct (AList.get c es).
  - destruct t as [d|r es]; [reflexivity|].
    destruct (AList.get c0 es); [apply IH | reflexivity].
Qed.

(** What is inside a directory, by the directory's entries. *)
Lemma lookup_entry folder name w r es :
  Path.plain name = true ->
  OS.lookup folder w = inr (Dir r es) ->
  OS.lookup (Path.join folder name) w =
    match AList.get name es with Some n => inr n | None => inl ENOENT end.
Proof.
  unfold OS.lookup. intros Pn L. now rewrite components_join, lookup_app, L.
Qed.

(** A directory that can be listed after a file was stored could be listed
    before: storing makes no directory and changes no permission. *)
Lemma store_keeps_unlistable p d : forall t t' q,
  Tree.store p d t = inr t' ->
  listable (Tree.lookup q t') -> listable (Tree.lookup q t).
Proof.
  assert (F : forall q f, ~ listable (Tree.lookup q (File f))).
  { intros [|c q] f [es E]; discriminate. }
  assert (R : forall r es es', listable (Tree.lookup [] (Dir r es')) ->
                               listable (Tree.lookup [] (Dir r es))).
  { intros r es es' [x [= -> _]]. now exists es. }
  induction p as [|c p IH]; simpl; intros t t' q S L.
  - destruct t as [f|r es]; [|discriminate]. injection S as <-. now apply F in L.
  - destruct t as [f|r es]; [discriminate|].
    destruct (AList.get c es) as [n'|] eqn:G.
    + destruct (Tree.store p d n') as [e|n''] eqn:S'; [discriminate|]. injection S as <-.
      destruct q as [|c2 q]; [exact (R _ _ _ L)|]. simpl in *.
      destruct (string_dec c c2) as [<-|N].
      * rewrite get_set_same in L. rewrite G. eapply IH; eauto.
      * now rewrite get_set_other in L.
    + destruct p; [|discriminate]. injection S as <-.
      destruct q as [|c2 q]; [exact (R _ _ _ L)|]. simpl in *.
      destruct (string_dec c c2) as [<-|N].
      * rewrite get_set_same in L. now apply F in L.
      * now rewrite get_set_other in L.
Qed.

Lemma listdir_ok_listable folder w names w' :
  OS.listdir folder w = (Ok names, w') -> listable (OS.lookup folder w).
Proof.
  unfold OS.listdir. destruct (OS.lookup folder w) as [e|[f|[|] es]]; try discriminate.
  intros _. now exists es.
Qed.

Lemma listdir_world folder w r w' : OS.listdir folder w = (r, w') -> w' = w.
Proof.
  unfold OS.listdir. destruct (OS.lookup folder w) as [n|[f|[|] es]]; now intros [= _ <-].
Qed.

Lemma listdir_raises_os folder w e w' :
  OS.listdir folder w = (Raise e, w') -> exists n, e = OSError n folder.
Proof.
  unfold OS.listdir. destruct (OS.lookup folder w) as [n|[f|[|] es]]; try discriminate;
    intros [= <- _]; eauto.
Qed.

Lemma lookup_store_same p d : forall t t',
  Tree.store p d t = inr t' -> Tree.lookup p t' = inr (File d).
Proof.
  induction p as [|c p IH]; simpl; intros t t' S.
  - destruct t; [|discriminate]. now injection S as <-.
  - destruct t as [f|r es]; [discriminate|].
    destruct (AList.get c es) as [n'|] eqn:G.
    + destruct (Tree.store p d n') as [e|n''] eqn:S'; [discriminate|]. injection S as <-.
      simpl. rewrite get_set_same. eapply IH; eauto.
    + destruct p; [|discriminate]. injection S as <-.
      simpl. now rewrite get_set_same.
Qed.

(** ** The runs of [pack_adapter], stage by stage *)

Lemma bind_inv {A B} (m : Py A) (f : A -> Py B) w r w' :
  bind m f w = (r, w') ->
  (exists a w1, m w = (Ok a, w1) /\ f a w1 = (r, w')) \/
  (exists e, m w = (Raise e, w') /\ r = Raise e).
Proof.
  unfold bind. destruct (m w) as [[a|e] w1]; intros E.
  - left. eauto.
  - right. injection E as <- <-. eauto.
Qed.

Lemma lift_inv {A} (o : outcome A) w r w' : lift o w = (r, w') -> r = o /\ w' = w.
Proof. now intros [= <- <-]. Qed.

Tactic Notation "bind_cases" hyp(E) ident(a) ident(w1) ident(E1) ident(e) :=
  apply bind_inv in E as [(a & w1 & E1 & E) | (e & E1 & E)].

Lemma store_file_run path d w r w' :
  OS.store_file path d w = (r, w') ->
  (exists n, r = Raise (OSError n path) /\ w' = w) \/
  (exists t, r = Ok tt /\ Tree.store (Path.components path) d (fs w) = inr t /\
             w' = World t (answers w) (input_cache w) (log w)).
Proof.
  unfold OS.store_file, set_fs.
  destruct (Tree.store _ d (fs w)) as [n|t]; intros [= <- <-]; eauto.
Qed.

Lemma write_file_run path d w r w' :
  OS.write_file path d w = (r, w') ->
  (exists n, r = Raise (OSError n path) /\ w' = w) \/
  (exists t, r = Ok tt /\ Tree.store (Path.components path) d (fs w) = inr t /\
             w' = World t (answers w) (input_cache w) (log w ++ [Wrote path])).
Proof.
  unfold OS.write_file. intros E. bind_cases E a w1 E1 e.
  - apply store_file_run in E1 as [(n & [=] & _) | (t & _ & S & ->)].
    right. exists t. now injection E as <- <-.
  - subst r. apply store_file_run in E1 as [(n & [= ->] & ->) | (t & [=] & _)]. eauto.
Qed.

Lemma zip_folder_run folder zip_name w r w' :
  zip_folder folder zip_name w = (r, w') ->
  (exists n, r = Raise (OSError n zip_name) /\ fs w' = fs w /\
             writes (log w') = writes (log w)) \/
  (writes (log w') = writes (log w) ++ [zip_name] /\
   (~ listable (OS.lookup folder w) -> exists n, r = Raise (OSError n folder))).
Proof.
  unfold zip_folder, Zip.open_w. intros E.
  assert (W2 : forall l, writes (l ++ [Wrote zip_name]) = writes l ++ [zip_name])
    by (intros; now rewrite writes_app).
  assert (W0 : forall l s, writes (l ++ [Print Plain s]) = writes l)
    by (intros; rewrite writes_app; apply app_nil_r).
  bind_cases E u w0 E0 e; [|discriminate]. injection E0 as _ <-.
  bind_cases E zipf w2 E2 e.
  - bind_cases E2 u2 w1 E1 e; [|discriminate]. injection E2 as _ <-.
    apply write_file_run in E1 as [(n & [=] & _) | (t & _ & S & ->)].
    right. bind_cases E names w3 E3 e.
    + pose proof (listdir_ok_listable _ _ _ _ E3) as Li.
      pose proof (listdir_world _ _ _ _ E3) as X. subst w3. split.
      * match type of E3 with OS.listdir _ ?w2 = _ => assert (Sw : same_writes w2 w') end.
        { bind_cases E ms w4 E4 e.
          - injection E as _ <-.
            now destruct (obeys_zip_write_all same_writes _ _ _ _ _ _ _ E4).
          - now destruct (obeys_zip_write_all same_writes _ _ _ _ _ _ _ E4). }
        unfold same_writes in Sw. simpl in Sw. now rewrite Sw, W2, W0.
      * intros N. exfalso. apply N. unfold OS.lookup in *. simpl in Li.
        eapply store_keeps_unlistable; eauto.
    + subst r. destruct (listdir_raises_os _ _ _ _ E3) as [n ->].
      pose proof (listdir_world _ _ _ _ E3) as X. subst w'.
      simpl. rewrite W2, W0. eauto.
  - left. subst r. bind_cases E2 u2 w1 E1 e'; [discriminate|]. injection E2 as <-.
    apply write_file_run in E1 as [(n & [= ->] & ->) | (t & [=] & _)].
    exists n. simpl. rewrite W0. auto.
Qed.

Section Runs.
Variable file_bytes : fdata -> list Byte.byte.
Variable format_field : dict -> value -> string -> Fmt.error + string.
Variables (folder save_root template_file : string).
Variables (adapter_data metadata : option dict) (version url_template : value).

Let pack : Py unit :=
  pack_adapter file_bytes format_field folder save_root template_file
    adapter_data metadata version url_template.

(** A run of [pack_adapter] ends in one of three ways: it failed before the
    archive was opened and wrote nothing; it failed later, the archive
    being the one file opened for writing; or it returned, having opened the
    archive and then the info card, which the tree now holds. *)
Lemma pack_adapter_run w r w' :
  pack w = (r, w') ->
  ((exists e, r = Raise e) /\ fs w' = fs w /\ writes (log w') = writes (log w)) \/
  (exists data w1 base,
      collect_adapter_data folder adapter_data w = (Ok data, w1) /\
      folder_name data = Ok base /\
      (((exists e, r = Raise e) /\
        writes (log w') = writes (log w) ++ [zip_path save_root base]) \/
       (r = Ok tt /\
        writes (log w') =
          writes (log w) ++ [zip_path save_root base; yaml_path save_root base] /\
        exists card,
          OS.lookup (yaml_path save_root base) w' = inr (File (FYaml (VDict card)))))).
Proof.
  unfold pack, pack_adapter. intros E.
  bind_cases E data w1 E1 e.
  2:{ left. destruct (obeys_collect_adapter_data same_fs _ _ _ _ _ E1) as [F _].
      destruct (obeys_collect_adapter_data same_writes _ _ _ _ _ E1) as [W _].
      subst r. eauto. }
  destruct (obeys_collect_adapter_data same_fs _ _ _ _ _ E1) as [F1 _].
  destruct (obeys_collect_adapter_data same_writes _ _ _ _ _ E1) as [W1 _].
  unfold same_fs in F1. unfold same_writes in W1.
  bind_cases E base w1' E2 e; apply lift_inv in E2 as [E2 ->].
  2:{ left. subst r. eauto. }
  symmetry in E2.
  bind_cases E u w2 E3 e.
  2:{ subst r. apply zip_folder_run in E3 as [(n & _ & F & W) | (W & _)].
      - left. split; [eauto|]. split; congruence.
      - right. exists data, w1, base. split; [assumption|]. split; [assumption|].
        left. split; [eauto|]. congruence. }
  apply zip_folder_run in E3 as [(n & [=] & _) | (W2 & _)].
  right. exists data, w1, base. split; [assumption|]. split; [assumption|].
  assert (K : forall w3, same_writes w2 w3 ->
              writes (log w3) = writes (log w) ++ [zip_path save_root base]).
  { unfold same_writes. intros w3 ->. congruence. }
  assert (T : forall a b c, same_writes a b -> same_writes b c -> same_writes a c)
    by apply quiet_trans.
  bind_cases E hashes w3 E4 e;
    destruct (obeys_file_hashes same_writes _ _ _ _ _ E4) as [W3 _].
  2:{ left. subst r. eauto. }
  bind_cases E url w3' E5 e; apply lift_inv in E5 as [E5 ->].
  2:{ left. subst r. eauto. }
  bind_cases E tpl w4 E6 e;
    destruct (obeys_load_template same_writes _ _ _ _ E6) as [W4 _].
  2:{ left. subst r. eauto. }
  bind_cases E head w4' E7 e; [|discriminate]. injection E7 as _ <-.
  bind_cases E card w4' E8 e; apply lift_inv in E8 as [E8 ->].
  2:{ left. subst r. eauto. }
  bind_cases E u2 w5 E9 e.
  2:{ left. subst r.
      apply write_file_run in E9 as [(n & _ & ->) | (t & [=] & _)]. eauto. }
  apply write_file_run in E9 as [(n & [=] & _) | (t & _ & S & ->)].
  injection E as <- <-. right. split; [reflexivity|]. split.
  - simpl. rewrite !writes_app. simpl. rewrite app_nil_r.
    rewrite (K w4) by eauto. now rewrite <- app_assoc.
  - exists card. unfold OS.lookup. simpl. eapply lookup_store_same; eauto.
Qed.
End Runs.

(** ** The output names (lines 226-230 and 268) *)

Lemma replace_no_slash s : Str.mem "/" (Str.replace "/" "-" s) = false.
Proof.
  induction s as [|c s IH]; [reflexivity|].
  cbn [Str.replace]. rewrite mem_cons, IH, orb_false_r.
  destruct (Ascii.eqb c "/") eqn:E; [reflexivity|]. now rewrite Ascii.eqb_sym.
Qed.

Lemma folder_name_inv data base :
  folder_name data = Ok base ->
  exists m t s c,
    getitem data "model_name" = Ok (VStr m) /\ getitem data "task" = Ok (VStr t) /\
    getitem data "subtask" = Ok (VStr s) /\ getitem data "config_name" = Ok (VStr c) /\
    base = Str.replace "/" "-" (Str.join "_" [m; t; s; c]).
Proof.
  unfold folder_name.
  destruct (getitem data "model_name") as [[]|]; try discriminate;
  destruct (getitem data "task") as [[]|]; try discriminate;
  destruct (getitem data "subtask") as [[]|]; try discriminate;
  destruct (getitem data "config_name") as [[]|]; try discriminate.
  cbn [obind as_str]. intros [= <-]. repeat eexists.
Qed.

(** C6. When [pack_adapter] returns, the two files it opened for writing are
    the archive and the info card, in that order, at [save_root] under one
    base name followed by [.zip] and [.yaml].  The base name is the model
    name, task, subtask and config name of the collected data joined by
    underscores, with every slash replaced by a dash, so it holds no slash;
    it is a function of these four fields alone. *)
Theorem output_files_share_one_sanitized_name
    (file_bytes : fdata -> list Byte.byte)
    (format_field : dict -> value -> string -> Fmt.error + string)
    (folder save_root template_file : string)
    (adapter_data metadata : option dict) (version url_template : value)
    (w w' : world) :
  pack_adapter file_bytes format_field folder save_root template_file
    adapter_data metadata version url_template w = (Ok tt, w') ->
  exists data w1 m t s c,
    let base := Str.replace "/" "-" (Str.join "_" [m; t; s; c]) in
    collect_adapter_data folder adapter_data w = (Ok data, w1) /\
    getitem data "model_name" = Ok (VStr m) /\ getitem data "task" = Ok (VStr t) /\
    getitem data "subtask" = Ok (VStr s) /\ getitem data "config_name" = Ok (VStr c) /\
    Str.mem "/" base = false /\
    writes (log w') =
      writes (log w) ++ [Path.join save_root (base ++ ".zip");
                         Path.join save_root (base ++ ".yaml")] /\
    (forall other,
        getitem other "model_name" = Ok (VStr m) -> getitem other "task" = Ok (VStr t) ->
        getitem other "subtask" = Ok (VStr s) -> getitem other "config_name" = Ok (VStr c) ->
        folder_name other = Ok base).
Proof.
  intros E. apply pack_adapter_run in E as [([e [=]] & _) | (data & w1 & base & C & N & R)].
  destruct R as [([e [=]] & _) | (_ & W & _)].
  destruct (folder_name_inv _ _ N) as (m & t & s & c & G1 & G2 & G3 & G4 & ->).
  exists data, w1, m, t, s, c. cbv zeta.
  repeat (split; [assumption || apply replace_no_slash|]).
  intros other O1 O2 O3 O4. unfold folder_name. now rewrite O1, O2, O3, O4.
Qed.

(** ** What a failed run leaves behind *)

(** C4, as amended.  A run of [pack_adapter] that fails has not opened the
    info card for writing.  Either it failed before the archive was opened,
    and then it opened no file for writing and left the file tree as it was;
    or it opened one file for writing, the archive at its final path. *)
Theorem failed_pack_never_writes_the_card
    (file_bytes : fdata -> list Byte.byte)
    (format_field : dict -> value -> string -> Fmt.error + string)
    (folder save_root template_file : string)
    (adapter_data metadata : option dict) (version url_template : value)
    (w w' : world) (e : exc) :
  pack_adapter file_bytes format_field folder save_root template_file
    adapter_data metadata version url_template w = (Raise e, w') ->
  (fs w' = fs w /\ writes (log w') = writes (log w)) \/
  (exists data w1 base,
      collect_adapter_data folder adapter_data w = (Ok data, w1) /\
      folder_name data = Ok base /\
      writes (log w') = writes (log w) ++ [zip_path save_root base]).
Proof.
  intros E. apply pack_adapter_run in E as [(_ & F & W) | (data & w1 & base & C & N & R)].
  - now left.
  - right. exists data, w1, base. destruct R as [(_ & W) | ([=] & _)]. auto.
Qed.

(** ** Unreadable and empty folders *)

Lemma plain_adapter_config : Path.plain "adapter_config.json" = true.
Proof. reflexivity. Qed.

Section Unreadable.
Variable file_bytes : fdata -> list Byte.byte.
Variable format_field : dict -> value -> string -> Fmt.error + string.
Variables (folder save_root template_file : string).
Variables (adapter_data metadata : option dict) (version url_template : value).

Let pack : Py unit :=
  pack_adapter file_bytes format_field folder save_root template_file
    adapter_data metadata version url_template.

Lemma pack_fails_without_files w :
  holds_no_file folder w ->
  exists n, pack w = (Raise (OSError n (Path.join folder "adapter_config.json")), w).
Proof.
  intros (r & es & L & N).
  pose proof (lookup_entry folder "adapter_config.json" w r es plain_adapter_config L) as L'.
  unfold pack, pack_adapter, collect_adapter_data.
  unfold bind at 1. unfold bind at 1. unfold OS.read_file. rewrite L'.
  destruct (AList.get "adapter_config.json" es) as [[d|rd es']|] eqn:G.
  - now apply N in G.
  - now exists EISDIR.
  - now exists ENOENT.
Qed.

Lemma pack_fails_on_unlistable w r w' :
  ~ listable (OS.lookup folder w) ->
  pack w = (r, w') ->
  exists e, r = Raise e /\
    forall data w1 base,
      collect_adapter_data folder adapter_data w = (Ok data, w1) ->
      folder_name data = Ok base ->
      exists n p, e = OSError n p.
Proof.
  intros U E. unfold pack, pack_adapter in E.
  bind_cases E data w1 E1 e.
  2:{ exists e. split; [assumption|]. intros ? ? ? C. congruence. }
  destruct (obeys_collect_adapter_data same_fs _ _ _ _ _ E1) as [F1 _].
  bind_cases E base w1' E2 e; apply lift_inv in E2 as [E2 ->].
  2:{ exists e. split; [assumption|]. intros d0 w0 b0 C N.
      rewrite E1 in C. injection C as <- <-. congruence. }
  assert (U1 : ~ listable (OS.lookup folder w1)).
  { unfold OS.lookup. unfold same_fs in F1. now rewrite F1. }
  bind_cases E u w2 E3 e.
  - apply zip_folder_run in E3 as [(n & [=] & _) | (_ & X)].
    destruct (X U1) as [n [=]].
  - exists e. split; [assumption|]. intros _ _ _ _ _.
    apply zip_folder_run in E3 as [(n & [= ->] & _) | (_ & X)]; [eauto|].
    destruct (X U1) as [n [= ->]]. eauto.
Qed.

(** C8. Packing a folder that cannot be listed, or that holds no regular
    file, never returns and so never builds an archive from it.  With no
    regular file in the folder the run raises the [OSError] of opening the
    folder's [adapter_config.json] and leaves the world as it was: no
    archive, empty or not, is produced.  With a folder that cannot be listed,
    a run that gets as far as building the archive raises an [OSError]. *)
Theorem no_archive_from_unreadable_or_empty_folder (w : world) :
  holds_no_file folder w \/ ~ listable (OS.lookup folder w) ->
  exists e w',
    pack w = (Raise e, w') /\
    (holds_no_file folder w ->
       w' = w /\ exists n, e = OSError n (Path.join folder "adapter_config.json")) /\
    (forall data w1 base,
        collect_adapter_data folder adapter_data w = (Ok data, w1) ->
        folder_name data = Ok base ->
        exists n p, e = OSError n p).
Proof.
  intros [N|U].
  - destruct (pack_fails_without_files w N) as [n E].
    exists (OSError n (Path.join folder "adapter_config.json")), w.
    split; [exact E|]. split; [eauto|]. eauto.
  - destruct (pack w) as [r w'] eqn:E.
    destruct (pack_fails_on_unlistable w r w' U E) as (e & -> & X).
    exists e, w'. split; [reflexivity|]. split; [|exact X].
    intros N. destruct (pack_fails_without_files w N) as [n E'].
    rewrite E' in E. injection E as <- <-. eauto.
Qed.
End Unreadable.

(** ** The order of the archive (lines 232-235) *)

Lemma zip_write_run zip_name members filename arcname w ms w' :
  Zip.write zip_name members filename arcname w = (Ok ms, w') ->
  exists member,
    ms = members ++ [member] /\ member_of arcname member /\
    OS.lookup zip_name w' = inr (File (FZip ms)).
Proof.
  unfold Zip.write. intros E. bind_cases E member w1 E1 e; [|discriminate].
  bind_cases E u w2 E2 e; [|discriminate]. injection E as <- <-.
  exists member. split; [reflexivity|]. split.
  - destruct (OS.lookup filename w) as [n|[d|rd es]]; try discriminate.
    + injection E1 as <- _. now left.
    + injection E1 as <- _. now right.
  - apply store_file_run in E2 as [(n & [=] & _) | (t & _ & S & ->)].
    unfold OS.lookup. simpl. eapply lookup_store_same; eauto.
Qed.

Lemma zip_write_all_run zip_name folder names : forall members w ms w',
  Zip.write_all zip_name folder members names w = (Ok ms, w') ->
  exists added,
    ms = members ++ added /\ Forall2 member_of names added /\
    (OS.lookup zip_name w = inr (File (FZip members)) ->
     OS.lookup zip_name w' = inr (File (FZip ms))).
Proof.
  induction names as [|file names IH]; simpl; intros members w ms w' E.
  - injection E as <- <-. exists []. rewrite app_nil_r. auto.
  - bind_cases E ms1 w1 E1 e; [|discriminate].
    destruct (zip_write_run _ _ _ _ _ _ _ E1) as (member & -> & M & L1).
    destruct (IH _ _ _ _ E) as (added & -> & F & L).
    exists (member :: added). rewrite <- app_assoc.
    split; [reflexivity|]. split; [now constructor|].
    intros _. rewrite <- app_assoc in L. now apply L.
Qed.

Lemma fs_determined_bind {A B} (m : Py A) (f : A -> Py B) :
  fs_determined m -> (forall a, fs_determined (f a)) -> fs_determined (bind m f).
Proof.
  intros Hm Hf w1 w2 E. unfold bind. destruct (Hm w1 w2 E) as [R F].
  destruct (m w1) as [[a|e] v1], (m w2) as [[a2|e2] v2]; simpl in *; try discriminate.
  - injection R as <-. now apply Hf.
  - injection R as <-. auto.
Qed.

Lemma fs_determined_lookup {A} path (k : errno + node -> Py A) :
  (forall r, fs_determined (k r)) -> fs_determined (fun w => k (OS.lookup path w) w).
Proof.
  intros Hk w1 w2 E. unfold OS.lookup. rewrite E. now apply Hk.
Qed.

Lemma fs_determined_const {A} (o : outcome A) : fs_determined (fun w => (o, w)).
Proof. intros w1 w2 E. auto. Qed.

Lemma fs_determined_emit e : fs_determined (emit e).
Proof. intros w1 w2 E. auto. Qed.

Lemma fs_determined_store_file path d : fs_determined (OS.store_file path d).
Proof.
  intros w1 w2 E. unfold OS.store_file. rewrite E.
  destruct (Tree.store _ d (fs w2)); simpl; auto.
Qed.

Lemma fs_determined_zip_folder folder zip_name : fs_determined (zip_folder folder zip_name).
Proof.
  assert (W : forall members filename arcname,
             fs_determined (Zip.write zip_name members filename arcname)).
  { intros. unfold Zip.write. apply fs_determined_bind.
    - apply (fs_determined_lookup filename
               (fun r w => match r with
                           | inr (File d) => (emit (Read filename);; ret (arcname, d)) w
                           | inr (Dir _ _) => (Ok ((arcname ++ "/")%string, FRaw []), w)
                           | inl e => (Raise (OSError e filename), w)
                           end)).
      intros [n|[d|rd es]]; [apply fs_determined_const | | apply fs_determined_const].
      apply fs_determined_bind; [apply fs_determined_emit|].
      intros _. apply fs_determined_const.
    - intros member. apply fs_determined_bind; [apply fs_determined_store_file|].
      intros _. apply fs_determined_const. }
  assert (WA : forall names members,
             fs_determined (Zip.write_all zip_name folder members names)).
  { induction names as [|file names IH]; simpl; intros members.
    - apply fs_determined_const.
    - apply fs_determined_bind; [apply W | intros; apply IH]. }
  unfold zip_folder, Zip.open_w, OS.write_file.
  apply fs_determined_bind; [apply fs_determined_emit | intros _].
  apply fs_determined_bind.
  { apply fs_determined_bind; [|intros _; apply fs_determined_const].
    apply fs_determined_bind; [apply fs_determined_store_file|].
    intros _. apply fs_determined_emit. }
  intros zipf. apply fs_determined_bind.
  { apply (fs_determined_lookup folder
             (fun r w => match r with
                         | inr (Dir true es) => (Ok (AList.keys es), w)
                         | inr (Dir false _) => (Raise (OSError EACCES folder), w)
                         | inr (File _) => (Raise (OSError ENOTDIR folder), w)
                         | inl e => (Raise (OSError e folder), w)
                         end)).
    intros [n|[d|[|] es]]; apply fs_determined_const. }
  intros names. apply fs_determined_bind; [apply WA|].
  intros _. apply fs_determined_const.
Qed.

Lemma listdir_ok_inv folder w names w' :
  OS.listdir folder w = (Ok names, w') ->
  exists es, OS.lookup folder w = inr (Dir true es) /\ names = AList.keys es.
Proof.
  unfold OS.listdir. destruct (OS.lookup folder w) as [e|[f|[|] es]]; try discriminate.
  intros [= <- _]. eauto.
Qed.

(** C3, as amended.  When the folder is zipped, the archive gets one member
    for each name of the directory listing taken once the archive is open,
    in the order of that listing, under the listed name (with a slash added
    for a directory); the names are not sorted.  Zipping again from an equal
    file tree gives an equal outcome and an equal file tree, hence an equal
    archive. *)
Theorem archive_follows_directory_listing (folder zip_name : string) (w w' : world) :
  zip_folder folder zip_name w = (Ok tt, w') ->
  (exists t es members,
      Tree.store (Path.components zip_name) (FZip []) (fs w) = inr t /\
      Tree.lookup (Path.components folder) t = inr (Dir true es) /\
      OS.lookup zip_name w' = inr (File (FZip members)) /\
      Forall2 member_of (AList.keys es) members) /\
  (forall w2, fs w2 = fs w ->
     exists w2', zip_folder folder zip_name w2 = (Ok tt, w2') /\ fs w2' = fs w').
Proof.
  intros E. split.
  - unfold zip_folder, Zip.open_w in E.
    bind_cases E u w0 E0 e; [|discriminate]. injection E0 as _ <-.
    bind_cases E zipf w2 E2 e; [|discriminate].
    bind_cases E2 u2 w1 E1 e; [|discriminate]. injection E2 as <- <-.
    apply write_file_run in E1 as [(n & [=] & _) | (t & _ & S & ->)].
    bind_cases E names w3 E3 e; [|discriminate].
    pose proof (listdir_world _ _ _ _ E3) as ->.
    destruct (listdir_ok_inv _ _ _ _ E3) as (es & L & ->).
    bind_cases E ms w4 E4 e; [|discriminate]. injection E as <-.
    destruct (zip_write_all_run _ _ _ _ _ _ _ E4) as (added & -> & F & Z).
    exists t, es, added. simpl in S. split; [exact S|]. split; [exact L|].
    split; [|exact F]. apply Z. unfold OS.lookup. simpl.
    eapply lookup_store_same; eauto.
  - intros w2 F. destruct (fs_determined_zip_folder folder zip_name w2 w F) as [R T].
    rewrite E in R, T. destruct (zip_folder folder zip_name w2) as [r2 w2'].
    simpl in *. subst. eauto.
Qed.

(** ** The download link (lines 243-246) *)

Section Url.
Variable format_field : dict -> value -> string -> Fmt.error + string.



End Url.

(** * The sample runs *)

Lemma fill_template_follows_template_schema_witness :
  AList.get "model_name" [("model_name", VStr "bert-base"); ("hidden_size", VInt 768)]
    = Some (VStr "bert-base") /\
  AList.keys (fill_template [("model_name", VStr "bert-base"); ("hidden_size", VInt 768)]
                [("model_name", VNone); ("config", VNone)]) = ["model_name"; "config"] /\
  AList.get "model_name"
    (fill_template [("model_name", VStr "bert-base"); ("hidden_size", VInt 768)]
       [("model_name", VNone); ("config", VNone)]) = Some (VStr "bert-base").
Proof.
  split; [reflexivity|].
  destruct (fill_template_follows_template_schema
              [("model_name", VStr "bert-base"); ("hidden_size", VInt 768)]
              [("model_name", VNone); ("config", VNone)] "model_name" (VStr "bert-base")
              eq_refl) as (K & G & _).
  split; [exact K | exact G].
Defined.

Example unknown_field_is_dropped :
  fill_template [("model_name", VStr "bert-base"); ("hidden_size", VInt 768)]
    [("model_name", VNone); ("config", VNone)]
  = [("model_name", VStr "bert-base"); ("config", VNone)].
Proof. reflexivity. Qed.

Lemma config_file_overrides_caller_data_witness :
  AList.wf [("model_name", VStr "bert-base"); ("type", VStr "text_task")] /\
  AList.get "type"
    (add_config (Some [("type", VStr "text_lang"); ("task", VStr "sst")])
       [("model_name", VStr "bert-base"); ("type", VStr "text_task")])
  = Some (VStr "text_task").
Proof.
  assert (W : AList.wf [("model_name", VStr "bert-base"); ("type", VStr "text_task")]).
  { repeat constructor; simpl; intuition discriminate. }
  split; [exact W|].
  apply (config_file_overrides_caller_data
           (Some [("type", VStr "text_lang"); ("task", VStr "sst")])
           [("model_name", VStr "bert-base"); ("type", VStr "text_task")]
           "type" (VStr "text_task") W).
  reflexivity.
Defined.

Lemma file_hashes_reads_once_and_gives_hex_digests_witness :
  OS.lookup "a.zip" (World (Dir true [("a.zip", File (FZip []))]) [] [] [])
    = inr (File (FZip [])) /\
  file_hashes no_bytes "a.zip" (World (Dir true [("a.zip", File (FZip []))]) [] [] [])
  = (Ok (Hash.sha1_hex (no_bytes (FZip [])), Hash.sha256_hex (no_bytes (FZip []))),
     World (Dir true [("a.zip", File (FZip []))]) [] [] [Read "a.zip"]).
Proof.
  split; [reflexivity|].
  exact (proj1 (file_hashes_reads_once_and_gives_hex_digests no_bytes "a.zip"
                  (World (Dir true [("a.zip", File (FZip []))]) [] [] []) (FZip [])
                  eq_refl)).
Defined.

Lemma output_files_share_one_sanitized_name_witness :
  pack_sample sample_start "adapters/bert-base" = (Ok tt, sample_done) /\
  exists data w1 m t s c,
    collect_adapter_data "adapters/bert-base" None sample_start = (Ok data, w1) /\
    getitem data "model_name" = Ok (VStr m) /\ getitem data "task" = Ok (VStr t) /\
    getitem data "subtask" = Ok (VStr s) /\ getitem data "config_name" = Ok (VStr c) /\
    Str.mem "/" (Str.replace "/" "-" (Str.join "_" [m; t; s; c])) = false /\
    writes (log sample_done) =
      writes (log sample_start)
      ++ [Path.join "out" (Str.replace "/" "-" (Str.join "_" [m; t; s; c]) ++ ".zip");
          Path.join "out" (Str.replace "/" "-" (Str.join "_" [m; t; s; c]) ++ ".yaml")] /\
    (forall other,
        getitem other "model_name" = Ok (VStr m) -> getitem other "task" = Ok (VStr t) ->
        getitem other "subtask" = Ok (VStr s) -> getitem other "config_name" = Ok (VStr c) ->
        folder_name other = Ok (Str.replace "/" "-" (Str.join "_" [m; t; s; c]))).
Proof.
  assert (R : pack_sample sample_start "adapters/bert-base" = (Ok tt, sample_done))
    by (vm_compute; reflexivity).
  split; [exact R|].
  exact (output_files_share_one_sanitized_name no_bytes no_format "adapters/bert-base"
           "out" "tpl.yaml" None (Some sample_metadata) (VStr "1") VNone
           sample_start sample_done R).
Defined.

(** The scenario of the specification: relu, reduction factor 16, config
    name pfeiffer, author A, version 1, no url template. *)
Example sample_run_writes_both_files :
  writes (log sample_done) = [sample_zip; sample_yaml] /\
  archive_names sample_zip sample_done
    = Some ["pytorch_adapter.bin"; "adapter_config.json"] /\
  exists card,
    OS.lookup sample_yaml sample_done = inr (File (FYaml (VDict card))) /\
    AList.get "config" card
      = Some (VDict [("using", VStr "pfeiffer"); ("non_linearity", VStr "relu");
                     ("reduction_factor", VInt 16)]) /\
    AList.get "default_version" card = Some (VStr "1") /\
    AList.get "author" card = Some (VStr "A") /\
    AList.get "hidden_size" card = None /\
    exists sha1 sha256,
      AList.get "files" card
        = Some (VList [VDict [("version", VStr "1"); ("url", VStr "TODO");
                              ("sha1", VStr sha1); ("sha256", VStr sha256)]]).
Proof. vm_compute. repeat (split || eexists). Qed.

(** C3: the archive is written in the order of the directory listing, which
    need not be the order of the names; two folders holding the same files
    under the same names, listed in different orders, give different
    archives. *)
Lemma archive_order_is_listing_order :
  pack_sample (listed_start false) "adapters/bert-base" = (Ok tt, listed_done_weights_first) /\
  archive_names sample_zip listed_done_weights_first
    = Some ["pytorch_adapter.bin"; "adapter_config.json"] /\
  sorted_names ["pytorch_adapter.bin"; "adapter_config.json"] = false /\
  pack_sample (listed_start true) "adapters/bert-base" = (Ok tt, listed_done_config_first) /\
  archive_names sample_zip listed_done_config_first
    = Some ["adapter_config.json"; "pytorch_adapter.bin"] /\
  (exists es1 es2,
      OS.lookup "adapters/bert-base" (listed_start false) = inr (Dir true es1) /\
      OS.lookup "adapters/bert-base" (listed_start true) = inr (Dir true es2) /\
      forall name, AList.get name es1 = AList.get name es2) /\
  OS.lookup sample_zip listed_done_weights_first
    <> OS.lookup sample_zip listed_done_config_first.
Proof.
  split; [vm_compute; reflexivity|]. split; [reflexivity|]. split; [reflexivity|].
  split; [vm_compute; reflexivity|]. split; [reflexivity|]. split.
  - do 2 eexists. split; [reflexivity|]. split; [reflexivity|].
    intros name. cbn [AList.get].
    destruct (String.eqb name "pytorch_adapter.bin") eqn:E1,
             (String.eqb name "adapter_config.json") eqn:E2; try reflexivity.
    apply String.eqb_eq in E1, E2. subst. discriminate.
  - vm_compute. discriminate.
Qed.

Lemma archive_follows_directory_listing_witness :
  zip_folder "adapters/bert-base" "out/a.zip" sample_start = (Ok tt, zipped_done) /\
  (exists t es members,
      Tree.store (Path.components "out/a.zip") (FZip []) (fs sample_start) = inr t /\
      Tree.lookup (Path.components "adapters/bert-base") t = inr (Dir true es) /\
      OS.lookup "out/a.zip" zipped_done = inr (File (FZip members)) /\
      Forall2 member_of (AList.keys es) members) /\
  (forall w2, fs w2 = fs sample_start ->
     exists w2', zip_folder "adapters/bert-base" "out/a.zip" w2 = (Ok tt, w2') /\
                 fs w2' = fs zipped_done).
Proof.
  assert (R : zip_folder "adapters/bert-base" "out/a.zip" sample_start = (Ok tt, zipped_done))
    by (vm_compute; reflexivity).
  split; [exact R|].
  exact (archive_follows_directory_listing "adapters/bert-base" "out/a.zip"
           sample_start zipped_done R).
Defined.

(** C4: packing the folder that cannot be listed fails, and the path of the
    archive, where nothing was before, now holds an archive without any of
    the folder's files. *)
Lemma failed_pack_leaves_partial_archive :
  pack_sample sample_start "adapters/locked"
    = (Raise (OSError EACCES "adapters/locked"), locked_done) /\
  OS.path_exists sample_zip sample_start = false /\
  OS.lookup sample_zip locked_done = inr (File (FZip [])) /\
  OS.isfile "adapters/locked/pytorch_adapter.bin" sample_start = true /\
  OS.isfile "adapters/locked/adapter_config.json" sample_start = true.
Proof.
  split; [vm_compute; reflexivity|]. repeat split; reflexivity.
Qed.

(** A failure after the archive is complete leaves the archive without its
    info card. *)
Example failed_pack_leaves_archive_without_card :
  pack_sample sample_start "adapters/no-config" = (Raise (KeyError "config"), no_config_done) /\
  archive_names sample_zip no_config_done = Some ["adapter_config.json"] /\
  OS.path_exists sample_yaml no_config_done = false.
Proof. split; [vm_compute; reflexivity|]. split; reflexivity. Qed.

Lemma failed_pack_never_writes_the_card_witness :
  pack_sample sample_start "adapters/locked"
    = (Raise (OSError EACCES "adapters/locked"), locked_done) /\
  ((fs locked_done = fs sample_start /\
    writes (log locked_done) = writes (log sample_start)) \/
   (exists data w1 base,
       collect_adapter_data "adapters/locked" None sample_start = (Ok data, w1) /\
       folder_name data = Ok base /\
       writes (log locked_done) = writes (log sample_start) ++ [zip_path "out" base])).
Proof.
  assert (R : pack_sample sample_start "adapters/locked"
              = (Raise (OSError EACCES "adapters/locked"), locked_done))
    by (vm_compute; reflexivity).
  split; [exact R|].
  exact (failed_pack_never_writes_the_card no_bytes no_format "adapters/locked" "out"
           "tpl.yaml" None (Some sample_metadata) (VStr "1") VNone
           sample_start locked_done (OSError EACCES "adapters/locked") R).
Defined.


Example download_url_sample :
  download_url no_format (VStr "https://hub/{model_name}/{file}") sample_zip
    [("model_name", VStr "bert-base")]
  = Ok "https://hub/bert-base/bert-base_sst-2_glue_pfeiffer.zip" /\
  download_url no_format (VStr "https://hub/{task}/{file}") sample_zip
    [("model_name", VStr "bert-base")] = Raise (KeyError "task") /\
  download_url no_format (VStr "") sample_zip [] = Ok "TODO" /\
  download_url no_format VNone sample_zip [] = Ok "TODO".
Proof. repeat split. Qed.

(** A field named by a number, in the digits of any script, is a positional
    one and there is no positional argument; a number beyond the largest
    index is rejected as it is read. *)
Example numeric_fields_are_positional :
  Fmt.format_file no_format "{٣}" "a.zip" [("٣", VStr "x")] = Raise IndexError /\
  Fmt.format_file no_format "{7}" "a.zip" [("7", VStr "x")] = Raise IndexError /\
  Fmt.format_file no_format "{9223372036854775808}" "a.zip" [] = Raise ValueError /\
  Fmt.format_file no_format "{n3}" "a.zip" [("n3", VStr "x")] = Ok "x".
Proof. repeat split; reflexivity. Qed.

(** A field named in digits of another script is not a plain field: the
    statement about plain fields leaves it out. *)
Example field_in_other_digits_is_not_plain :
  forallb (plain_piece [("file", VStr "a.zip"); ("٣", VStr "x")]) (Fmt.pieces "{٣}") = false /\
  forallb (plain_piece [("file", VStr "a.zip"); ("n3", VStr "x")]) (Fmt.pieces "{n3}") = true.
Proof. split; reflexivity. Qed.

Lemma no_archive_from_unreadable_or_empty_folder_witness :
  (holds_no_file "adapters/empty" sample_start \/
   ~ listable (OS.lookup "adapters/empty" sample_start)) /\
  exists e w',
    pack_sample sample_start "adapters/empty" = (Raise e, w') /\
    (holds_no_file "adapters/empty" sample_start ->
       w' = sample_start /\
       exists n, e = OSError n (Path.join "adapters/empty" "adapter_config.json")) /\
    (forall data w1 base,
        collect_adapter_data "adapters/empty" None sample_start = (Ok data, w1) ->
        folder_name data = Ok base ->
        exists n p, e = OSError n p).
Proof.
  assert (H : holds_no_file "adapters/empty" sample_start \/
              ~ listable (OS.lookup "adapters/empty" sample_start)).
  { left. exists true, []. split; [reflexivity | discriminate]. }
  split; [exact H|].
  exact (no_archive_from_unreadable_or_empty_folder no_bytes no_format "adapters/empty"
           "out" "tpl.yaml" None (Some sample_metadata) (VStr "1") VNone sample_start H).
Defined.

Example empty_folder_gives_no_archive :
  pack_sample sample_start "adapters/empty"
    = (Raise (OSError ENOENT "adapters/empty/adapter_config.json"), sample_start).
Proof. reflexivity. Qed.

(** C9: with the two weights files in one directory and two input paths
    above it, the directory is in both lists, and twice in each. *)
Lemma scan_lists_overlap_and_repeat :
  find_models_and_adapters "pytorch_model.bin" "pytorch_adapter.bin"
    (init ["zoo"; "zoo/bert"] None None true) zoo_world
  = (["zoo/bert"; "zoo/bert"], ["zoo/bert"; "zoo/bert"]) /\
  find_models_and_adapters "pytorch_model.bin" "pytorch_adapter.bin"
    (init ["zoo"] None None true) zoo_world
  = (["zoo/bert"], ["zoo/bert"]).
Proof. split; reflexivity. Qed.

(** A batch of three folders: the first has no configuration file, the second
    cannot be listed, the third is packed. *)
Example batch_goes_on_after_failures :
  exists w',
    pack_each no_bytes no_format 0 3 ["adapters/empty"; "adapters/locked"; "adapters/bert-base"]
      "out" "tpl.yaml" sample_metadata (VStr "1") VNone
      (World sample_tree (sample_answers ++ sample_answers) [] []) = (Ok tt, w') /\
    filter (fun e => match e with Print _ _ | PrintExc _ _ => true | _ => false end) (log w')
    = [Print Cyan "[Adapter 1 of 3] adapters/empty";
       Print Red "✘ Failed to pack adapter";
       PrintExc Red (OSError ENOENT "adapters/empty/adapter_config.json");
       Print Cyan "[Adapter 2 of 3] adapters/locked";
       Print Plain "Zipping adapters/locked to out/bert-base_sst-2_glue_pfeiffer.zip...";
       Print Red "✘ Failed to pack adapter";
       PrintExc Red (OSError EACCES "adapters/locked");
       Print Cyan "[Adapter 3 of 3] adapters/bert-base";
       Print Plain "Zipping adapters/bert-base to out/bert-base_sst-2_glue_pfeiffer.zip...";
       Print Green "✔ Created info card for bert-base_sst-2_glue_pfeiffer"].
Proof. eexists. vm_compute. split; reflexivity. Qed.

(** * Further properties *)

(** ** The info card (lines 252-266) *)

Lemma set_bound {V} k (v : V) l : AList.get k l = Some v -> AList.set k v l = l.
Proof.
  induction l as [|[k' v'] l IH]; simpl; [discriminate|].
  destruct (String.eqb k k') eqn:E.
  - apply String.eqb_eq in E. now intros [= ->]; subst.
  - intros G. now rewrite IH.
Qed.

Lemma fold_left_fixed {A B} (f : A -> B -> A) (l : list B) (a : A) :
  (forall b, In b l -> f a b = a) -> fold_left f l a = a.
Proof.
  induction l as [|b l IH]; simpl; intros H; [reflexivity|].
  rewrite H by now left. apply IH. intros; apply H; now right.
Qed.

Lemma fill_key_bound adapter_data template k v :
  AList.get k adapter_data = Some v -> AList.get k template = Some v ->
  fill_key adapter_data template k = template.
Proof.
  intros Gd Gt. unfold fill_key. rewrite Gd.
  destruct (AList.has k template && negb (String.eqb k "config")); [|reflexivity].
  now apply set_bound.
Qed.

(** X1. Filling the template is idempotent: filling again with the same data
    changes nothing; and data that shares no key with the template leaves the
    template as it is. *)
Theorem fill_template_idempotent (adapter_data template : dict) :
  fill_template adapter_data (fill_template adapter_data template)
    = fill_template adapter_data template /\
  ((forall k, In k (AList.keys adapter_data) -> AList.has k template = false) ->
   fill_template adapter_data template = template).
Proof.
  split.
  - unfold fill_template at 1. apply fold_left_fixed. intros k I.
    destruct (AList.get k adapter_data) as [v|] eqn:G.
    2:{ apply get_none_iff in G. contradiction. }
    pose proof (fill_template_get adapter_data template k v G) as T.
    unfold fill_key. rewrite G.
    rewrite (has_by_keys k _ template) by apply fill_keys_keys.
    destruct (AList.has k template) eqn:H; [|reflexivity].
    destruct (String.eqb k "config"); [reflexivity|]. simpl.
    now apply set_bound.
  - intros N. unfold fill_template. apply fold_left_fixed. intros k I.
    unfold fill_key. now rewrite (N k I).
Qed.

(** X2. The card is made exactly when the data has a config name and a
    config that is a mapping with both [non_linearity] and
    [reduction_factor]; otherwise the error is the [KeyError] of the first of
    these that is absent, or [TypeError] for a config that is no mapping. *)
Theorem fill_card_succeeds_iff (adapter_data template file_info : dict) (version : value)
    (head : bool) (metadata : option dict) :
  let card := fill_card adapter_data template file_info version head metadata in
  ((exists c, card = Ok c) <->
   exists name d nl rf,
     AList.get "config_name" adapter_data = Some name /\
     AList.get "config" adapter_data = Some (VDict d) /\
     AList.get "non_linearity" d = Some nl /\
     AList.get "reduction_factor" d = Some rf) /\
  (AList.get "config_name" adapter_data = None -> card = Raise (KeyError "config_name")) /\
  (forall name, AList.get "config_name" adapter_data = Some name ->
     (AList.get "config" adapter_data = None -> card = Raise (KeyError "config")) /\
     (forall v, AList.get "config" adapter_data = Some v ->
        (forall d, v <> VDict d) -> card = Raise TypeError) /\
     (forall d, AList.get "config" adapter_data = Some (VDict d) ->
        (AList.get "non_linearity" d = None -> card = Raise (KeyError "non_linearity")) /\
        (AList.get "non_linearity" d <> None -> AList.get "reduction_factor" d = None ->
           card = Raise (KeyError "reduction_factor")))).
Proof.
  cbv zeta. unfold fill_card, getitem.
  destruct (AList.get "config_name" adapter_data) as [name|]; simpl.
  2:{ split; [|split; [reflexivity | discriminate]].
      split; [intros [c [=]] | intros (? & ? & ? & ? & [=] & _)]. }
  destruct (AList.get "config" adapter_data) as [v|]; simpl.
  2:{ split; [|split; [discriminate|]].
      - split; [intros [c [=]] | intros (? & ? & ? & ? & _ & [=] & _)].
      - intros ? _. split; [reflexivity|]. split; discriminate. }
  destruct v as [| | | | |xs|d]; simpl;
    try (split; [split; [intros [c [=]] | intros (? & ? & ? & ? & _ & [=] & _)]
                |split; [discriminate|];
                 intros ? _; split; [discriminate|]; split; [reflexivity | discriminate]]).
  unfold getitem.
  destruct (AList.get "non_linearity" d) as [nl|] eqn:N; simpl.
  2:{ split; [|split; [discriminate|]].
      - split; [intros [c [=]]|]. intros (? & ? & ? & ? & _ & [= <-] & G & _). congruence.
      - intros ? _. split; [discriminate|]. split.
        + intros v [= <-] X. now destruct (X d).
        + intros d' [= <-]. split; [reflexivity|]. intros X. now destruct X. }
  destruct (AList.get "reduction_factor" d) as [rf|] eqn:R; simpl.
  - split; [|split; [discriminate|]].
    + split; [|eauto]. intros _. exists name, d, nl, rf. auto.
    + intros ? _. split; [discriminate|]. split.
      * intros v [= <-] X. now destruct (X d).
      * intros d' [= <-]. rewrite N, R. split; discriminate.
  - split; [|split; [discriminate|]].
    + split; [intros [c [=]]|]. intros (? & ? & ? & ? & _ & [= <-] & _ & G). congruence.
    + intros ? _. split; [discriminate|]. split.
      * intros v [= <-] X. now destruct (X d).
      * intros d' [= <-]. rewrite N, R. split; [discriminate | reflexivity].
Qed.

Lemma fill_card_inv adapter_data template file_info version head metadata card :
  fill_card adapter_data template file_info version head metadata = Ok card ->
  exists name config nl rf,
    getitem adapter_data "config_name" = Ok name /\
    getitem adapter_data "config" = Ok config /\
    subscript config "non_linearity" = Ok nl /\
    subscript config "reduction_factor" = Ok rf /\
    card = add_metadata
             (AList.set "prediction_head" (VBool head)
                (AList.set "config"
                   (VDict [("using", name); ("non_linearity", nl); ("reduction_factor", rf)])
                   (AList.set "default_version" version
                      (AList.set "files" (VList [VDict file_info])
                         (fill_template adapter_data template))))) metadata.
Proof.
  unfold fill_card.
  destruct (getitem adapter_data "config_name") as [name|] eqn:E1; simpl; [|discriminate].
  destruct (getitem adapter_data "config") as [c|] eqn:E2; simpl; [|discriminate].
  destruct (subscript c "non_linearity") as [nl|] eqn:E3; simpl; [|discriminate].
  destruct (subscript c "reduction_factor") as [rf|] eqn:E4; simpl; [|discriminate].
  intros [= <-]. exists name, c, nl, rf. auto.
Qed.

(** X3. The session metadata is written over everything else: every field of
    the metadata is in the card with the metadata's value, also under a key
    the steps before assigned ([files], [config], ...) or took from the
    artifact.  Without such a field in the metadata, the card's [files] is
    the one file record, its [default_version] the version, its [config] the
    three config entries and its [prediction_head] the flag. *)
Theorem metadata_is_written_last (adapter_data template file_info m card : dict)
    (version : value) (head : bool) :
  AList.wf m ->
  fill_card adapter_data template file_info version head (Some m) = Ok card ->
  (forall k v, AList.get k m = Some v -> AList.get k card = Some v) /\
  (AList.get "files" m = None ->
     AList.get "files" card = Some (VList [VDict file_info])) /\
  (AList.get "default_version" m = None ->
     AList.get "default_version" card = Some version) /\
  (AList.get "prediction_head" m = None ->
     AList.get "prediction_head" card = Some (VBool head)) /\
  (AList.get "config" m = None ->
     exists name d nl rf,
       AList.get "config_name" adapter_data = Some name /\
       AList.get "config" adapter_data = Some (VDict d) /\
       AList.get "non_linearity" d = Some nl /\
       AList.get "reduction_factor" d = Some rf /\
       AList.get "config" card
         = Some (VDict [("using", name); ("non_linearity", nl); ("reduction_factor", rf)])).
Proof.
  intros W F. destruct (fill_card_inv _ _ _ _ _ _ _ F) as (name & c & nl & rf & G1 & G2 & G3 & G4 & ->).
  assert (O : forall k, AList.get k m = None ->
                AList.get k (add_metadata
                  (AList.set "prediction_head" (VBool head)
                     (AList.set "config"
                        (VDict [("using", name); ("non_linearity", nl); ("reduction_factor", rf)])
                        (AList.set "default_version" version
                           (AList.set "files" (VList [VDict file_info])
                              (fill_template adapter_data template))))) (Some m))
                = AList.get k (AList.set "prediction_head" (VBool head)
                     (AList.set "config"
                        (VDict [("using", name); ("non_linearity", nl); ("reduction_factor", rf)])
                        (AList.set "default_version" version
                           (AList.set "files" (VList [VDict file_info])
                              (fill_template adapter_data template)))))).
  { intros k N. apply add_metadata_other. intros m' [= <-]. now apply get_none_iff. }
  split; [|split; [|split; [|split]]].
  - intros k v G. unfold add_metadata.
    destruct m as [|kv m']; [discriminate|]. cbn [truthy].
    now apply get_update_bound.
  - intros N. rewrite (O _ N).
    rewrite !get_set_other by discriminate. apply get_set_same.
  - intros N. rewrite (O _ N).
    rewrite !get_set_other by discriminate. apply get_set_same.
  - intros N. rewrite (O _ N). apply get_set_same.
  - intros N. unfold getitem in G1, G2.
    destruct (AList.get "config_name" adapter_data) as [name'|] eqn:E1; [|discriminate].
    destruct (AList.get "config" adapter_data) as [c'|] eqn:E2; [|discriminate].
    injection G1 as ->. injection G2 as ->.
    destruct c as [| | | | | |d]; try discriminate. unfold subscript, getitem in G3, G4.
    destruct (AList.get "non_linearity" d) as [nl'|] eqn:E3; [|discriminate].
    destruct (AList.get "reduction_factor" d) as [rf'|] eqn:E4; [|discriminate].
    injection G3 as ->. injection G4 as ->.
    exists name, d, nl, rf. do 4 (split; [assumption || reflexivity|]).
    rewrite (O _ N). rewrite get_set_other by discriminate. apply get_set_same.
Qed.

(** ** The output name (lines 226-230) *)

Lemma folder_name_of_strings data m t s c :
  AList.get "model_name" data = Some (VStr m) -> AList.get "task" data = Some (VStr t) ->
  AList.get "subtask" data = Some (VStr s) -> AList.get "config_name" data = Some (VStr c) ->
  folder_name data = Ok (Str.replace "/" "-" (Str.join "_" [m; t; s; c])).
Proof.
  intros G1 G2 G3 G4. unfold folder_name, getitem. now rewrite G1, G2, G3, G4.
Qed.

(** X4. The output name exists exactly when the four fields are all there
    and all strings.  The four are looked up before any is inspected: with
    one of them absent the error is a [KeyError] of one of the four, whatever
    the others are; with all four present and one not a string it is
    [TypeError]. *)
Theorem folder_name_succeeds_iff (data : dict) :
  ((exists base, folder_name data = Ok base) <->
   (forall k, In k name_keys -> exists s, AList.get k data = Some (VStr s))) /\
  ((exists k, In k name_keys /\ AList.get k data = None) ->
   exists k, In k name_keys /\ AList.get k data = None /\
             folder_name data = Raise (KeyError k)) /\
  ((forall k, In k name_keys -> AList.get k data <> None) ->
   (exists k v, In k name_keys /\ AList.get k data = Some v /\ forall s, v <> VStr s) ->
   folder_name data = Raise TypeError).
Proof.
  split; [|split].
  - split.
    + intros [base F]. destruct (folder_name_inv _ _ F) as (m & t & s & c & G1 & G2 & G3 & G4 & _).
      unfold getitem in *.
      destruct (AList.get "model_name" data) as [v1|] eqn:E1; [|discriminate].
      destruct (AList.get "task" data) as [v2|] eqn:E2; [|discriminate].
      destruct (AList.get "subtask" data) as [v3|] eqn:E3; [|discriminate].
      destruct (AList.get "config_name" data) as [v4|] eqn:E4; [|discriminate].
      injection G1 as ->. injection G2 as ->. injection G3 as ->. injection G4 as ->.
      intros k [<-|[<-|[<-|[<-|[]]]]]; eauto.
    + intros H.
      destruct (H "model_name") as [m G1]; [simpl; tauto|].
      destruct (H "task") as [t G2]; [simpl; tauto|].
      destruct (H "subtask") as [s0 G3]; [simpl; tauto|].
      destruct (H "config_name") as [c G4]; [simpl; tauto|].
      eexists. eapply folder_name_of_strings; eauto.
  - intros (k & I & N). unfold folder_name, getitem.
    destruct (AList.get "model_name" data) eqn:E1; simpl.
    2:{ exists "model_name". simpl. auto. }
    destruct (AList.get "task" data) eqn:E2; simpl.
    2:{ exists "task". simpl. auto. }
    destruct (AList.get "subtask" data) eqn:E3; simpl.
    2:{ exists "subtask". simpl. auto. }
    destruct (AList.get "config_name" data) eqn:E4; simpl.
    2:{ exists "config_name". simpl. tauto. }
    destruct I as [<-|[<-|[<-|[<-|[]]]]]; congruence.
  - intros P (k & v & I & G & NS). unfold folder_name, getitem.
    destruct (AList.get "model_name" data) as [v1|] eqn:E1; [|now destruct (P "model_name"); simpl; auto].
    destruct (AList.get "task" data) as [v2|] eqn:E2; [|now destruct (P "task"); simpl; auto].
    destruct (AList.get "subtask" data) as [v3|] eqn:E3; [|now destruct (P "subtask"); simpl; auto].
    destruct (AList.get "config_name" data) as [v4|] eqn:E4; [|now destruct (P "config_name"); simpl; tauto].
    cbn [obind].
    destruct v1; try reflexivity. destruct v2; try reflexivity.
    destruct v3; try reflexivity. destruct v4; try reflexivity.
    exfalso. destruct I as [<-|[<-|[<-|[<-|[]]]]];
      rewrite G in *; match goal with H : Some v = Some (VStr ?x) |- _ =>
        injection H as ->; now apply (NS x) end.
Qed.

Lemma replace_app old new a b :
  Str.replace old new (a ++ b) = (Str.replace old new a ++ Str.replace old new b)%string.
Proof. induction a; simpl; congruence. Qed.

Lemma replace_idempotent s :
  Str.replace "/" "-" (Str.replace "/" "-" s) = Str.replace "/" "-" s.
Proof.
  induction s as [|c s IH]; [reflexivity|]. cbn [Str.replace]. rewrite IH.
  destruct (Ascii.eqb c "/") eqn:E; [reflexivity | now rewrite E].
Qed.

Lemma replace_join m t s c :
  Str.replace "/" "-" (Str.join "_" [m; t; s; c])
  = Str.join "_" [Str.replace "/" "-" m; Str.replace "/" "-" t;
                  Str.replace "/" "-" s; Str.replace "/" "-" c].
Proof.
  unfold Str.join. cbn [String.concat]. now rewrite !replace_app.
Qed.

(** X5. The output name does not tell a slash from a dash: two artifacts
    whose four fields agree once every slash is read as a dash get the same
    output name, hence the same two output paths; nothing in the name keeps
    them apart. *)
Theorem names_that_differ_in_slashes_collide (data data' : dict) (save_root : string) :
  (forall k, In k name_keys ->
     exists s s', AList.get k data = Some (VStr s) /\ AList.get k data' = Some (VStr s') /\
                  Str.replace "/" "-" s = Str.replace "/" "-" s') ->
  exists base,
    folder_name data = Ok base /\ folder_name data' = Ok base /\
    obind (folder_name data) (fun b => Ok (zip_path save_root b, yaml_path save_root b))
    = obind (folder_name data') (fun b => Ok (zip_path save_root b, yaml_path save_root b)).
Proof.
  intros H.
  destruct (H "model_name") as (m & m' & G1 & G1' & R1); [simpl; tauto|].
  destruct (H "task") as (t & t' & G2 & G2' & R2); [simpl; tauto|].
  destruct (H "subtask") as (s & s' & G3 & G3' & R3); [simpl; tauto|].
  destruct (H "config_name") as (c & c' & G4 & G4' & R4); [simpl; tauto|].
  rewrite (folder_name_of_strings data m t s c) by assumption.
  rewrite (folder_name_of_strings data' m' t' s' c') by assumption.
  rewrite (replace_join m t s c), (replace_join m' t' s' c'), R1, R2, R3, R4.
  eexists. split; [reflexivity|]. split; reflexivity.
Qed.

(** ** The link (lines 243-246) *)

Lemma app_nil_r_string (s : string) : (s ++ "")%string = s.
Proof. induction s; simpl; congruence. Qed.

Lemma mem_app x a b : Str.mem x (a ++ b) = Str.mem x a || Str.mem x b.
Proof.
  induction a as [|c a IH]; [reflexivity|].
  change (String c a ++ b)%string with (String c (a ++ b)).
  rewrite !mem_cons, IH. apply orb_assoc.
Qed.

Lemma last_snoc {A} (l : list A) (x d : A) : List.last (l ++ [x]) d = x.
Proof.
  induction l as [|a l IH]; [reflexivity|].
  simpl. destruct (l ++ [x]) eqn:E; [now destruct l | exact IH].
Qed.

(** [basename(join(a, name))] is [name] for a name without a slash. *)
Lemma basename_join a name :
  Str.mem "/" name = false -> Path.basename (Path.join a name) = name.
Proof.
  intros M. unfold Path.basename, Path.join.
  assert (S : Str.starts_with "/" name = false).
  { destruct name as [|c name]; [reflexivity|].
    rewrite mem_cons, Ascii.eqb_sym in M. now apply orb_false_iff in M. }
  rewrite S. destruct (String.eqb a "") eqn:E; cbn [orb].
  - apply String.eqb_eq in E. subst a. cbn [append].
    now rewrite split_slash_plain.
  - destruct (Str.ends_with "/" a) eqn:W.
    + destruct (ends_with_slash _ W) as [a0 ->]. rewrite append_assoc.
      change (a0 ++ "/" ++ name)%string with (a0 ++ String "/" name)%string.
      rewrite split_slash_app, (split_slash_plain name) by assumption.
      apply last_snoc.
    + change (a ++ "/" ++ name)%string with (a ++ String "/" name)%string.
      rewrite split_slash_app, (split_slash_plain name) by assumption.
      apply last_snoc.
Qed.

Lemma scan_literal pre rest :
  no_braces pre = true ->
  Fmt.scan (pre ++ rest) Fmt.Text
  = map Fmt.Lit (list_ascii_of_string pre) ++ Fmt.scan rest Fmt.Text.
Proof.
  unfold no_braces. induction pre as [|c pre IH]; [reflexivity|].
  rewrite !mem_cons, !negb_orb, !andb_true_iff, !negb_true_iff.
  intros [[E1 M1] [E2 M2]]. rewrite Ascii.eqb_sym in E1, E2.
  change (String c pre ++ rest)%string with (String c (pre ++ rest)).
  cbn [Fmt.scan Fmt.step list_ascii_of_string map]. rewrite E1, E2.
  cbn [app]. f_equal. apply IH. now rewrite M1, M2.
Qed.

Lemma render_literal format_field kwargs l ps :
  Fmt.render format_field kwargs (map Fmt.Lit l ++ ps)
  = match Fmt.render format_field kwargs ps with
    | Ok s => Ok (string_of_list_ascii l ++ s)%string
    | Raise e => Raise e
    end.
Proof.
  induction l as [|c l IH]; simpl.
  - now destruct (Fmt.render format_field kwargs ps).
  - rewrite IH. now destruct (Fmt.render format_field kwargs ps).
Qed.

(** X6. A url template that is literal text around one [{file}] placeholder
    gives the link with the archive's file name, base name and [.zip], in
    the placeholder's place, whatever the rendering of other fields is;
    the directory of the archive is not part of the link. *)
Theorem file_placeholder_gets_archive_name
    (format_field : dict -> value -> string -> Fmt.error + string)
    (pre post save_root base : string) (adapter_data : dict) :
  no_braces pre = true -> no_braces post = true ->
  AList.has "file" adapter_data = false ->
  Str.mem "/" base = false ->
  download_url format_field (VStr (pre ++ "{file}" ++ post)) (zip_path save_root base)
    adapter_data
  = Ok (pre ++ base ++ ".zip" ++ post)%string.
Proof.
  intros B1 B2 F M. unfold download_url, Fmt.format_file, zip_path.
  assert (T : truthy (VStr (pre ++ "{file}" ++ post)) = true) by now destruct pre.
  rewrite T, F.
  assert (Mz : Str.mem "/" (base ++ ".zip") = false) by (rewrite mem_app, M; reflexivity).
  rewrite (basename_join save_root _ Mz).
  unfold Fmt.pieces. rewrite scan_literal by assumption.
  change (Fmt.scan ("{file}" ++ post) Fmt.Text)
    with ([Fmt.Field "file" ""] ++ Fmt.scan post Fmt.Text).
  rewrite <- (app_nil_r_string post) at 1. rewrite scan_literal by assumption.
  rewrite render_literal. cbn [app Fmt.render].
  change (Fmt.render_field format_field
            (("file", VStr (base ++ ".zip")) :: adapter_data) "file" "")
    with (@Ok string (base ++ ".zip")%string).
  cbn iota. rewrite render_literal. cbn [Fmt.scan Fmt.render].
  now rewrite !string_of_list_ascii_of_string, app_nil_r_string, append_assoc.
Qed.

(** ** The prompts (lines 91-139 and 187-200) *)

(** X7. [ask_for_model_name] takes the user's next answer.  If the answer
    has a model name, the answer is returned and the model name is kept in
    the input cache for the next adapter; if it has none (an interrupted
    prompt), the call raises [KeyError] and the cache stays as it was.  In
    both cases the answer is used up and the file tree is untouched. *)
Theorem ask_for_model_name_caches_the_answer (w : world) (a : dict) (rest : list dict) :
  answers w = a :: rest ->
  exists w',
    answers w' = rest /\ fs w' = fs w /\
    match AList.get "model_name" a with
    | Some v =>
        ask_for_model_name w = (Ok a, w') /\
        AList.get "model_name" (input_cache w') = Some v /\
        (forall k, k <> "model_name" ->
           AList.get k (input_cache w') = AList.get k (input_cache w))
    | None =>
        ask_for_model_name w = (Raise (KeyError "model_name"), w') /\
        input_cache w' = input_cache w
    end.
Proof.
  intros A. unfold ask_for_model_name.
  cbv beta iota delta [bind print emit prompt lift set_input_cache ret getitem].
  cbn [answers fs input_cache log]. rewrite A.
  destruct (AList.get "model_name" a) as [v|] eqn:G.
  - eexists. split; [|split; [|split; [reflexivity|split]]]; cbn [answers fs input_cache];
      try reflexivity.
    + apply get_set_same.
    + intros k N. apply get_set_other. congruence.
  - eexists. split; [|split; [|split; [reflexivity|]]]; reflexivity.
Qed.

Lemma store_over_file p d0 d : forall t,
  Tree.lookup p t = inr (File d0) -> exists t', Tree.store p d t = inr t'.
Proof.
  induction p as [|c p IH]; simpl; intros t L.
  - injection L as ->. eauto.
  - destruct t as [f|r es]; [discriminate|].
    destruct (AList.get c es) as [n'|]; [|discriminate].
    destruct (IH _ L) as [t' ->]. eauto.
Qed.

Section Metadata.
Variable ADAPTER_CACHE : string.

Let file : string := ADAPTER_PACK_METADATA_FILE ADAPTER_CACHE.

Lemma ask_for_metadata_inv w a w' :
  ask_for_metadata ADAPTER_CACHE w = (Ok a, w') ->
  OS.lookup file w' = inr (File (FJson (VDict a))) /\
  exists rest, answers w = a :: rest /\ answers w' = rest.
Proof.
  unfold ask_for_metadata. fold file. intros E.
  bind_cases E cfg w1 E1 e; [|discriminate].
  assert (A1 : answers w1 = answers w).
  { destruct (OS.isfile file w).
    - bind_cases E1 f w0 E0 e; [|discriminate]. apply lift_inv in E1 as [_ ->].
      unfold OS.read_file in E0. destruct (OS.lookup file w) as [|[|]]; try discriminate.
      now injection E0 as _ <-.
    - now injection E1 as _ <-. }
  bind_cases E its w2 E2 e; [|discriminate]. apply lift_inv in E2 as [_ ->].
  bind_cases E a' w3 E3 e; [|discriminate].
  bind_cases E u w4 E4 e; [|discriminate]. injection E as <- <-.
  apply write_file_run in E4 as [(n & [=] & _) | (t & _ & S & ->)].
  unfold prompt in E3. destruct (answers w1) as [|a0 rest] eqn:A; [discriminate|].
  injection E3 as <- <-. split.
  - unfold OS.lookup. cbn [fs]. eapply lookup_store_same; eauto.
  - exists rest. rewrite <- A1. auto.
Qed.

(** X8. What [ask_for_metadata] returns is what it has saved: after a
    successful call the metadata file holds the answers as a JSON document,
    and the next call, in any session that starts from this file tree, loads
    that file without error and returns the answers given then. *)
Theorem ask_for_metadata_saves_what_it_returns (w w' : world) (a : dict) :
  ask_for_metadata ADAPTER_CACHE w = (Ok a, w') ->
  OS.lookup file w' = inr (File (FJson (VDict a))) /\
  (forall next a2 rest,
      fs next = fs w' -> answers next = a2 :: rest ->
      exists next',
        ask_for_metadata ADAPTER_CACHE next = (Ok a2, next') /\
        OS.lookup file next' = inr (File (FJson (VDict a2)))).
Proof.
  intros E. destruct (ask_for_metadata_inv _ _ _ E) as (L & _). split; [exact L|].
  intros next a2 rest F A.
  assert (L' : OS.lookup file next = inr (File (FJson (VDict a)))).
  { unfold OS.lookup in *. now rewrite F. }
  destruct (store_over_file (Path.components file) (FJson (VDict a)) (FJson (VDict a2))
              (fs next) L') as [t S].
  destruct (ask_for_metadata ADAPTER_CACHE next) as [r next'] eqn:E2.
  assert (R : r = Ok a2).
  { unfold ask_for_metadata in E2. fold file in E2.
    cbv beta iota delta [bind OS.isfile OS.read_file OS.write_file OS.store_file
                         lift emit ret prompt set_fs json_load items] in E2.
    rewrite L' in E2. cbn [answers fs input_cache log] in E2. rewrite A in E2.
    cbn [answers fs input_cache log] in E2. rewrite S in E2.
    now injection E2 as <- _. }
  subst r. exists next'. split; [reflexivity|].
  now destruct (ask_for_metadata_inv _ _ _ E2).
Qed.

End Metadata.

(** ** The batch command (lines 285-314) *)

(** The loop only adds to the log, and what it adds holds every header. *)
Lemma pack_each_appends file_bytes format_field total save_root template_file metadata
    version url_template folders : forall start w,
  exists w' l,
    pack_each file_bytes format_field start total folders save_root template_file
      metadata version url_template w = (Ok tt, w') /\
    log w' = log w ++ l /\
    forall i folder, nth_error folders i = Some folder ->
      In (header (start + i) total folder) l.
Proof.
  induction folders as [|folder rest IH]; intros start w.
  - exists w, []. split; [reflexivity|]. split; [now rewrite app_nil_r|].
    intros [|i] folder; discriminate.
  - rewrite pack_each_turn.
    pose proof (obeys_pack_adapter log_extends file_bytes format_field folder save_root
                  template_file None (Some metadata) version url_template) as O.
    destruct (pack_adapter file_bytes format_field folder save_root template_file None
                (Some metadata) version url_template (printed (header start total folder) w))
      as [r w2] eqn:E.
    destruct (O _ _ _ E) as [[l2 L2] _]. cbn [log printed] in L2.
    assert (X : exists w3 l3,
                log w3 = log w2 ++ l3 /\
                match r with
                | Ok _ => pack_each file_bytes format_field (S start) total rest save_root
                            template_file metadata version url_template w2
                | Raise ex => pack_each file_bytes format_field (S start) total rest save_root
                                template_file metadata version url_template (reported ex w2)
                end = pack_each file_bytes format_field (S start) total rest save_root
                        template_file metadata version url_template w3).
    { destruct r as [[]|ex].
      - exists w2, []. split; [now rewrite app_nil_r | reflexivity].
      - exists (reported ex w2), [Print Red "✘ Failed to pack adapter"; PrintExc Red ex].
        split; [|reflexivity]. cbn [log reported printed]. now rewrite <- app_assoc. }
    destruct X as (w3 & l3 & L3 & ->).
    destruct (IH (S start) w3) as (w' & l' & R & L' & Hd).
    exists w', ([header start total folder] ++ l2 ++ l3 ++ l').
    split; [exact R|]. split.
    + rewrite L', L3, L2. now rewrite <- !app_assoc.
    + intros [|i] f N; cbn [nth_error] in N.
      * injection N as <-. rewrite Nat.add_0_r. now left.
      * rewrite Nat.add_succ_r. pose proof (Hd i f N) as I.
        change (S start + i)%nat with (S (start + i)) in I.
        rewrite !in_app_iff. tauto.
Qed.

Section Interactive.
Variable file_bytes : fdata -> list Byte.byte.
Variable format_field : dict -> value -> string -> Fmt.error + string.
Variable ADAPTER_CACHE : string.
Variable download_cached : string -> Py string.
Variables (self : command) (folders : list string) (save_root : string) (version : value).

Let interactive : Py unit :=
  pack_adapters_interactive file_bytes format_field ADAPTER_CACHE download_cached
    self folders save_root version.

(** X10. With a template path given that is no file, the command prints its
    error and exits with status 1 before anything else happens: the output
    directory is not created, no question is asked, no adapter is packed. *)
Theorem missing_template_exits_first (t : string) (w : world) :
  template self = Some t -> t <> EmptyString -> OS.isfile t w = false ->
  exists w',
    interactive w = (Raise (SystemExit 1), w') /\
    fs w' = fs w /\ answers w' = answers w /\
    log w' = log w ++ [Print Cyan ("========== Step 2: Packing "
                                   ++ Str.of_nat (List.length folders)
                                   ++ " adapters ==========");
                       Print Red "ERROR: Specified template file could not be found!"].
Proof.
  intros T N F. unfold interactive, pack_adapters_interactive. rewrite T.
  apply String.eqb_neq in N. rewrite N.
  cbv beta iota delta [bind print emit raise]. unfold OS.isfile in *. unfold OS.lookup in *.
  cbn [fs answers input_cache log]. rewrite F. cbn [fs answers input_cache log].
  eexists. split; [reflexivity|]. cbn [fs answers log].
  rewrite <- app_assoc. auto.
Qed.

Lemma interactive_from_metadata (t : string) (w : world) :
  template self = Some t -> t <> EmptyString -> OS.isfile t w = true ->
  OS.path_exists save_root w = true ->
  interactive w =
    match ask_for_metadata ADAPTER_CACHE (before_metadata folders w) with
    | (Ok metadata, w2) =>
        match getitem metadata "adapter_url_template" with
        | Ok url_template =>
            match pack_each file_bytes format_field 0 (List.length folders) folders
                    save_root t (AList.remove "adapter_url_template" metadata)
                    version url_template (printed (Print Plain "Thanks! Now let's start...") w2)
            with
            | (Ok _, w3) => print_finalization_text w3
            | (Raise e, w3) => (Raise e, w3)
            end
        | Raise e => (Raise e, w2)
        end
    | (Raise e, w2) => (Raise e, w2)
    end.
Proof.
  intros T N F X. unfold interactive, pack_adapters_interactive. rewrite T.
  apply String.eqb_neq in N. rewrite N.
  unfold bind at 1. unfold print at 1, emit at 1.
  unfold bind at 1.
  assert (F' : forall e, OS.isfile t (printed e w) = true) by (intros; exact F).
  assert (X' : forall e, OS.path_exists save_root (printed e w) = true) by (intros; exact X).
  unfold printed in F', X'. rewrite F'.
  unfold bind at 1. rewrite X'.
  do 3 (unfold bind at 1; unfold print at 1, emit at 1).
  cbn [fs answers input_cache log].
  unfold bind at 1. unfold before_metadata, printed. cbn [fs answers input_cache log].
  destruct (ask_for_metadata ADAPTER_CACHE _) as [[metadata|e] w2]; [|reflexivity].
  unfold bind at 1, lift.
  destruct (getitem metadata "adapter_url_template") as [u|e]; [|reflexivity].
  unfold bind at 1. unfold print at 1, emit at 1. unfold bind at 1.
  reflexivity.
Qed.

(** The loop and the closing text, from the world the metadata prompt left. *)
Lemma loop_and_finalization (t : string) (metadata : dict) (url_template : value)
    (w2 : world) :
  exists w' l,
    match pack_each file_bytes format_field 0 (List.length folders) folders
            save_root t metadata version url_template
            (printed (Print Plain "Thanks! Now let's start...") w2)
    with
    | (Ok _, w3) => print_finalization_text w3
    | (Raise e, w3) => (Raise e, w3)
    end = (Ok tt, w') /\
    log w' = log w2 ++ l ++ finalization /\
    forall i folder, nth_error folders i = Some folder ->
      In (header i (List.length folders) folder) l.
Proof.
  destruct (pack_each_appends file_bytes format_field (List.length folders) save_root t
              metadata version url_template folders 0
              (printed (Print Plain "Thanks! Now let's start...") w2))
    as (w3 & l3 & R & L3 & H).
  rewrite R. cbn [log printed] in L3.
  exists (World (fs w3) (answers w3) (input_cache w3) (log w3 ++ finalization)),
         ([Print Plain "Thanks! Now let's start..."] ++ l3).
  split; [|split].
  - unfold print_finalization_text, finalization.
    cbv beta iota delta [bind print emit]. cbn [fs answers input_cache log].
    now rewrite <- !app_assoc.
  - cbn [log]. rewrite L3. now rewrite <- !app_assoc.
  - intros i folder E. right. exact (H i folder E).
Qed.

(** X11. For a template path, an output path and a cache path that are
    written plainly (so that the file tree answers for them as the operating
    system does): once the template file is there, the output directory
    exists and the metadata prompt has given its answers with an
    [adapter_url_template] among them, the command runs to its end whatever
    happens to the single adapters: it returns, every folder was announced,
    and the closing text is the last thing printed. *)
Theorem batch_completes_after_metadata (t : string) (w w2 : world)
    (metadata : dict) (url_template : value) :
  plain_path t = true -> plain_path save_root = true ->
  plain_path ADAPTER_CACHE = true ->
  template self = Some t -> OS.isfile t w = true ->
  OS.path_exists save_root w = true ->
  ask_for_metadata ADAPTER_CACHE (before_metadata folders w) = (Ok metadata, w2) ->
  AList.get "adapter_url_template" metadata = Some url_template ->
  exists w' l,
    interactive w = (Ok tt, w') /\
    log w' = log w2 ++ l ++ finalization /\
    forall i folder, nth_error folders i = Some folder ->
      In (header i (List.length folders) folder) l.
Proof.
  intros Pt _ _ T F X M U.
  assert (N : t <> EmptyString) by (intros ->; discriminate).
  rewrite (interactive_from_metadata t w T N F X), M.
  unfold getitem. rewrite U. apply loop_and_finalization.
Qed.

(** X12. For a template path, an output path and a cache path that are
    written plainly, with the template file there and the output directory
    existing: if the answers to the metadata prompt hold no
    [adapter_url_template] (an interrupted prompt answers nothing), the
    command stops with [KeyError] before the first adapter: no folder is
    announced or packed, and the answers, such as they are, have already
    been saved to the metadata file. *)
Theorem batch_stops_without_url_template_answer (t : string) (w w2 : world)
    (metadata : dict) :
  plain_path t = true -> plain_path save_root = true ->
  plain_path ADAPTER_CACHE = true ->
  template self = Some t -> OS.isfile t w = true ->
  OS.path_exists save_root w = true ->
  ask_for_metadata ADAPTER_CACHE (before_metadata folders w) = (Ok metadata, w2) ->
  AList.get "adapter_url_template" metadata = None ->
  interactive w = (Raise (KeyError "adapter_url_template"), w2) /\
  OS.lookup (ADAPTER_PACK_METADATA_FILE ADAPTER_CACHE) w2
    = inr (File (FJson (VDict metadata))).
Proof.
  intros Pt _ _ T F X M U.
  assert (N : t <> EmptyString) by (intros ->; discriminate).
  rewrite (interactive_from_metadata t w T N F X), M.
  unfold getitem. rewrite U. split; [reflexivity|].
  now destruct (ask_for_metadata_inv _ _ _ _ M).
Qed.
End Interactive.

(** ** The files a run leaves alone *)

Lemma store_other_files p d0 : forall t t' q d,
  Tree.store p d0 t = inr t' -> q <> p ->
  (Tree.lookup q t = inr (File d) <-> Tree.lookup q t' = inr (File d)).
Proof.
  assert (F : forall q f d, Tree.lookup q (File f) = inr (File d) -> q = []).
  { intros [|c q] f d; [reflexivity | discriminate]. }
  induction p as [|c p IH]; simpl; intros t t' q d S N.
  - destruct t as [f|r es]; [|discriminate]. injection S as <-.
    split; intros L; apply F in L; congruence.
  - destruct t as [f|r es]; [discriminate|].
    destruct (AList.get c es) as [n'|] eqn:G.
    + destruct (Tree.store p d0 n') as [e|n''] eqn:S'; [discriminate|]. injection S as <-.
      destruct q as [|c2 q]; [split; discriminate|]. simpl.
      destruct (string_dec c c2) as [<-|Nc].
      * rewrite get_set_same, G. apply (IH n' n'' q d S'). congruence.
      * now rewrite get_set_other.
    + destruct p; [|discriminate]. injection S as <-.
      destruct q as [|c2 q]; [split; discriminate|]. simpl.
      destruct (string_dec c c2) as [<-|Nc].
      * rewrite get_set_same, G. split; [discriminate|].
        intros L. apply F in L. congruence.
      * now rewrite get_set_other.
Qed.

#[export] Instance keeps_files_quiet paths : Quiet (keeps_files_except paths).
Proof.
  split; unfold keeps_files_except; cbn [fs printed]; intros; try tauto.
  rewrite (H q d), (H0 q d) by assumption. tauto.
Qed.

#[export] Instance keeps_files_writing paths : Writing (keeps_files_except paths).
Proof. split; unfold keeps_files_except; cbn [fs printed]; intros; tauto. Qed.

Lemma keeps_files_storing_at paths path :
  In path paths -> StoringAt (keeps_files_except paths) path.
Proof.
  intros I. split. unfold keeps_files_except. cbn [fs]. intros w d t S q d' N.
  eapply store_other_files; eauto. intros ->. apply N. now apply in_map.
Qed.

Section StoringAtOne.
Context (P : world -> world -> Prop) `{Quiet P} `{Writing P}.
Context (zip_name : string) `{StoringAt P zip_name}.

Lemma obeys_store_file_at d : obeys P (OS.store_file zip_name d).
Proof.
  intros w r w' E. unfold OS.store_file in E.
  destruct (Tree.store _ d (fs w)) as [e|t] eqn:S; injection E as <- <-.
  - split; [apply quiet_refl|]. now intros e' [= <-].
  - split; [exact (storing_at w d t S) | discriminate].
Qed.

Lemma obeys_write_file_at d : obeys P (OS.write_file zip_name d).
Proof.
  unfold OS.write_file. use @obeys_bind; [apply obeys_store_file_at | intros _].
  intros w r w' E. injection E as <- <-. split; [apply writing_event | discriminate].
Qed.

Lemma obeys_zip_write_at members filename arcname :
  obeys P (Zip.write zip_name members filename arcname).
Proof.
  unfold Zip.write. use @obeys_bind.
  - intros w r w' E. destruct (OS.lookup filename w) as [e|[d|rd es]].
    + injection E as <- <-. split; [apply quiet_refl|]. now intros e' [= <-].
    + injection E as <- <-. split; [|discriminate]. now apply quiet_event.
    + injection E as <- <-. split; [apply quiet_refl | discriminate].
  - intros member. use @obeys_bind; [apply obeys_store_file_at | intros; auto with py].
Qed.

Lemma obeys_zip_write_all_at folder names : forall members,
  obeys P (Zip.write_all zip_name folder members names).
Proof.
  induction names as [|file names IH]; simpl; intros members; [auto with py|].
  use @obeys_bind; [apply obeys_zip_write_at | intros; apply IH].
Qed.

Lemma obeys_zip_folder_at folder : obeys P (zip_folder folder zip_name).
Proof.
  unfold zip_folder, Zip.open_w.
  use @obeys_bind; [auto with py | intros _].
  use @obeys_bind.
  { use @obeys_bind; [apply obeys_write_file_at | intros; auto with py]. }
  intros zipf. use @obeys_bind; [auto with py | intros names].
  use @obeys_bind; [apply obeys_zip_write_all_at | intros; auto with py].
Qed.
End StoringAtOne.

Section Outputs.
Variable file_bytes : fdata -> list Byte.byte.
Variable format_field : dict -> value -> string -> Fmt.error + string.
Variables (folder save_root template_file : string).
Variables (adapter_data metadata : option dict) (version url_template : value).

Let pack : Py unit :=
  pack_adapter file_bytes format_field folder save_root template_file
    adapter_data metadata version url_template.

(** X13. Packing an adapter leaves every regular file alone except its two
    outputs: whatever the outcome, a path other than the archive's and the
    info card's holds a file with some content after the run exactly if it
    did before.  In particular the artifact's own files and the template are
    not changed, and a run that fails before it has a name changes nothing. *)
Theorem pack_adapter_touches_only_its_outputs (w w' : world) (r : outcome unit) :
  pack w = (r, w') ->
  exists outputs,
    (outputs = [] \/
     exists data w1 base,
       collect_adapter_data folder adapter_data w = (Ok data, w1) /\
       folder_name data = Ok base /\
       outputs = [zip_path save_root base; yaml_path save_root base]) /\
    keeps_files_except outputs w w'.
Proof.
  unfold pack, pack_adapter. intros E.
  bind_cases E data w1 E1 e.
  2:{ exists []. split; [now left|].
      now destruct (obeys_collect_adapter_data (keeps_files_except []) _ _ _ _ _ E1). }
  bind_cases E base w1' E2 e; apply lift_inv in E2 as [E2 ->].
  2:{ exists []. split; [now left|].
      now destruct (obeys_collect_adapter_data (keeps_files_except []) _ _ _ _ _ E1). }
  symmetry in E2.
  exists [zip_path save_root base; yaml_path save_root base]. split; [right; eauto 6|].
  set (P := keeps_files_except [zip_path save_root base; yaml_path save_root base]).
  assert (Sz : StoringAt P (zip_path save_root base))
    by (apply keeps_files_storing_at; simpl; auto).
  assert (Sy : StoringAt P (yaml_path save_root base))
    by (apply keeps_files_storing_at; simpl; auto).
  destruct (obeys_collect_adapter_data P _ _ _ _ _ E1) as [P1 _].
  match type of E with
  | ?m w1 = _ => assert (O : obeys P m)
  end.
  { use @obeys_bind; [apply (obeys_zip_folder_at P _ folder) | intros _].
    use @obeys_bind; [use @obeys_file_hashes | intros hashes].
    use @obeys_bind; [auto with py | intros url].
    use @obeys_bind; [use @obeys_load_template | intros tpl].
    use @obeys_bind; [use @obeys_query | intros head].
    use @obeys_bind; [auto with py | intros card].
    use @obeys_bind; [apply (obeys_write_file_at P _) | intros _; auto with py]. }
  destruct (O _ _ _ E) as [P2 _]. eapply quiet_trans; eauto.
Qed.
End Outputs.

(** ** The digests in the card and the archive on disk *)

Lemma plain_with_extension base ext :
  Str.mem "/" base = false -> Str.mem "/" ext = false -> (3 <= String.length ext)%nat ->
  Path.plain (base ++ ext) = true.
Proof.
  intros Mb Me Le. unfold Path.plain.
  assert (N : forall s, (String.length s < 3)%nat -> String.eqb (base ++ ext) s = false).
  { intros s Ls. apply String.eqb_neq. intros E. apply (f_equal String.length) in E.
    rewrite length_app in E. lia. }
  rewrite !N by (simpl; lia). now rewrite mem_app, Mb, Me.
Qed.

Lemma append_inv_head (a b c : string) : (a ++ b = a ++ c)%string -> b = c.
Proof. induction a; simpl; [auto | intros [= E]; auto]. Qed.

Lemma outputs_differ save_root base :
  Str.mem "/" base = false ->
  Path.components (zip_path save_root base) <> Path.components (yaml_path save_root base).
Proof.
  intros M. unfold zip_path, yaml_path.
  rewrite !components_join by (apply plain_with_extension; auto; simpl; lia).
  intros E. apply app_inv_head in E. injection E as E.
  apply append_inv_head in E. discriminate.
Qed.

Lemma zip_folder_ok_archive folder zip_name w w' :
  zip_folder folder zip_name w = (Ok tt, w') ->
  exists members, OS.lookup zip_name w' = inr (File (FZip members)).
Proof.
  unfold zip_folder, Zip.open_w. intros E.
  bind_cases E u w0 E0 e; [|discriminate]. injection E0 as _ <-.
  bind_cases E zipf w2 E2 e; [|discriminate].
  bind_cases E2 u2 w1 E1 e; [|discriminate]. injection E2 as <- <-.
  apply write_file_run in E1 as [(n & [=] & _) | (t & _ & S & ->)].
  bind_cases E names w3 E3 e; [|discriminate].
  pose proof (listdir_world _ _ _ _ E3) as ->.
  bind_cases E ms w4 E4 e; [|discriminate]. injection E as <-.
  destruct (zip_write_all_run _ _ _ _ _ _ _ E4) as (added & -> & _ & Z).
  exists added. apply Z. unfold OS.lookup. cbn [fs].
  eapply lookup_store_same; eauto.
Qed.

Lemma file_hashes_inv file_bytes zip_name w h w' :
  file_hashes file_bytes zip_name w = (Ok h, w') ->
  exists d, OS.lookup zip_name w = inr (File d) /\ fs w' = fs w /\
            h = (Hash.sha1_hex (file_bytes d), Hash.sha256_hex (file_bytes d)).
Proof.
  unfold file_hashes. intros E. bind_cases E f w1 E1 e; [|discriminate].
  injection E as <- <-. unfold OS.read_file in E1.
  destruct (OS.lookup zip_name w) as [n|[d|rd es]]; try discriminate.
  injection E1 as <- <-. exists d. auto.
Qed.

Section Integrity.
Variable file_bytes : fdata -> list Byte.byte.
Variable format_field : dict -> value -> string -> Fmt.error + string.
Variables (folder save_root template_file : string).
Variables (adapter_data metadata : option dict) (version url_template : value).

Let pack : Py unit :=
  pack_adapter file_bytes format_field folder save_root template_file
    adapter_data metadata version url_template.

(** X14. When [pack_adapter] returns, both outputs are in the file tree, and
    the digests recorded in the card's [files] entry are the SHA-1 and
    SHA-256 digests of the archive as it stands at its path at the end of the
    run: writing the card did not disturb the archive.  (This is for
    metadata without a [files] field of its own, which would replace the
    entry.) *)
Theorem card_digests_match_the_archive (w w' : world) :
  pack w = (Ok tt, w') ->
  (forall m, metadata = Some m -> AList.get "files" m = None) ->
  exists base members card url,
    OS.lookup (zip_path save_root base) w' = inr (File (FZip members)) /\
    OS.lookup (yaml_path save_root base) w' = inr (File (FYaml (VDict card))) /\
    AList.get "files" card
    = Some (VList [VDict [("version", version); ("url", VStr url);
                          ("sha1", VStr (Hash.sha1_hex (file_bytes (FZip members))));
                          ("sha256", VStr (Hash.sha256_hex (file_bytes (FZip members))))]]).
Proof.
  unfold pack, pack_adapter. intros E NF.
  bind_cases E data w1 E1 e; [|discriminate].
  bind_cases E base w1' E2 e; [|discriminate]. apply lift_inv in E2 as [E2 ->].
  symmetry in E2.
  bind_cases E u w2 E3 e; [|discriminate]. destruct u.
  bind_cases E hashes w3 E4 e; [|discriminate].
  bind_cases E url w3' E5 e; [|discriminate]. apply lift_inv in E5 as [E5 ->].
  bind_cases E tpl w4 E6 e; [|discriminate].
  bind_cases E head w4' E7 e; [|discriminate]. injection E7 as <- <-.
  bind_cases E card w4' E8 e; [|discriminate]. apply lift_inv in E8 as [E8 ->].
  symmetry in E8.
  bind_cases E u2 w5 E9 e; [|discriminate]. injection E as <-.
  destruct (zip_folder_ok_archive _ _ _ _ E3) as [members L2].
  destruct (file_hashes_inv _ _ _ _ _ E4) as (d & L2' & F3 & ->).
  rewrite L2 in L2'. injection L2' as <-.
  destruct (obeys_load_template same_fs _ _ _ _ E6) as [F4 _]. unfold same_fs in F4.
  apply write_file_run in E9 as [(n & [=] & _) | (t & _ & S & ->)].
  assert (M : Str.mem "/" base = false).
  { destruct (folder_name_inv _ _ E2) as (? & ? & ? & ? & _ & _ & _ & _ & ->).
    apply replace_no_slash. }
  exists base, members, card, url. unfold OS.lookup in *. cbn [fs printed].
  split; [|split].
  - apply (store_other_files _ _ _ _ _ (FZip members) S); [now apply outputs_differ|].
    now rewrite F4, F3.
  - eapply lookup_store_same; eauto.
  - destruct (fill_card_inv _ _ _ _ _ _ _ E8) as (name & c & nl & rf & _ & _ & _ & _ & ->).
    rewrite add_metadata_other.
    + rewrite !get_set_other by discriminate. rewrite get_set_same. reflexivity.
    + intros m Em. apply get_none_iff. now apply NF.
Qed.
End Integrity.

(** ** The collected data (lines 205-224) *)

Lemma has_set_mono {V} k k' (v : V) l :
  AList.has k l = true -> AList.has k (AList.set k' v l) = true.
Proof.
  unfold AList.has. intros H. destruct (string_dec k' k) as [->|N].
  - now rewrite get_set_same.
  - now rewrite get_set_other.
Qed.

Lemma has_update_l {V} k (src : list (string * V)) : forall d,
  AList.has k d = true -> AList.has k (AList.update d src) = true.
Proof.
  unfold AList.update. induction src as [|[k1 v1] src IH]; simpl; intros d H; [exact H|].
  apply IH. now apply has_set_mono.
Qed.

Lemma has_update_r {V} k (src : list (string * V)) : forall d,
  AList.has k src = true -> AList.has k (AList.update d src) = true.
Proof.
  unfold AList.update. induction src as [|[k1 v1] src IH]; simpl; intros d H; [discriminate|].
  unfold AList.has in H. simpl in H. destruct (String.eqb k k1) eqn:E.
  - apply String.eqb_eq in E. subst k1.
    apply (has_update_l k src). unfold AList.has. now rewrite get_set_same.
  - apply IH. exact H.
Qed.

Lemma ask_for_model_name_ok w a w' :
  ask_for_model_name w = (Ok a, w') -> AList.has "model_name" a = true.
Proof.
  unfold ask_for_model_name. intros E.
  bind_cases E u w0 E0 e; [|discriminate].
  bind_cases E a0 w1 E1 e; [|discriminate].
  bind_cases E v w2 E2 e; [|discriminate]. apply lift_inv in E2 as [E2 ->].
  bind_cases E u2 w3 E3 e; [|discriminate]. injection E as <- _.
  unfold getitem, AList.has in *. now destruct (AList.get "model_name" a0).
Qed.

(** X15. When the artifact's data has been collected, the folder's
    [adapter_config.json] was a JSON mapping, and no field of it and no field
    the caller passed has been lost: the prompts may replace values but
    remove no key.  The data has a [config_id] and a [model_name], and
    collecting it changed no file. *)
Theorem collected_data_keeps_every_field (folder : string) (adapter_data : option dict)
    (w w' : world) (data : dict) :
  collect_adapter_data folder adapter_data w = (Ok data, w') ->
  exists config,
    OS.lookup (Path.join folder "adapter_config.json") w = inr (File (FJson (VDict config))) /\
    (forall k, AList.has k config = true -> AList.has k data = true) /\
    (forall k, AList.has k (or_empty adapter_data) = true -> AList.has k data = true) /\
    AList.has "config_id" data = true /\
    AList.has "model_name" data = true /\
    fs w' = fs w.
Proof.
  intros E0. pose proof E0 as E.
  destruct (obeys_collect_adapter_data same_fs _ _ _ _ _ E0) as [F _].
  unfold collect_adapter_data in E.
  bind_cases E f w1 E1 e; [|discriminate].
  bind_cases E cv w1' E2 e; [|discriminate]. apply lift_inv in E2 as [E2 ->].
  bind_cases E config w1' E3 e; [|discriminate]. apply lift_inv in E3 as [E3 ->].
  destruct f as [|doc| |]; try discriminate. injection E2 as E2. subst cv.
  destruct doc as [| | | | | |kv]; try discriminate. injection E3 as E3. subst config.
  exists kv. split.
  { unfold OS.read_file in E1.
    destruct (OS.lookup (Path.join folder "adapter_config.json") w) as [n|[d|rd es]];
      try discriminate. now injection E1 as <- _. }
  bind_cases E d1 w2 E4 e; [|discriminate].
  assert (M1 : forall k, AList.has k (add_config adapter_data kv) = true ->
                         AList.has k d1 = true).
  { destruct (missing _ "type").
    - bind_cases E4 a w0 E4' e; [|discriminate]. injection E4 as <- _.
      intros k. apply has_update_l.
    - injection E4 as <- _. auto. }
  bind_cases E a1 w3 E5 e; [|discriminate].
  bind_cases E cid w3' E6 e; [|discriminate]. apply lift_inv in E6 as [E6 ->].
  bind_cases E a2 w4 E7 e; [|discriminate].
  assert (C : AList.has "config_id" (AList.update d1 a1) = true).
  { unfold getitem, AList.has in *. now destruct (AList.get "config_id" (AList.update d1 a1)). }
  assert (M3 : forall k, AList.has k (AList.update (AList.update d1 a1) a2) = true ->
                         AList.has k data = true).
  { destruct (missing _ "model_name").
    - bind_cases E a3 w5 E8 e; [|discriminate]. injection E as <- _.
      intros k. apply has_update_l.
    - injection E as <- _. auto. }
  assert (M : forall k, AList.has k (add_config adapter_data kv) = true ->
                        AList.has k data = true).
  { intros k H. apply M3. do 2 apply has_update_l. now apply M1. }
  split; [|split; [|split; [|split]]].
  - intros k H. apply M. unfold add_config. now apply has_update_r.
  - intros k H. apply M. unfold add_config. now apply has_update_l.
  - apply M3. now apply has_update_l.
  - destruct (missing (AList.update (AList.update d1 a1) a2) "model_name") eqn:Mi.
    + bind_cases E a3 w5 E8 e; [|discriminate]. injection E as <- _.
      apply has_update_r. eapply ask_for_model_name_ok; eauto.
    + injection E as <- _. unfold missing in Mi. unfold AList.has.
      now destruct (AList.get "model_name" (AList.update (AList.update d1 a1) a2)).
  - exact F.
Qed.

(** ** What the scan reports (lines 78-89) *)

Lemma head_plain s : Str.mem "/" s = false -> Path.head s = EmptyString.
Proof.
  destruct s as [|c s]; [reflexivity|]. intros M. cbn [Path.head]. now rewrite M.
Qed.

Lemma head_slash a name :
  Str.mem "/" name = false -> Path.head (a ++ String "/" name) = (a ++ "/")%string.
Proof.
  intros M. induction a as [|c a IH].
  - cbn [append Path.head]. rewrite mem_cons, Ascii.eqb_refl. cbn [orb].
    now rewrite head_plain.
  - change (String c a ++ String "/" name)%string with (String c (a ++ String "/" name)).
    cbn [Path.head]. rewrite mem_cons, mem_app, mem_cons, Ascii.eqb_refl.
    rewrite orb_true_r, orb_true_r. cbn [append]. now rewrite IH.
Qed.

Lemma normalize_empties k stack :
  Path.normalize (repeat EmptyString k) stack = List.rev stack.
Proof. induction k as [|k IH]; [reflexivity|]. exact IH. Qed.

Lemma split_slash_rstrip s :
  exists k, Str.split_slash s = Str.split_slash (Str.rstrip_slash s) ++ repeat EmptyString k.
Proof.
  induction s as [|c s [k IH]]; [now exists 0%nat|].
  cbn [Str.rstrip_slash Str.split_slash].
  destruct (Str.rstrip_slash s) as [|c' r] eqn:R.
  - destruct (Ascii.eqb c "/") eqn:E.
    + exists (S k). now rewrite IH.
    + exists k. rewrite IH. cbn [Str.split_slash app]. now rewrite E.
  - exists k. rewrite IH. cbn [Str.split_slash]. fold Str.split_slash.
    destruct (Ascii.eqb c "/"); [reflexivity|].
    pose proof (split_slash_not_nil (String c' r)) as N.
    cbn [Str.split_slash] in N.
    destruct (if Ascii.eqb c' "/" then _ else _) as [|h t]; [contradiction|].
    reflexivity.
Qed.

Lemma components_rstrip s : Path.components (Str.rstrip_slash s) = Path.components s.
Proof.
  unfold Path.components. destruct (split_slash_rstrip s) as [k ->].
  now rewrite normalize_app, normalize_empties, rev_involutive.
Qed.

Lemma components_slash_end a : Path.components (a ++ "/") = Path.components a.
Proof.
  unfold Path.components. rewrite split_slash_app.
  rewrite normalize_app. cbn [Str.split_slash Path.normalize String.eqb orb].
  apply rev_involutive.
Qed.

Lemma components_dirname_head h :
  Path.components (match Str.rstrip_slash h with EmptyString => h | r => r end)
  = Path.components h.
Proof.
  destruct (Str.rstrip_slash h) eqn:R; [reflexivity|].
  rewrite <- R. apply components_rstrip.
Qed.

(** The directory of a joined path names the same place as what was joined. *)
Lemma components_dirname_join a name :
  Path.plain name = true ->
  Path.components (Path.dirname (Path.join a name)) = Path.components a.
Proof.
  intros Pn. pose proof (plain_no_slash _ Pn) as M. unfold Path.join.
  assert (S : Str.starts_with "/" name = false).
  { destruct name as [|c name]; [reflexivity|].
    rewrite mem_cons, Ascii.eqb_sym in M. now apply orb_false_iff in M. }
  rewrite S. unfold Path.dirname. destruct (String.eqb a "") eqn:E; cbn [orb].
  - apply String.eqb_eq in E. subst a. cbn [append]. now rewrite head_plain.
  - destruct (Str.ends_with "/" a) eqn:W.
    + destruct (ends_with_slash _ W) as [a0 ->].
      rewrite append_assoc. cbn [append]. rewrite head_slash by assumption.
      apply components_dirname_head.
    + cbn [append]. rewrite head_slash by assumption.
      rewrite components_dirname_head. apply components_slash_end.
Qed.

Lemma weight_dirs_hold_the_name paths name w d :
  Path.plain name = true -> In d (weight_dirs paths name w) ->
  OS.path_exists (Path.join d name) w = true.
Proof.
  intros Pn. unfold weight_dirs. rewrite in_flat_map.
  intros (input_path & _ & I). apply in_map_iff in I as (f & <- & F).
  unfold glob_weights in F. rewrite in_flat_map in F. destruct F as (sub & _ & F).
  destruct (OS.path_exists _ w) eqn:X; [|contradiction].
  destruct F as [<-|[]]. revert X. unfold OS.path_exists, OS.lookup.
  rewrite (components_join (Path.join _ sub) name) by assumption.
  rewrite (components_join (Path.dirname _) name) by assumption.
  now rewrite components_dirname_join by assumption.
Qed.

(** X16. Every directory the scan reports holds an entry with the
    weights-file name the scan looked for, when that name is the name of a
    directory entry: joining a reported adapter directory with the adapter
    weights name gives a path that exists, and likewise for the reported
    model directories and the model weights name. *)
Theorem scan_reports_directories_with_weights
    (WEIGHTS_NAME ADAPTER_WEIGHTS_NAME : string) (self : command) (w : world) :
  Path.plain WEIGHTS_NAME = true -> Path.plain ADAPTER_WEIGHTS_NAME = true ->
  let (models_list, adapters_list) :=
    find_models_and_adapters WEIGHTS_NAME ADAPTER_WEIGHTS_NAME self w in
  (forall d, In d models_list -> OS.path_exists (Path.join d WEIGHTS_NAME) w = true) /\
  (forall d, In d adapters_list ->
     OS.path_exists (Path.join d ADAPTER_WEIGHTS_NAME) w = true).
Proof.
  intros Pm Pa. unfold find_models_and_adapters. split.
  - destruct (extract_from_models self); [|contradiction].
    intros d. now apply weight_dirs_hold_the_name.
  - intros d. now apply weight_dirs_hold_the_name.
Qed.

(** ** The loop over a list in two parts (lines 305-313) *)

Section LoopParts.
Variable file_bytes : fdata -> list Byte.byte.
Variable format_field : dict -> value -> string -> Fmt.error + string.
Variables (total : nat) (save_root template_file : string) (metadata : dict).
Variables (version url_template : value).

Let each (start : nat) (folders : list string) : Py unit :=
  pack_each file_bytes format_field start total folders save_root template_file
    metadata version url_template.

(** X17. Packing a list of folders is packing its first part and then, from
    the world that leaves, the rest with the numbering continued: the loop
    carries nothing from one folder to the next but the world, whether the
    folders before succeeded or failed. *)
Theorem pack_each_in_two_parts (folders1 folders2 : list string) (start : nat) (w : world) :
  exists w1,
    each start folders1 w = (Ok tt, w1) /\
    each start (folders1 ++ folders2) w
      = each (start + List.length folders1) folders2 w1.
Proof.
  revert start w. induction folders1 as [|folder rest IH]; intros start w.
  - exists w. split; [reflexivity|]. now rewrite Nat.add_0_r.
  - cbn [app List.length]. unfold each. rewrite !pack_each_turn. fold each.
    rewrite Nat.add_succ_r.
    destruct (pack_adapter _ _ _ _ _ _ _ _ _ _) as [[[]|ex] w2]; apply IH.
Qed.
End LoopParts.

(** * The sample runs of the further properties *)

Lemma metadata_is_written_last_witness :
  AList.wf sample_metadata /\
  fill_card sample_data sample_template_dict sample_file_info (VStr "1") false
    (Some sample_metadata) = Ok sample_card /\
  (forall k v, AList.get k sample_metadata = Some v -> AList.get k sample_card = Some v) /\
  AList.get "files" sample_card = Some (VList [VDict sample_file_info]).
Proof.
  assert (W : AList.wf sample_metadata).
  { unfold AList.wf. repeat constructor; simpl; intuition discriminate. }
  assert (R : fill_card sample_data sample_template_dict sample_file_info (VStr "1") false
                (Some sample_metadata) = Ok sample_card) by (vm_compute; reflexivity).
  split; [exact W|]. split; [exact R|].
  pose proof (metadata_is_written_last sample_data sample_template_dict sample_file_info
                sample_metadata sample_card (VStr "1") false W R) as (M & F & _).
  split; [exact M | exact (F eq_refl)].
Defined.

Example metadata_sample_card :
  AList.get "author" sample_card = Some (VStr "A") /\
  AList.get "config" sample_card
  = Some (VDict [("using", VStr "pfeiffer"); ("non_linearity", VStr "relu");
                 ("reduction_factor", VInt 16)]).
Proof. split; reflexivity. Qed.

Lemma names_that_differ_in_slashes_collide_witness :
  (forall k, In k name_keys ->
     exists s s', AList.get k (slash_data "bert/base") = Some (VStr s) /\
                  AList.get k (slash_data "bert-base") = Some (VStr s') /\
                  Str.replace "/" "-" s = Str.replace "/" "-" s') /\
  exists base,
    folder_name (slash_data "bert/base") = Ok base /\
    folder_name (slash_data "bert-base") = Ok base /\
    obind (folder_name (slash_data "bert/base"))
      (fun b => Ok (zip_path "out" b, yaml_path "out" b))
    = obind (folder_name (slash_data "bert-base"))
        (fun b => Ok (zip_path "out" b, yaml_path "out" b)).
Proof.
  assert (H : forall k, In k name_keys ->
     exists s s', AList.get k (slash_data "bert/base") = Some (VStr s) /\
                  AList.get k (slash_data "bert-base") = Some (VStr s') /\
                  Str.replace "/" "-" s = Str.replace "/" "-" s').
  { intros k [<-|[<-|[<-|[<-|[]]]]]; do 2 eexists; repeat split; reflexivity. }
  split; [exact H|].
  exact (names_that_differ_in_slashes_collide (slash_data "bert/base")
           (slash_data "bert-base") "out" H).
Defined.

Example slash_names_collide :
  folder_name (slash_data "bert/base") = Ok "bert-base_sst_glue_pfeiffer"%string /\
  folder_name (slash_data "bert-base") = Ok "bert-base_sst_glue_pfeiffer"%string.
Proof. split; reflexivity. Qed.

Lemma file_placeholder_gets_archive_name_witness :
  no_braces "https://hub/" = true /\ no_braces "?dl=1" = true /\
  AList.has "file" sample_data = false /\
  Str.mem "/" "bert-base_sst-2_glue_pfeiffer" = false /\
  download_url no_format (VStr ("https://hub/" ++ "{file}" ++ "?dl=1"))
    (zip_path "out" "bert-base_sst-2_glue_pfeiffer") sample_data
  = Ok ("https://hub/" ++ "bert-base_sst-2_glue_pfeiffer" ++ ".zip" ++ "?dl=1")%string.
Proof.
  split; [reflexivity|]. split; [reflexivity|]. split; [reflexivity|].
  split; [reflexivity|].
  exact (file_placeholder_gets_archive_name no_format "https://hub/" "?dl=1" "out"
           "bert-base_sst-2_glue_pfeiffer" sample_data eq_refl eq_refl eq_refl eq_refl).
Defined.

Lemma ask_for_model_name_caches_the_answer_witness :
  answers (World sample_tree [[("model_name", VStr "bert-base")]; []] [] [])
  = [("model_name", VStr "bert-base")] :: [[]] /\
  exists w',
    answers w' = [[]] /\
    fs w' = fs (World sample_tree [[("model_name", VStr "bert-base")]; []] [] []) /\
    match AList.get "model_name" [("model_name", VStr "bert-base")] with
    | Some v =>
        ask_for_model_name (World sample_tree [[("model_name", VStr "bert-base")]; []] [] [])
        = (Ok [("model_name", VStr "bert-base")], w') /\
        AList.get "model_name" (input_cache w') = Some v /\
        (forall k, k <> "model_name"%string ->
           AList.get k (input_cache w')
           = AList.get k (input_cache
                            (World sample_tree [[("model_name", VStr "bert-base")]; []] [] [])))
    | None =>
        ask_for_model_name (World sample_tree [[("model_name", VStr "bert-base")]; []] [] [])
        = (Raise (KeyError "model_name"), w') /\
        input_cache w'
        = input_cache (World sample_tree [[("model_name", VStr "bert-base")]; []] [] [])
    end.
Proof.
  split; [reflexivity|].
  exact (ask_for_model_name_caches_the_answer
           (World sample_tree [[("model_name", VStr "bert-base")]; []] [] [])
           [("model_name", VStr "bert-base")] [[]] eq_refl).
Defined.

Lemma ask_for_metadata_saves_what_it_returns_witness :
  ask_for_metadata "cache"
    (before_metadata session_folders (session_world session_metadata))
  = (Ok session_metadata, session_asked) /\
  OS.lookup (ADAPTER_PACK_METADATA_FILE "cache") session_asked
  = inr (File (FJson (VDict session_metadata))) /\
  (forall next a2 rest,
      fs next = fs session_asked -> answers next = a2 :: rest ->
      exists next',
        ask_for_metadata "cache" next = (Ok a2, next') /\
        OS.lookup (ADAPTER_PACK_METADATA_FILE "cache") next'
        = inr (File (FJson (VDict a2)))).
Proof.
  assert (R : ask_for_metadata "cache"
                (before_metadata session_folders (session_world session_metadata))
              = (Ok session_metadata, session_asked)) by (vm_compute; reflexivity).
  split; [exact R|].
  exact (ask_for_metadata_saves_what_it_returns "cache"
           (before_metadata session_folders (session_world session_metadata))
           session_asked session_metadata R).
Defined.


Example broken_metadata_file_sample :
  ask_for_metadata "cache" broken_world
  = (Raise AttributeError,
     printed (Read (ADAPTER_PACK_METADATA_FILE "cache")) broken_world).
Proof. reflexivity. Qed.

Lemma missing_template_exits_first_witness :
  template (session_command "missing.yaml") = Some "missing.yaml"%string /\
  "missing.yaml"%string <> EmptyString /\
  OS.isfile "missing.yaml" (session_world session_metadata) = false /\
  exists w',
    pack_adapters_interactive no_bytes no_format "cache" cached_template
      (session_command "missing.yaml") session_folders "out" (VStr "1")
      (session_world session_metadata)
    = (Raise (SystemExit 1), w') /\
    fs w' = fs (session_world session_metadata) /\
    answers w' = answers (session_world session_metadata) /\
    log w' = log (session_world session_metadata)
             ++ [Print Cyan ("========== Step 2: Packing "
                             ++ Str.of_nat (List.length session_folders)
                             ++ " adapters ==========");
                 Print Red "ERROR: Specified template file could not be found!"].
Proof.
  assert (N : "missing.yaml"%string <> EmptyString) by discriminate.
  split; [reflexivity|]. split; [exact N|]. split; [reflexivity|].
  exact (missing_template_exits_first no_bytes no_format "cache" cached_template
           (session_command "missing.yaml") session_folders "out" (VStr "1")
           "missing.yaml" (session_world session_metadata) eq_refl N eq_refl).
Defined.

Lemma batch_completes_after_metadata_witness :
  plain_path "tpl.yaml" = true /\ plain_path "out" = true /\
  plain_path "cache" = true /\
  template (session_command "tpl.yaml") = Some "tpl.yaml"%string /\
  OS.isfile "tpl.yaml" (session_world session_metadata) = true /\
  OS.path_exists "out" (session_world session_metadata) = true /\
  ask_for_metadata "cache"
    (before_metadata session_folders (session_world session_metadata))
  = (Ok session_metadata, session_asked) /\
  AList.get "adapter_url_template" session_metadata = Some (VStr "https://hub/{file}") /\
  exists w' l,
    pack_adapters_interactive no_bytes no_format "cache" cached_template
      (session_command "tpl.yaml") session_folders "out" (VStr "1")
      (session_world session_metadata)
    = (Ok tt, w') /\
    log w' = log session_asked ++ l ++ finalization /\
    forall i folder, nth_error session_folders i = Some folder ->
      In (header i (List.length session_folders) folder) l.
Proof.
  assert (R : ask_for_metadata "cache"
                (before_metadata session_folders (session_world session_metadata))
              = (Ok session_metadata, session_asked)) by (vm_compute; reflexivity).
  do 6 (split; [reflexivity|]). split; [exact R|]. split; [reflexivity|].
  exact (batch_completes_after_metadata no_bytes no_format "cache" cached_template
           (session_command "tpl.yaml") session_folders "out" (VStr "1")
           "tpl.yaml" (session_world session_metadata) session_asked session_metadata
           (VStr "https://hub/{file}") eq_refl eq_refl eq_refl eq_refl eq_refl eq_refl
           R eq_refl).
Defined.

Lemma batch_stops_without_url_template_answer_witness :
  plain_path "tpl.yaml" = true /\ plain_path "out" = true /\
  plain_path "cache" = true /\
  template (session_command "tpl.yaml") = Some "tpl.yaml"%string /\
  OS.isfile "tpl.yaml" (session_world [("author", VStr "A")]) = true /\
  OS.path_exists "out" (session_world [("author", VStr "A")]) = true /\
  ask_for_metadata "cache"
    (before_metadata session_folders (session_world [("author", VStr "A")]))
  = (Ok [("author", VStr "A")], session_asked_short) /\
  AList.get "adapter_url_template" [("author", VStr "A")] = None /\
  pack_adapters_interactive no_bytes no_format "cache" cached_template
    (session_command "tpl.yaml") session_folders "out" (VStr "1")
    (session_world [("author", VStr "A")])
  = (Raise (KeyError "adapter_url_template"), session_asked_short) /\
  OS.lookup (ADAPTER_PACK_METADATA_FILE "cache") session_asked_short
  = inr (File (FJson (VDict [("author", VStr "A")]))).
Proof.
  assert (R : ask_for_metadata "cache"
                (before_metadata session_folders (session_world [("author", VStr "A")]))
              = (Ok [("author", VStr "A")], session_asked_short))
    by (vm_compute; reflexivity).
  do 6 (split; [reflexivity|]). split; [exact R|]. split; [reflexivity|].
  exact (batch_stops_without_url_template_answer no_bytes no_format "cache" cached_template
           (session_command "tpl.yaml") session_folders "out" (VStr "1")
           "tpl.yaml" (session_world [("author", VStr "A")]) session_asked_short
           [("author", VStr "A")] eq_refl eq_refl eq_refl eq_refl eq_refl eq_refl
           R eq_refl).
Defined.

Lemma pack_adapter_touches_only_its_outputs_witness :
  pack_sample sample_start "adapters/bert-base" = (Ok tt, sample_done) /\
  exists outputs,
    (outputs = [] \/
     exists data w1 base,
       collect_adapter_data "adapters/bert-base" None sample_start = (Ok data, w1) /\
       folder_name data = Ok base /\
       outputs = [zip_path "out" base; yaml_path "out" base]) /\
    keeps_files_except outputs sample_start sample_done.
Proof.
  assert (R : pack_sample sample_start "adapters/bert-base" = (Ok tt, sample_done))
    by (vm_compute; reflexivity).
  split; [exact R|].
  exact (pack_adapter_touches_only_its_outputs no_bytes no_format "adapters/bert-base"
           "out" "tpl.yaml" None (Some sample_metadata) (VStr "1") VNone
           sample_start sample_done (Ok tt) R).
Defined.

Lemma card_digests_match_the_archive_witness :
  pack_sample sample_start "adapters/bert-base" = (Ok tt, sample_done) /\
  (forall m, Some sample_metadata = Some m -> AList.get "files" m = None) /\
  exists base members card url,
    OS.lookup (zip_path "out" base) sample_done = inr (File (FZip members)) /\
    OS.lookup (yaml_path "out" base) sample_done = inr (File (FYaml (VDict card))) /\
    AList.get "files" card
    = Some (VList [VDict [("version", VStr "1"); ("url", VStr url);
                          ("sha1", VStr (Hash.sha1_hex (no_bytes (FZip members))));
                          ("sha256", VStr (Hash.sha256_hex (no_bytes (FZip members))))]]).
Proof.
  assert (R : pack_sample sample_start "adapters/bert-base" = (Ok tt, sample_done))
    by (vm_compute; reflexivity).
  assert (F : forall m, Some sample_metadata = Some m -> AList.get "files" m = None).
  { intros m E. injection E as <-. reflexivity. }
  split; [exact R|]. split; [exact F|].
  exact (card_digests_match_the_archive no_bytes no_format "adapters/bert-base"
           "out" "tpl.yaml" None (Some sample_metadata) (VStr "1") VNone
           sample_start sample_done R F).
Defined.

Lemma collected_data_keeps_every_field_witness :
  collect_adapter_data "adapters/bert-base" None sample_start
  = (Ok sample_data, sample_collected) /\
  exists config,
    OS.lookup (Path.join "adapters/bert-base" "adapter_config.json") sample_start
    = inr (File (FJson (VDict config))) /\
    (forall k, AList.has k config = true -> AList.has k sample_data = true) /\
    (forall k, AList.has k (or_empty None) = true -> AList.has k sample_data = true) /\
    AList.has "config_id" sample_data = true /\
    AList.has "model_name" sample_data = true /\
    fs sample_collected = fs sample_start.
Proof.
  assert (R : collect_adapter_data "adapters/bert-base" None sample_start
              = (Ok sample_data, sample_collected)) by (vm_compute; reflexivity).
  split; [exact R|].
  exact (collected_data_keeps_every_field "adapters/bert-base" None sample_start
           sample_collected sample_data R).
Defined.

Lemma scan_reports_directories_with_weights_witness :
  Path.plain "pytorch_model.bin" = true /\ Path.plain "pytorch_adapter.bin" = true /\
  let (models_list, adapters_list) :=
    find_models_and_adapters "pytorch_model.bin" "pytorch_adapter.bin"
      (init ["zoo"; "zoo/bert"] None None true) zoo_world in
  (forall d, In d models_list ->
     OS.path_exists (Path.join d "pytorch_model.bin") zoo_world = true) /\
  (forall d, In d adapters_list ->
     OS.path_exists (Path.join d "pytorch_adapter.bin") zoo_world = true).
Proof.
  split; [reflexivity|]. split; [reflexivity|].
  exact (scan_reports_directories_with_weights "pytorch_model.bin" "pytorch_adapter.bin"
           (init ["zoo"; "zoo/bert"] None None true) zoo_world eq_refl eq_refl).
Defined.

Example two_parts_of_a_batch :
  pack_each no_bytes no_format 0 3 (["adapters/empty"; "adapters/locked"] ++ ["adapters/bert-base"])
    "out" "tpl.yaml" sample_metadata (VStr "1") VNone
    (World sample_tree (sample_answers ++ sample_answers) [] [])
  = pack_each no_bytes no_format 2 3 ["adapters/bert-base"]
      "out" "tpl.yaml" sample_metadata (VStr "1") VNone
      (snd (pack_each no_bytes no_format 0 3 ["adapters/empty"; "adapters/locked"]
              "out" "tpl.yaml" sample_metadata (VStr "1") VNone
              (World sample_tree (sample_answers ++ sample_answers) [] []))).
Proof. vm_compute. reflexivity. Qed.

(** * [run] (lines 316-349) *)

Lemma for_each_print {A} c (f : A -> string) xs : forall w,
  for_each xs (fun x => print c (f x)) w
  = (Ok tt, World (fs w) (answers w) (input_cache w)
              (log w ++ map (fun x => Print c (f x)) xs)).
Proof.
  induction xs as [|x xs IH]; intros w.
  - cbn [for_each map]. rewrite app_nil_r. now destruct w.
  - cbn [for_each map]. unfold bind at 1, print at 1, emit at 1. rewrite IH.
    cbn [fs answers input_cache log]. now rewrite <- app_assoc.
Qed.

Section RunFacts.
Variable file_bytes : fdata -> list Byte.byte.
Variable format_field : dict -> value -> string -> Fmt.error + string.
Variables WEIGHTS_NAME ADAPTER_WEIGHTS_NAME ADAPTER_CACHE : string.
Variable download_cached : string -> Py string.
Variable save_all_adapters : string -> Py (list string).
Variable self : command.

Let find := find_models_and_adapters WEIGHTS_NAME ADAPTER_WEIGHTS_NAME self.

Let main : Py unit :=
  run file_bytes format_field WEIGHTS_NAME ADAPTER_WEIGHTS_NAME ADAPTER_CACHE
    download_cached save_all_adapters self.

Let interactive (folders : list string) : Py unit :=
  pack_adapters_interactive file_bytes format_field ADAPTER_CACHE download_cached
    self folders (output_path self) (VStr "1").

(** [run] up to the user's choice of a mode. *)
Lemma run_to_the_mode w a rest :
  answers w = a :: rest ->
  main w =
    (mode <- lift (getitem a "mode") ;;
     if equals_str mode "exit" then ret tt
     else
       adapters_list <-
         (if equals_str mode "extract"
          then extract_all save_all_adapters (fst (find w)) (snd (find w))
          else ret (snd (find w))) ;;
       interactive adapters_list) (listed (find w) rest w).
Proof.
  intros A. unfold main, run. fold find.
  destruct (find w) as [models_list adapters_list]. cbn [fst snd].
  unfold bind at 1, print at 1, emit at 1.
  unfold bind at 1. rewrite for_each_print.
  unfold bind at 1. rewrite for_each_print.
  unfold bind at 1, prompt at 1. cbn [fs answers input_cache log]. rewrite A.
  unfold listed, listing. cbn [fst snd fs answers input_cache log].
  now rewrite <- !app_assoc.
Qed.


Lemma add_new_appends paths : forall l,
  exists added,
    add_new l paths = l ++ added /\ NoDup added /\
    (forall p, In p added -> ~ In p l) /\
    (forall p, In p paths -> In p (l ++ added)).
Proof.
  induction paths as [|q paths IH]; intros l.
  - exists []. rewrite app_nil_r. repeat split; [constructor | contradiction | contradiction].
  - cbn [add_new]. destruct (existsb (String.eqb q) l) eqn:X.
    + destruct (IH l) as (added & E & N & D & I). exists added.
      repeat split; try assumption. intros p [<-|Hp]; [|now apply I].
      apply existsb_exists in X as (x & Hx & Ex). apply String.eqb_eq in Ex. subst x.
      apply in_or_app. now left.
    + destruct (IH (l ++ [q])) as (added & E & N & D & I). exists (q :: added).
      assert (Q : ~ In q l).
      { intros Hq. assert (T : existsb (String.eqb q) l = true).
        { apply existsb_exists. exists q. split; [assumption | apply String.eqb_refl]. }
        congruence. }
      rewrite E, <- app_assoc. cbn [app]. repeat split.
      * constructor; [|assumption]. intros Hq. apply (D q Hq).
        apply in_or_app. right. now left.
      * intros p [<-|Hp]; [assumption|]. intros Hl. apply (D p Hp).
        apply in_or_app. now left.
      * intros p [<-|Hp].
        -- apply in_or_app. right. now left.
        -- specialize (I p Hp). rewrite <- app_assoc in I. exact I.
Qed.

(** X19. Extracting adapters from the models only adds to the list of
    adapters, at its end, and adds no path that is already in the list and
    none twice: the adapters the scan found keep their places, and a list
    without repetitions stays without repetitions. *)
Theorem extraction_adds_each_new_path_once (models_list adapters_list extended : list string)
    (w w' : world) :
  extract_all save_all_adapters models_list adapters_list w = (Ok extended, w') ->
  exists added,
    extended = adapters_list ++ added /\ NoDup added /\
    (forall p, In p added -> ~ In p adapters_list) /\
    (NoDup adapters_list -> NoDup extended).
Proof.
  revert adapters_list w. induction models_list as [|model_dir rest IH]; intros l w E.
  - injection E as <- _. exists []. rewrite app_nil_r.
    repeat split; [constructor | contradiction | auto].
  - cbn [extract_all] in E.
    bind_cases E u w1 E1 e; [|discriminate].
    bind_cases E paths w2 E2 e; [|discriminate].
    destruct (add_new_appends paths l) as (a1 & A1 & N1 & D1 & _). rewrite A1 in E.
    destruct (IH _ _ E) as (a2 & -> & N2 & D2 & _).
    assert (N : NoDup (a1 ++ a2)).
    { apply NoDup_app; [assumption | assumption |].
      intros p H1 H2. apply (D2 p H2). apply in_or_app. now right. }
    exists (a1 ++ a2). rewrite <- app_assoc. repeat split; [assumption | |].
    + intros p Hp Hl. apply in_app_or in Hp as [Hp|Hp]; [now apply (D1 p)|].
      apply (D2 p Hp). apply in_or_app. now left.
    + intros Nl. apply NoDup_app; [assumption | assumption |].
      intros p Hl Hp. apply in_app_or in Hp as [Hp|Hp]; [now apply (D1 p)|].
      apply (D2 p Hp). apply in_or_app. now left.
Qed.

Lemma add_new_keeps paths : forall l d, In d l -> In d (add_new l paths).
Proof.
  intros l d I. destruct (add_new_appends paths l) as (added & -> & _).
  apply in_or_app. now left.
Qed.

Lemma extract_all_keeps models_list : forall l w extended w' d,
  extract_all save_all_adapters models_list l w = (Ok extended, w') ->
  In d l -> In d extended.
Proof.
  induction models_list as [|model_dir rest IH]; intros l w extended w' d E I.
  - now injection E as <- _.
  - cbn [extract_all] in E.
    bind_cases E u w1 E1 e; [|discriminate].
    bind_cases E paths w2 E2 e; [|discriminate].
    eapply IH; [exact E|]. now apply add_new_keeps.
Qed.

(** X20. Every adapter the scan found is attempted.  For input paths that
    are plain literal paths, weights-file names that are literal entry names,
    and a template path, an output path and a cache path that are written
    plainly: when the user chooses a mode other than exit, the adapters to
    pack have been gathered (by the scan alone, or extended by the
    extraction), the template file is there, the output directory exists and
    the metadata prompt has given its answers with an
    [adapter_url_template], [run] runs to its end: it returns, each directory
    the scan listed as an adapter was announced in the loop, and the closing
    text is the last thing printed. *)
Theorem run_attempts_every_adapter_found (w w1 w2 : world) (a : dict) (rest : list dict)
    (mode : value) (folders : list string) (t : string) (metadata : dict)
    (url_template : value) :
  Forall (fun root => literal_path root = true) (input_paths self) ->
  Path.plain WEIGHTS_NAME = true -> no_wildcard WEIGHTS_NAME = true ->
  Path.plain ADAPTER_WEIGHTS_NAME = true -> no_wildcard ADAPTER_WEIGHTS_NAME = true ->
  plain_path t = true -> plain_path (output_path self) = true ->
  plain_path ADAPTER_CACHE = true ->
  answers w = a :: rest ->
  AList.get "mode" a = Some mode -> equals_str mode "exit" = false ->
  (if equals_str mode "extract"
   then extract_all save_all_adapters (fst (find w)) (snd (find w))
   else ret (snd (find w))) (listed (find w) rest w) = (Ok folders, w1) ->
  template self = Some t -> OS.isfile t w1 = true ->
  OS.path_exists (output_path self) w1 = true ->
  ask_for_metadata ADAPTER_CACHE (before_metadata folders w1) = (Ok metadata, w2) ->
  AList.get "adapter_url_template" metadata = Some url_template ->
  exists w' l,
    main w = (Ok tt, w') /\
    log w' = log w2 ++ l ++ finalization /\
    forall d, In d (snd (find w)) ->
      exists i, In (header i (List.length folders) d) l.
Proof.
  intros _ _ _ _ _ Pt _ _ A M X G T F P Q U.
  assert (N : t <> EmptyString) by (intros ->; discriminate).
  rewrite (run_to_the_mode w a rest A).
  unfold bind at 1, lift, getitem. rewrite M, X. unfold bind at 1. rewrite G.
  unfold interactive.
  rewrite (interactive_from_metadata file_bytes format_field ADAPTER_CACHE download_cached
             self folders (output_path self) (VStr "1") t w1 T N F P), Q.
  unfold getitem. rewrite U.
  destruct (loop_and_finalization file_bytes format_field folders (output_path self)
              (VStr "1") t (AList.remove "adapter_url_template" metadata) url_template w2)
    as (w' & l & R & L & H).
  exists w', l. split; [exact R|]. split; [exact L|].
  intros d I.
  assert (I' : In d folders).
  { destruct (equals_str mode "extract").
    - eapply extract_all_keeps; eauto.
    - unfold ret in G. now injection G as <- _. }
  apply In_nth_error in I' as [i E]. exists i. now apply H.
Qed.
End RunFacts.

(** * The sample runs of [run] *)


Example run_exit_log :
  log (snd (run no_bytes no_format "pytorch_model.bin" "pytorch_adapter.bin" "cache"
              cached_template saved_adapters run_command (run_world "exit")))
  = [Print Cyan "========== Step 1: Found models and adapters ==========";
     Print Plain "Adapter in adapters/bert-base";
     Asked ["mode"]].
Proof. vm_compute. reflexivity. Qed.

Lemma extraction_adds_each_new_path_once_witness :
  extract_all saved_adapters ["zoo/bert"] ["zoo/bert"] zoo_world
  = (Ok ["zoo/bert"; "zoo/bert/a"], zoo_extracted) /\
  exists added,
    ["zoo/bert"; "zoo/bert/a"] = ["zoo/bert"] ++ added /\ NoDup added /\
    (forall p, In p added -> ~ In p ["zoo/bert"]) /\
    (NoDup ["zoo/bert"] -> NoDup ["zoo/bert"; "zoo/bert/a"]).
Proof.
  assert (R : extract_all saved_adapters ["zoo/bert"] ["zoo/bert"] zoo_world
              = (Ok ["zoo/bert"; "zoo/bert/a"], zoo_extracted))
    by (vm_compute; reflexivity).
  split; [exact R|].
  exact (extraction_adds_each_new_path_once saved_adapters ["zoo/bert"] ["zoo/bert"]
           ["zoo/bert"; "zoo/bert/a"] zoo_world zoo_extracted R).
Defined.

Lemma run_attempts_every_adapter_found_witness :
  Forall (fun root => literal_path root = true) (input_paths run_command) /\
  Path.plain "pytorch_model.bin" = true /\ no_wildcard "pytorch_model.bin" = true /\
  Path.plain "pytorch_adapter.bin" = true /\
  no_wildcard "pytorch_adapter.bin" = true /\
  plain_path "tpl.yaml" = true /\ plain_path (output_path run_command) = true /\
  plain_path "cache" = true /\
  answers (run_world "no_extract")
  = [("mode", VStr "no_extract")] :: session_metadata :: sample_answers /\
  AList.get "mode" [("mode", VStr "no_extract")] = Some (VStr "no_extract") /\
  equals_str (VStr "no_extract") "exit" = false /\
  (if equals_str (VStr "no_extract") "extract"
   then extract_all saved_adapters
          (fst (find_models_and_adapters "pytorch_model.bin" "pytorch_adapter.bin"
                  run_command (run_world "no_extract")))
          (snd (find_models_and_adapters "pytorch_model.bin" "pytorch_adapter.bin"
                  run_command (run_world "no_extract")))
   else ret (snd (find_models_and_adapters "pytorch_model.bin" "pytorch_adapter.bin"
                    run_command (run_world "no_extract"))))
    (listed (find_models_and_adapters "pytorch_model.bin" "pytorch_adapter.bin"
               run_command (run_world "no_extract"))
            (session_metadata :: sample_answers) (run_world "no_extract"))
  = (Ok ["adapters/bert-base"], run_listed) /\
  template run_command = Some "tpl.yaml"%string /\
  OS.isfile "tpl.yaml" run_listed = true /\
  OS.path_exists (output_path run_command) run_listed = true /\
  ask_for_metadata "cache" (before_metadata ["adapters/bert-base"] run_listed)
  = (Ok session_metadata, run_asked) /\
  AList.get "adapter_url_template" session_metadata = Some (VStr "https://hub/{file}") /\
  exists w' l,
    run no_bytes no_format "pytorch_model.bin" "pytorch_adapter.bin" "cache"
      cached_template saved_adapters run_command (run_world "no_extract")
    = (Ok tt, w') /\
    log w' = log run_asked ++ l ++ finalization /\
    forall d,
      In d (snd (find_models_and_adapters "pytorch_model.bin" "pytorch_adapter.bin"
                   run_command (run_world "no_extract"))) ->
      exists i, In (header i (List.length ["adapters/bert-base"]) d) l.
Proof.
  assert (G : (if equals_str (VStr "no_extract") "extract"
               then extract_all saved_adapters
                      (fst (find_models_and_adapters "pytorch_model.bin" "pytorch_adapter.bin"
                              run_command (run_world "no_extract")))
                      (snd (find_models_and_adapters "pytorch_model.bin" "pytorch_adapter.bin"
                              run_command (run_world "no_extract")))
               else ret (snd (find_models_and_adapters "pytorch_model.bin"
                                "pytorch_adapter.bin" run_command (run_world "no_extract"))))
                (listed (find_models_and_adapters "pytorch_model.bin" "pytorch_adapter.bin"
                           run_command (run_world "no_extract"))
                        (session_metadata :: sample_answers) (run_world "no_extract"))
              = (Ok ["adapters/bert-base"], run_listed)) by (vm_compute; reflexivity).
  assert (Q : ask_for_metadata "cache" (before_metadata ["adapters/bert-base"] run_listed)
              = (Ok session_metadata, run_asked)) by (vm_compute; reflexivity).
  assert (L : Forall (fun root => literal_path root = true) (input_paths run_command))
    by (repeat constructor).
  split; [exact L|]. do 7 (split; [reflexivity|]).
  split; [reflexivity|]. split; [reflexivity|]. split; [reflexivity|]. split; [exact G|].
  split; [reflexivity|]. split; [reflexivity|]. split; [reflexivity|].
  split; [exact Q|]. split; [reflexivity|].
  exact (run_attempts_every_adapter_found no_bytes no_format "pytorch_model.bin"
           "pytorch_adapter.bin" "cache" cached_template saved_adapters run_command
           (run_world "no_extract") run_listed run_asked [("mode", VStr "no_extract")]
           (session_metadata :: sample_answers) (VStr "no_extract") ["adapters/bert-base"]
           "tpl.yaml" session_metadata (VStr "https://hub/{file}")
           L eq_refl eq_refl eq_refl eq_refl eq_refl eq_refl eq_refl
           eq_refl eq_refl eq_refl G eq_refl eq_refl eq_refl Q eq_refl).
Defined.

Example run_packs_the_found_adapter :
  exists w',
    run no_bytes no_format "pytorch_model.bin" "pytorch_adapter.bin" "cache"
      cached_template saved_adapters run_command (run_world "no_extract") = (Ok tt, w') /\
    writes (log w')
    = [ADAPTER_PACK_METADATA_FILE "cache"; sample_zip; sample_yaml] /\
    match OS.lookup sample_yaml w' with
    | inr (File (FYaml (VDict card))) =>
        match AList.get "files" card with
        | Some (VList [VDict file_info]) =>
            AList.get "url" file_info
            = Some (VStr "https://hub/bert-base_sst-2_glue_pfeiffer.zip")
        | _ => False
        end
    | _ => False
    end.
Proof. eexists. vm_compute. repeat split; reflexivity. Qed.

(** * The scan against its description (lines 78-89) *)

Lemma node_nested_ind (P : node -> Prop) :
  (forall d, P (File d)) ->
  (forall r es, Forall (fun xc => P (snd xc)) es -> P (Dir r es)) ->
  forall n, P n.
Proof.
  intros Hf Hd. fix IH 1. intros [d|r es]; [apply Hf|]. apply Hd.
  induction es as [|[x c] es IHes]; constructor; [apply IH | exact IHes].
Qed.

Lemma ends_with_app c a b :
  b <> EmptyString -> Str.ends_with c (a ++ b) = Str.ends_with c b.
Proof.
  intros N. induction a as [|x a IH]; [reflexivity|].
  change (String x a ++ b)%string with (String x (a ++ b)).
  cbn [Str.ends_with]. destruct (a ++ b)%string eqn:E; [|exact IH].
  destruct a; [|discriminate]. cbn in E. contradiction.
Qed.

Lemma ends_with_mem c s : Str.ends_with c s = true -> Str.mem c s = true.
Proof.
  induction s as [|x s IH]; [discriminate|]. cbn [Str.ends_with]. rewrite mem_cons.
  destruct s as [|y s]; intros E.
  - now rewrite E.
  - rewrite (IH E). apply orb_true_r.
Qed.

Lemma plain_not_empty name : Path.plain name = true -> name <> EmptyString.
Proof. intros P ->. discriminate. Qed.

Lemma plain_no_end_slash name : Path.plain name = true -> Str.ends_with "/" name = false.
Proof.
  intros P. destruct (Str.ends_with "/" name) eqn:E; [|reflexivity].
  apply ends_with_mem in E. rewrite (plain_no_slash _ P) in E. discriminate.
Qed.

Lemma plain_no_start_slash name : Path.plain name = true -> Str.starts_with "/" name = false.
Proof.
  intros P. pose proof (plain_no_slash _ P) as M.
  destruct name as [|c name]; [reflexivity|].
  rewrite mem_cons in M. now apply orb_false_iff in M.
Qed.

Lemma rstrip_slash_end a : Str.rstrip_slash (a ++ "/") = Str.rstrip_slash a.
Proof.
  induction a as [|c a IH]; [reflexivity|].
  change (String c a ++ "/")%string with (String c (a ++ "/")).
  cbn [Str.rstrip_slash]. now rewrite IH.
Qed.

Lemma rstrip_slash_id a : Str.ends_with "/" a = false -> Str.rstrip_slash a = a.
Proof.
  induction a as [|c a IH]; [reflexivity|]. cbn [Str.ends_with Str.rstrip_slash].
  destruct a as [|c' a'].
  - intros E. cbn [Str.rstrip_slash]. rewrite Ascii.eqb_sym. now rewrite E.
  - intros E. now rewrite (IH E).
Qed.

(** The directory of [a/name] is [a]. *)
Lemma dirname_slash a name :
  a <> EmptyString -> Str.ends_with "/" a = false -> Str.mem "/" name = false ->
  Path.dirname (a ++ String "/" name) = a.
Proof.
  intros N E M. unfold Path.dirname. rewrite head_slash by assumption.
  rewrite rstrip_slash_end, rstrip_slash_id by assumption.
  destruct a; [contradiction | reflexivity].
Qed.

Lemma join_slash a b :
  a <> EmptyString -> Str.ends_with "/" a = false -> Str.starts_with "/" b = false ->
  Path.join a b = (a ++ String "/" b)%string.
Proof.
  intros N E S. unfold Path.join. rewrite S, E.
  apply String.eqb_neq in N. now rewrite N.
Qed.

Lemma split_slash_last_plain s :
  forallb Path.plain (Str.split_slash s) = true ->
  s <> EmptyString /\ Str.ends_with "/" s = false.
Proof.
  intros F. split.
  - intros ->. discriminate.
  - destruct (Str.ends_with "/" s) eqn:E; [|reflexivity].
    destruct (ends_with_slash _ E) as [a ->].
    change (a ++ "/")%string with (a ++ String "/" EmptyString)%string in F.
    rewrite split_slash_app, forallb_app in F.
    apply andb_true_iff in F as [_ F]. discriminate.
Qed.

Lemma plain_path_shape p :
  plain_path p = true -> p <> EmptyString /\ Str.ends_with "/" p = false.
Proof.
  destruct p as [|c rest]; [discriminate|]. unfold plain_path.
  destruct (Ascii.eqb c "/") eqn:C; intros F.
  - split; [discriminate|]. destruct (split_slash_last_plain _ F) as [N E].
    cbn [Str.ends_with]. destruct rest; [contradiction | exact E].
  - now apply split_slash_last_plain.
Qed.

(** [Str.join "/"] on a root and names. *)
Lemma join_names_cons root x ds :
  Str.join "/" (root :: x :: ds) = (root ++ String "/" (Str.join "/" (x :: ds)))%string.
Proof. reflexivity. Qed.

Lemma join_names_shift root x ds :
  Str.join "/" (root :: x :: ds) = Str.join "/" ((root ++ String "/" x)%string :: ds).
Proof.
  destruct ds as [|y ds]; [reflexivity|].
  unfold Str.join. cbn [String.concat]. now rewrite append_assoc.
Qed.

Lemma join_names_shape root ds :
  root <> EmptyString -> Str.ends_with "/" root = false ->
  Forall (fun d => Path.plain d = true) ds ->
  Str.join "/" (root :: ds) <> EmptyString /\
  Str.ends_with "/" (Str.join "/" (root :: ds)) = false /\
  Path.components (Str.join "/" (root :: ds)) = Path.components root ++ ds.
Proof.
  intros N E F. revert root N E. induction F as [|x ds Px F IH]; intros root N E.
  - cbn. now rewrite app_nil_r.
  - rewrite join_names_shift.
    destruct (IH (root ++ String "/" x)%string) as (N' & E' & C').
    + now destruct root.
    + rewrite ends_with_app by discriminate.
      cbn [Str.ends_with]. pose proof (plain_no_end_slash _ Px) as Ex.
      destruct x; [discriminate | exact Ex].
    + split; [exact N'|]. split; [exact E'|].
      rewrite C', components_slash by assumption. now rewrite <- app_assoc.
Qed.

Lemma join_names_start x ds :
  Path.plain x = true -> Str.starts_with "/" (Str.join "/" (x :: ds)) = false.
Proof.
  intros P. pose proof (plain_no_start_slash _ P) as S.
  destruct ds as [|y ds]; [exact S|]. rewrite join_names_cons.
  destruct x; [discriminate | exact S].
Qed.

(** The names that lead to the directories below a well-formed node. *)
Lemma directories_below_plain : forall n,
  tree_wf n = true ->
  Forall (fun ds => ds <> [] /\ Forall (fun d => Path.plain d = true) ds)
         (directories_below n).
Proof.
  induction n as [d|r es IH] using node_nested_ind; intros W; [constructor|].
  destruct r; [|constructor]. cbn [tree_wf] in W. apply andb_true_iff in W as [_ W].
  cbn [directories_below].
  induction es as [|[x child] es IHes]; [constructor|].
  apply andb_true_iff in W as [W Wl]. apply andb_true_iff in W as [Px Wc].
  inversion IH as [|? ? IHc IHl]; subst. cbn [snd] in IHc.
  specialize (IHes IHl Wl).
  destruct child as [d|r' es']; [exact IHes|].
  destruct (Tree.hidden x); [exact IHes|].
  apply Forall_app. split; [|exact IHes]. constructor.
  - split; [discriminate|]. now constructor.
  - apply Forall_map. eapply Forall_impl; [|exact (IHc Wc)].
    intros ds [_ F]. split; [discriminate|]. now constructor.
Qed.

(** [glob]'s recursive listing gives the directories below a node, each
    written with slashes. *)
Lemma rlistdir_directories_below : forall n,
  tree_wf n = true ->
  Tree.rlistdir n = map (Str.join "/") (directories_below n).
Proof.
  induction n as [d|r es IH] using node_nested_ind; intros W; [reflexivity|].
  destruct r; [|reflexivity]. cbn [tree_wf] in W. apply andb_true_iff in W as [_ W].
  cbn [Tree.rlistdir directories_below].
  induction es as [|[x child] es IHes]; [reflexivity|].
  apply andb_true_iff in W as [W Wl]. apply andb_true_iff in W as [Px Wc].
  inversion IH as [|? ? IHc IHl]; subst. cbn [snd] in IHc.
  specialize (IHes IHl Wl).
  destruct child as [d|r' es']; [exact IHes|].
  destruct (Tree.hidden x); [exact IHes|].
  rewrite IHes. cbn [app map]. rewrite map_app. f_equal. f_equal.
  rewrite (IHc Wc), !map_map.
  apply map_ext_in. intros ds I.
  pose proof (directories_below_plain _ Wc) as F. rewrite Forall_forall in F.
  destruct (F ds I) as [N Pl]. destruct ds as [|y ds]; [contradiction|].
  inversion Pl; subst. rewrite join_names_cons.
  apply join_slash.
  - now apply plain_not_empty.
  - now apply plain_no_end_slash.
  - now apply join_names_start.
Qed.

Lemma lookup_append p q : forall t,
  Tree.lookup (p ++ q) t =
    match Tree.lookup p t with
    | inr n => Tree.lookup q n
    | inl e => inl e
    end.
Proof.
  induction p as [|c p IH]; intros t; [reflexivity|]. cbn [app Tree.lookup].
  destruct t as [d|r es]; [reflexivity|].
  destruct (AList.get c es); [apply IH | reflexivity].
Qed.

Lemma existsb_eqb_in x l : existsb (String.eqb x) l = true <-> In x l.
Proof.
  rewrite existsb_exists. split.
  - intros (y & I & E). apply String.eqb_eq in E. now subst.
  - intros I. exists x. split; [assumption | apply String.eqb_refl].
Qed.

Lemma distinct_nodup l : distinct l = true -> NoDup l.
Proof.
  induction l as [|x l IH]; [constructor|]. cbn [distinct].
  intros D. apply andb_true_iff in D as [X D]. constructor; [|auto].
  intros I. apply existsb_eqb_in in I. rewrite I in X. discriminate.
Qed.

Lemma get_in_keys {V} x (c : V) es : AList.get x es = Some c -> In (x, c) es.
Proof.
  induction es as [|[y v] es IH]; [discriminate|]. cbn [AList.get].
  destruct (String.eqb x y) eqn:E.
  - apply String.eqb_eq in E. intros [= ->]. subst. now left.
  - intros G. right. auto.
Qed.

Lemma in_get_distinct {V} x (c : V) es :
  NoDup (AList.keys es) -> In (x, c) es -> AList.get x es = Some c.
Proof.
  induction es as [|[y v] es IH]; [contradiction|]. cbn [AList.keys map fst].
  intros N I. inversion N as [|? ? Ny N']; subst. cbn [AList.get].
  destruct I as [[= -> ->]|I].
  - now rewrite String.eqb_refl.
  - destruct (String.eqb x y) eqn:E; [|now apply IH].
    apply String.eqb_eq in E. subst. exfalso. apply Ny.
    change y with (fst (y, c)). now apply in_map.
Qed.

Lemma tree_wf_entries r es :
  tree_wf (Dir r es) = true ->
  NoDup (AList.keys es) /\
  forall x c, In (x, c) es -> Path.plain x = true /\ tree_wf c = true.
Proof.
  cbn [tree_wf]. intros W. apply andb_true_iff in W as [D W].
  split; [now apply distinct_nodup|]. clear D.
  induction es as [|[y v] es IH]; [contradiction|].
  apply andb_true_iff in W as [W Wl]. apply andb_true_iff in W as [Py Wv].
  intros x c [[= -> ->]|I]; [auto | now apply IH].
Qed.

Lemma lookup_wf p : forall t n,
  tree_wf t = true -> Tree.lookup p t = inr n -> tree_wf n = true.
Proof.
  induction p as [|c p IH]; intros t n W L.
  - now injection L as <-.
  - cbn [Tree.lookup] in L. destruct t as [d|r es]; [discriminate|].
    destruct (AList.get c es) as [child|] eqn:G; [|discriminate].
    destruct (tree_wf_entries _ _ W) as [_ E].
    apply (IH child n); [|assumption]. now apply (E c child), get_in_keys.
Qed.

Section ScanSpec.
Variables (root name : string) (w : world).
Hypothesis root_plain : plain_path root = true.
Hypothesis name_plain : Path.plain name = true.

Lemma pattern_root :
  Path.dirname (Path.dirname (Path.join3 root "**" name)) = root.
Proof.
  destruct (plain_path_shape _ root_plain) as [N E].
  unfold Path.join3. rewrite (join_slash root "**") by (assumption || reflexivity).
  rewrite join_slash.
  - rewrite dirname_slash.
    + now apply dirname_slash.
    + now destruct root.
    + now rewrite ends_with_app by discriminate.
    + now apply plain_no_slash.
  - now destruct root.
  - now rewrite ends_with_app by discriminate.
  - now apply plain_no_start_slash.
Qed.

(** The path the pattern gives for the directory [ds] below the root. *)
Lemma found_path ds :
  Forall (fun d => Path.plain d = true) ds ->
  Path.join (Path.join root (Str.join "/" ds)) name
  = (Str.join "/" (root :: ds) ++ String "/" name)%string.
Proof.
  intros F. destruct (plain_path_shape _ root_plain) as [N E].
  pose proof (plain_no_start_slash _ name_plain) as S.
  destruct ds as [|x ds].
  - cbn [Str.join String.concat]. rewrite (join_slash root "") by (assumption || reflexivity).
    unfold Path.join. rewrite S. rewrite ends_with_app by discriminate.
    change (Str.ends_with "/" "/") with true. rewrite orb_true_r.
    now rewrite append_assoc.
  - inversion F as [|? ? Px F']; subst.
    rewrite (join_slash root) by (assumption || now apply join_names_start).
    rewrite <- join_names_cons.
    destruct (join_names_shape root (x :: ds) N E F) as (N' & E' & _).
    now apply join_slash.
Qed.

Lemma found_exists ds :
  Forall (fun d => Path.plain d = true) ds ->
  OS.path_exists (Str.join "/" (root :: ds) ++ String "/" name)%string w
  = match OS.lookup root w with
    | inr n => holds n name ds
    | inl _ => false
    end.
Proof.
  intros F. destruct (plain_path_shape _ root_plain) as [N E].
  destruct (join_names_shape root ds N E F) as (_ & _ & C).
  unfold OS.path_exists, OS.lookup, holds.
  rewrite components_slash, C by assumption.
  rewrite <- app_assoc, lookup_append.
  now destruct (Tree.lookup (Path.components root) (fs w)).
Qed.

Lemma found_dirname ds :
  Forall (fun d => Path.plain d = true) ds ->
  Path.dirname (Str.join "/" (root :: ds) ++ String "/" name)%string
  = Str.join "/" (root :: ds).
Proof.
  intros F. destruct (plain_path_shape _ root_plain) as [N E].
  destruct (join_names_shape root ds N E F) as (N' & E' & _).
  apply dirname_slash; [assumption | assumption | now apply plain_no_slash].
Qed.

Hypothesis tree_ok : tree_wf (fs w) = true.

Lemma matches_below_plain :
  Forall (fun ds => Forall (fun d => Path.plain d = true) ds) (matches_below root name w).
Proof.
  unfold matches_below. destruct (OS.lookup root w) as [e|n] eqn:L; [constructor|].
  apply Forall_forall. intros ds I. apply filter_In in I as [I _].
  destruct I as [<-|I]; [constructor|].
  pose proof (directories_below_plain n (lookup_wf _ _ _ tree_ok L)) as F.
  rewrite Forall_forall in F. now destruct (F ds I).
Qed.

(** The matches of the pattern are the matches at or below the root. *)
Lemma glob_weights_matches :
  glob_weights root name w
  = map (fun ds => (Str.join "/" (root :: ds) ++ String "/" name)%string)
        (matches_below root name w).
Proof.
  unfold glob_weights. rewrite pattern_root. unfold matches_below.
  destruct (OS.lookup root w) as [e|n] eqn:L.
  - cbn [flat_map app]. change EmptyString with (Str.join "/" []).
    rewrite found_path, found_exists by constructor. now rewrite L.
  - pose proof (lookup_wf _ _ _ tree_ok L) as Wn.
    rewrite (rlistdir_directories_below n Wn).
    change (EmptyString :: map (Str.join "/") (directories_below n))
      with (map (Str.join "/") ([] :: directories_below n)).
    assert (F : Forall (fun ds => Forall (fun d => Path.plain d = true) ds)
                  ([] :: directories_below n)).
    { constructor; [constructor|]. eapply Forall_impl; [|exact (directories_below_plain n Wn)].
      now intros ds [_ F]. }
    induction F as [|ds l Pd F IH]; [reflexivity|].
    cbn [map flat_map filter]. rewrite IH.
    rewrite found_path, found_exists by assumption. rewrite L.
    now destruct (holds n name ds).
Qed.

Lemma weight_dirs_root :
  map Path.dirname (glob_weights root name w)
  = map (fun ds => Str.join "/" (root :: ds)) (matches_below root name w).
Proof.
  rewrite glob_weights_matches, map_map. apply map_ext_in. intros ds I.
  pose proof matches_below_plain as F. rewrite Forall_forall in F.
  now apply found_dirname, F.
Qed.
End ScanSpec.

Lemma weight_dirs_scan_result paths name w :
  Forall (fun p => plain_path p = true) paths -> Path.plain name = true ->
  tree_wf (fs w) = true ->
  weight_dirs paths name w = scan_result paths name w.
Proof.
  intros F Pn W. unfold weight_dirs, scan_result.
  induction F as [|p l Pp F IH]; [reflexivity|]. cbn [flat_map]. rewrite IH.
  now rewrite weight_dirs_root.
Qed.

(** The directories below a node are those its names descend to. *)
Lemma directories_below_descends : forall n,
  tree_wf n = true ->
  forall ds, In ds (directories_below n) <-> ds <> [] /\ descends n ds = true.
Proof.
  induction n as [d|r es IH] using node_nested_ind; intros W ds.
  - cbn [directories_below]. split; [contradiction|].
    intros [N D]. destruct ds; [contradiction | discriminate].
  - destruct r.
    2:{ cbn [directories_below]. split; [contradiction|].
        intros [N D]. destruct ds; [contradiction | discriminate]. }
    destruct (tree_wf_entries _ _ W) as [Nk We].
    assert (K : forall l,
      (forall x c, In (x, c) l -> In (x, c) es) ->
      (In ds ((fix each (l : list (string * node)) : list (list string) :=
                 match l with
                 | [] => []
                 | (x, child) :: l' =>
                     match child with
                     | Dir _ _ =>
                         if Tree.hidden x then each l'
                         else ([x] :: map (cons x) (directories_below child)) ++ each l'
                     | File _ => each l'
                     end
                 end) l)
       <-> exists x r' es' ds',
             ds = x :: ds' /\ In (x, Dir r' es') l /\ Tree.hidden x = false /\
             descends (Dir r' es') ds' = true)).
    { induction l as [|[x child] l IHl]; intros Sub.
      - split; [contradiction | intros (? & ? & ? & ? & _ & [] & _)].
      - assert (Sub' : forall x c, In (x, c) l -> In (x, c) es)
          by (intros; apply Sub; now right).
        specialize (IHl Sub').
        assert (Skip : (exists x0 r' es' ds',
                          ds = x0 :: ds' /\ In (x0, Dir r' es') l /\
                          Tree.hidden x0 = false /\ descends (Dir r' es') ds' = true)
                       -> exists x0 r' es' ds',
                          ds = x0 :: ds' /\ In (x0, Dir r' es') ((x, child) :: l) /\
                          Tree.hidden x0 = false /\ descends (Dir r' es') ds' = true).
        { intros (x0 & r' & es' & ds' & E & I & Hh & D).
          exists x0, r', es', ds'. repeat split; auto; now right. }
        destruct child as [d|r' es'].
        + rewrite IHl. split; [exact Skip|].
          intros (x0 & r0 & es0 & ds' & E & [[=]|I] & Hh & D). eauto 10.
        + destruct (Tree.hidden x) eqn:Hx.
          * rewrite IHl. split; [exact Skip|].
            intros (x0 & r0 & es0 & ds' & E & [[= -> -> ->]|I] & Hh & D);
              [congruence | eauto 10].
          * assert (Wc : tree_wf (Dir r' es') = true)
              by (apply (We x); apply Sub; now left).
            assert (IHc : forall ds', In ds' (directories_below (Dir r' es')) <->
                                      ds' <> [] /\ descends (Dir r' es') ds' = true).
            { rewrite Forall_forall in IH.
              exact (IH (x, Dir r' es') (Sub _ _ (or_introl eq_refl)) Wc). }
            rewrite in_app_iff, IHl. cbn [In]. rewrite in_map_iff. split.
            -- intros [[<-|(ds' & <- & I)]|R].
               ++ exists x, r', es', []. repeat split; auto; now left.
               ++ exists x, r', es', ds'. apply IHc in I as [_ D].
                  repeat split; auto; now left.
               ++ now apply Skip.
            -- intros (x0 & r0 & es0 & ds' & E & [[= -> -> ->]|I] & Hh & D).
               ++ left. subst ds. destruct ds' as [|y ds'']; [now left|].
                  right. exists (y :: ds''). split; [reflexivity|].
                  apply IHc. split; [discriminate | exact D].
               ++ right. eauto 10. }
    cbn [directories_below]. rewrite (K es (fun x c I => I)). split.
    + intros (x & r' & es' & ds' & -> & I & Hh & D). split; [discriminate|].
      cbn [descends]. rewrite Hh, (in_get_distinct _ _ _ Nk I). exact D.
    + intros [N D]. destruct ds as [|x ds']; [contradiction|]. cbn [descends] in D.
      apply andb_true_iff in D as [Hh D]. apply negb_true_iff in Hh.
      destruct (AList.get x es) as [[d|r' es']|] eqn:G; try discriminate.
      exists x, r', es', ds'. repeat split; auto; now apply get_in_keys.
Qed.

(** No directory is listed twice. *)
Lemma directories_below_nodup : forall n,
  tree_wf n = true -> NoDup (directories_below n).
Proof.
  induction n as [d|r es IH] using node_nested_ind; intros W; [constructor|].
  destruct r; [|constructor].
  destruct (tree_wf_entries _ _ W) as [Nk We].
  cbn [directories_below].
  match goal with |- NoDup (?f es) => set (each := f) end.
  assert (K : forall l,
    (forall x c, In (x, c) l -> In (x, c) es) -> NoDup (AList.keys l) ->
    NoDup (each l) /\
    forall ds, In ds (each l) -> exists y ds', ds = y :: ds' /\ In y (AList.keys l)).
  { induction l as [|[x child] l IHl]; intros Sub Nl.
    - split; [constructor | contradiction].
    - cbn [AList.keys map fst] in Nl. inversion Nl as [|? ? Nx Nl']; subst.
      assert (Sub' : forall x c, In (x, c) l -> In (x, c) es)
        by (intros; apply Sub; now right).
      destruct (IHl Sub' Nl') as [Nd Hd].
      assert (Hd' : forall ds, In ds (each l) ->
                exists y ds', ds = y :: ds' /\ In y (AList.keys ((x, child) :: l))).
      { intros ds I. destruct (Hd ds I) as (y & ds' & E & Iy).
        exists y, ds'. split; [exact E | now right]. }
      change (each ((x, child) :: l))
        with (match child with
              | Dir _ _ =>
                  if Tree.hidden x then each l
                  else ([x] :: map (cons x) (directories_below child)) ++ each l
              | File _ => each l
              end).
      destruct child as [d|r' es']; [now split|].
      destruct (Tree.hidden x); [now split|].
      assert (Wc : tree_wf (Dir r' es') = true)
        by (apply (We x); apply Sub; now left).
      assert (Nc : NoDup (directories_below (Dir r' es'))).
      { rewrite Forall_forall in IH.
        exact (IH (x, Dir r' es') (Sub _ _ (or_introl eq_refl)) Wc). }
      pose proof (directories_below_plain _ Wc) as Pc. rewrite Forall_forall in Pc.
      split.
      + apply NoDup_app; [|exact Nd|].
        * constructor.
          -- rewrite in_map_iff. intros (ds' & [= ->] & I). now destruct (Pc [] I).
          -- apply NoDup_map_NoDup_ForallPairs; [|exact Nc].
             intros a b _ _ [=]. assumption.
        * intros a Ia Ib. destruct (Hd a Ib) as (y & ds' & -> & Iy).
          destruct Ia as [[= -> _]|Ia]; [contradiction|].
          apply in_map_iff in Ia as (ds0 & [= -> _] & _). contradiction.
      + intros ds I. apply in_app_or in I as [I|I]; [|now apply Hd'].
        exists x. destruct I as [<-|I].
        * exists []. split; [reflexivity | now left].
        * apply in_map_iff in I as (ds0 & <- & _). exists ds0.
          split; [reflexivity | now left]. }
  now apply (K es (fun x c I => I)).
Qed.

Lemma join_names_injective root ds1 ds2 :
  plain_path root = true ->
  Forall (fun d => Path.plain d = true) ds1 ->
  Forall (fun d => Path.plain d = true) ds2 ->
  Str.join "/" (root :: ds1) = Str.join "/" (root :: ds2) -> ds1 = ds2.
Proof.
  intros Pr F1 F2 E. destruct (plain_path_shape _ Pr) as [N Es].
  destruct (join_names_shape root ds1 N Es F1) as (_ & _ & C1).
  destruct (join_names_shape root ds2 N Es F2) as (_ & _ & C2).
  rewrite E, C2 in C1. now apply app_inv_head in C1.
Qed.

Lemma matches_below_nodup root name w :
  tree_wf (fs w) = true -> NoDup (matches_below root name w).
Proof.
  intros W. unfold matches_below.
  destruct (OS.lookup root w) as [e|n] eqn:L; [constructor|].
  pose proof (lookup_wf _ _ _ W L) as Wn.
  apply NoDup_filter. constructor; [|now apply directories_below_nodup].
  intros I. pose proof (directories_below_plain _ Wn) as P.
  rewrite Forall_forall in P. now destruct (P [] I).
Qed.

Lemma matches_below_descends root name w n :
  tree_wf (fs w) = true -> OS.lookup root w = inr n ->
  forall ds, In ds (matches_below root name w)
             <-> descends n ds = true /\ holds n name ds = true.
Proof.
  intros W L ds. pose proof (lookup_wf _ _ _ W L) as Wn.
  unfold matches_below. rewrite L, filter_In. cbn [In].
  rewrite (directories_below_descends n Wn). split.
  - intros [[<-|[_ D]] H]; auto.
  - intros [D H]. split; [|exact H].
    destruct ds; [now left | right; split; [discriminate | exact D]].
Qed.

Lemma scan_result_nodup root name w :
  plain_path root = true -> Path.plain name = true -> tree_wf (fs w) = true ->
  NoDup (scan_result [root] name w).
Proof.
  intros Pr Pn W. unfold scan_result. cbn [flat_map]. rewrite app_nil_r.
  apply NoDup_map_NoDup_ForallPairs; [|now apply matches_below_nodup].
  pose proof (matches_below_plain root name w W) as F. rewrite Forall_forall in F.
  intros a b Ia Ib E. eapply join_names_injective; eauto.
Qed.

Section ScanClaim.
Variables WEIGHTS_NAME ADAPTER_WEIGHTS_NAME : string.

Let find := find_models_and_adapters WEIGHTS_NAME ADAPTER_WEIGHTS_NAME.

(** C9, as amended.  For roots given as plain literal paths and weights-file
    names that are literal entry names, in a tree as a file system has it,
    the scan reports exactly what its description says: the adapter list is,
    for each root in order and for each match of the adapter weights name at
    or below it, the directory of that match, written as the root followed by
    the names that lead to it; the model list is the same for the model
    weights name when models are to be extracted, and empty otherwise.  The
    result for the roots [roots1 ++ roots2] is the result for [roots1]
    followed by the result for [roots2]: nothing is removed or merged across
    roots.  A match is the root itself or a directory reached from it through
    directories that can be listed, none of them hidden, that has an entry of
    the name; and for one root each match is listed once. *)
Theorem scan_lists_every_match (roots : list string) (out : string)
    (tpl : option string) (extract : bool) (w : world) :
  Forall (fun root => literal_path root = true) roots ->
  Path.plain WEIGHTS_NAME = true -> no_wildcard WEIGHTS_NAME = true ->
  Path.plain ADAPTER_WEIGHTS_NAME = true -> no_wildcard ADAPTER_WEIGHTS_NAME = true ->
  tree_wf (fs w) = true ->
  find (Command roots out tpl extract) w
  = ((if extract then scan_result roots WEIGHTS_NAME w else []),
     scan_result roots ADAPTER_WEIGHTS_NAME w) /\
  (forall name roots1 roots2,
     scan_result (roots1 ++ roots2) name w
     = scan_result roots1 name w ++ scan_result roots2 name w) /\
  (forall name root n ds,
     OS.lookup root w = inr n ->
     (In ds (matches_below root name w)
      <-> descends n ds = true /\ holds n name ds = true)) /\
  (forall root, In root roots ->
     NoDup (scan_result [root] WEIGHTS_NAME w) /\
     NoDup (scan_result [root] ADAPTER_WEIGHTS_NAME w)).
Proof.
  intros L Pm _ Pa _ W.
  assert (P : Forall (fun root => plain_path root = true) roots).
  { eapply Forall_impl; [|exact L]. unfold literal_path. intros root E.
    now apply andb_true_iff in E. }
  split; [|split; [|split]].
  - unfold find, find_models_and_adapters. cbn [input_paths extract_from_models].
    rewrite !weight_dirs_scan_result by assumption. now destruct extract.
  - intros name roots1 roots2. unfold scan_result. apply flat_map_app.
  - intros name root n ds Ln. now apply matches_below_descends.
  - intros root I. rewrite Forall_forall in P.
    split; apply scan_result_nodup; auto.
Qed.
End ScanClaim.

Lemma scan_lists_every_match_witness :
  Forall (fun root => literal_path root = true) ["zoo"; "zoo/bert"] /\
  Path.plain "pytorch_model.bin" = true /\ no_wildcard "pytorch_model.bin" = true /\
  Path.plain "pytorch_adapter.bin" = true /\ no_wildcard "pytorch_adapter.bin" = true /\
  tree_wf (fs zoo_world) = true /\
  find_models_and_adapters "pytorch_model.bin" "pytorch_adapter.bin"
    (Command ["zoo"; "zoo/bert"] "out" None true) zoo_world
  = ((if true then scan_result ["zoo"; "zoo/bert"] "pytorch_model.bin" zoo_world else []),
     scan_result ["zoo"; "zoo/bert"] "pytorch_adapter.bin" zoo_world).
Proof.
  assert (L : Forall (fun root => literal_path root = true) ["zoo"; "zoo/bert"])
    by (repeat constructor).
  split; [exact L|]. repeat (split; [reflexivity|]).
  exact (proj1 (scan_lists_every_match "pytorch_model.bin" "pytorch_adapter.bin"
                  ["zoo"; "zoo/bert"] "out" None true zoo_world
                  L eq_refl eq_refl eq_refl eq_refl eq_refl)).
Defined.

Example scan_result_sample :
  scan_result ["zoo"; "zoo/bert"] "pytorch_adapter.bin" zoo_world = ["zoo/bert"; "zoo/bert"] /\
  matches_below "zoo" "pytorch_adapter.bin" zoo_world = [["bert"]] /\
  matches_below "zoo/bert" "pytorch_adapter.bin" zoo_world = [[]].
Proof. repeat split. Qed.
